(** * PharmaCheck: the client-side interaction workflow

    A shallow embedding of the browser scripts of the repository

    - [index.js]            (search page: medication selector, autocomplete,
                             aggregate interaction check),
    - [interactions/index.js] (results page: cards, per-card translation),
    - [descriptions/index.js] (details page of one interaction),

    together with the junction table [Drug_Interaction] of the SQL schema.

    Conventions of the embedding.

    - A JavaScript string is a [string]; every [ascii] stands for one UTF-16
      code unit, so the model covers the strings whose code units are below
      256.  [String.length] is then the [.length] of the script.
    - A property that may be missing ([undefined]/[null]) is an [option].
    - The asynchronous handlers are programs of the monad [js]: a tree whose
      nodes are the [fetch] calls of the handler, in program order.  A handler
      runs to completion against a server; the list of requests it issued is
      its trace.
    - The DOM is represented by the part of it the scripts read or write.
      [escapeHtml] followed by an [innerHTML] assignment displays the text
      unchanged, so displayed text is stored as the text itself. *)

From Stdlib Require Import ZArith Ascii String Bool.
From stdpp Require Import base tactics numbers option list strings.

Set Default Proof Using "Type".
Local Set Warnings "-register-all".

(** ** JavaScript primitives used by the scripts *)

Module Js.

(** [String.prototype.toLowerCase] on one code unit below 256: the letters
    A-Z and the Latin-1 capitals (all of U+00C0..U+00DE but the
    multiplication sign U+00D7) move up by 32. *)
Definition lower_unit (c : ascii) : ascii :=
  let n := N_of_ascii c in
  if ((65 <=? n) && (n <=? 90)
      || (192 <=? n) && (n <=? 222) && negb (n =? 215))%N
  then ascii_of_N (n + 32) else c.

Fixpoint toLowerCase (s : string) : string :=
  match s with
  | EmptyString => EmptyString
  | String c r => String (lower_unit c) (toLowerCase r)
  end.

(** White space and line terminators below 256, as [trim] strips them. *)
Definition is_space (c : ascii) : bool :=
  let n := N_of_ascii c in
  ((9 <=? n) && (n <=? 13) || (n =? 32) || (n =? 160))%N.

Fixpoint trimStart (s : string) : string :=
  match s with
  | String c r => if is_space c then trimStart r else s
  | EmptyString => EmptyString
  end.

Fixpoint trimEnd (s : string) : string :=
  match s with
  | EmptyString => EmptyString
  | String c r =>
      match trimEnd r with
      | EmptyString => if is_space c then EmptyString else String c EmptyString
      | r' => String c r'
      end
  end.

Definition trim (s : string) : string := trimEnd (trimStart s).

(** [a === b] on strings. *)
Definition seq (a b : string) : bool := String.eqb a b.

(** Truthiness of a string: only the empty string is falsy. *)
Definition truthy (s : string) : bool := negb (String.eqb s "").

(** Truthiness of a property that holds a string when present. *)
Definition truthy_opt (o : option string) : bool :=
  match o with
  | Some s => truthy s
  | None => false
  end.

(** [a || b] where [a] is a possibly missing string and [b] a string. *)
Definition or_else (a : option string) (b : string) : string :=
  match a with
  | Some s => if truthy s then s else b
  | None => b
  end.

(** [a || b] where both sides are possibly missing strings. *)
Definition or_opt (a b : option string) : option string :=
  if truthy_opt a then a else b.

(** [xs.join(sep)] on an array of strings. *)
Definition join (sep : string) (xs : list string) : string :=
  String.concat sep xs.

(** [xs.find(p)]: the first element that satisfies [p], if any. *)
Fixpoint find {A} (p : A -> bool) (xs : list A) : option A :=
  match xs with
  | [] => None
  | x :: r => if p x then Some x else find p r
  end.

(** [xs.filter(p)]. *)
Fixpoint filter {A} (p : A -> bool) (xs : list A) : list A :=
  match xs with
  | [] => []
  | x :: r => if p x then x :: filter p r else filter p r
  end.

(** A parsed JSON value, for replies whose shape the scripts only probe. *)
Inductive json :=
| JNull
| JBool (b : bool)
| JNumber (z : Z)
| JString (s : string)
| JArray (items : list json)
| JObject (fields : list (string * json)).

Definition truthy_json (v : json) : bool :=
  match v with
  | JNull => false
  | JBool b => b
  | JNumber z => negb (z =? 0)%Z
  | JString s => truthy s
  | JArray _ | JObject _ => true
  end.

(** [v[0]] for a value [v] that is not [null]; [None] is [undefined]. *)
Definition index0 (v : json) : option json :=
  match v with
  | JArray items => head items
  | JString (String c _) => Some (JString (String c EmptyString))
  | JObject fields => snd <$> find (fun kv => seq (fst kv) "0") fields
  | _ => None
  end.

(** The double quote, for the messages that quote a term. *)
Definition dquote : string := String (ascii_of_nat 34) EmptyString.

End Js.

(** ** Data model *)

(** An interaction record as the pages receive it.  The scripts tell the three
    kinds apart by the fields that are present, so one record type carries the
    fields of all of them. *)
Record Interaction := {
  interaction_id : option Z;
  severity : option string;
  drug : option string;
  interaction : option string;
  name : option string;
  interaction_name : option string;
  disease_name : option string;
  hazard_level : option string;
  plausibility : option string;
  applicable_conditions : option string;
  professional_description : option string;
  patient_description : option string;
  ai_description : option string
}.

(** The reply of [/check_drug_interactions], handed over to the results page
    through [localStorage]. *)
Record Bundle := {
  interactions : option (list Interaction);
  food_interactions : option (list Interaction);
  disease_interactions : option (list Interaction);
  drugs : option (list string);
  prescribed_drug : option string;
  current_medications : option (list string)
}.

(** ** The network *)

(** Outcome of an awaited [fetch] followed by [response.json()]: either of the
    two may reject, and reading a property of a body that is not an object
    throws; all of these land in the handler's [catch]. *)
Inductive fetched (A : Type) :=
| Threw
| Got (a : A).
Arguments Threw {A}.
Arguments Got {A} a.

Record validate_body := { not_found_drugs : option (list string) }.

Record suggestion := { s_name : string; generic_name : option string }.

Record translate_body := {
  consumer_description : option string;
  error : option string
}.

(** A reply of [/translate_description]: [response.ok] and the parsed body. *)
Record translate_response := { ok : bool; body : fetched translate_body }.

Record check_response := { status : nat; data : Bundle }.

Inductive request :=
| ValidateDrugs (drugs : list string)
| SearchConditions (input : string)
| CheckDrugInteractions (drugs : list string) (prescribed : string)
| Autocomplete (type : string) (q : string)
| TranslateDescription (professional : option string) (id : option Z).

Definition answer (q : request) : Type :=
  match q with
  | ValidateDrugs _ => fetched validate_body
  | SearchConditions _ => fetched Js.json
  | CheckDrugInteractions _ _ => fetched check_response
  | Autocomplete _ _ => fetched (list suggestion)
  | TranslateDescription _ _ => fetched translate_response
  end.

(** An asynchronous handler: its [fetch] calls in program order, each
    continued with the reply. *)
Inductive js (R : Type) : Type :=
| Ret (r : R)
| Fetch (q : request) (k : answer q -> js R).
Arguments Ret {R} r.
Arguments Fetch {R} q k.

Fixpoint bind {A B} (p : js A) (f : A -> js B) : js B :=
  match p with
  | Ret a => f a
  | Fetch q k => Fetch q (fun x => bind (k x) f)
  end.

Notation "'await!' x := q 'in' p" := (Fetch q (fun x => p))
  (at level 10, x name, q at level 100, p at level 200,
   format "'[v' 'await!'  x  :=  q  'in' '/' p ']'").

(** A server answers every request; the answer may depend on the requests
    received before. *)
Definition server := list request -> forall q : request, answer q.

(** Runs a handler to completion: the requests issued so far, extended by
    those of the handler, and its result. *)
Fixpoint run {R} (srv : server) (p : js R) (seen : list request)
  : list request * R :=
  match p with
  | Ret r => (seen, r)
  | Fetch q k => run srv (k (srv seen q)) (seen ++ [q])
  end.

Definition trace {R} (srv : server) (p : js R) : list request :=
  fst (run srv p []).

Definition result {R} (srv : server) (p : js R) : R :=
  snd (run srv p []).

Definition is_interaction_fetch (q : request) : bool :=
  match q with
  | CheckDrugInteractions _ _ => true
  | _ => false
  end.

(** ** The search page ([index.js]) *)

Module Index.

(** An autocomplete dropdown: the [show] class and the suggestions listed. *)
Record dropdown := { show : bool; items : list suggestion }.

Inductive dropdown_id :=
| drugAutocomplete
| conditionAutocomplete
| medicationAutocomplete.

(** The state the script reads and writes: its globals, the form fields, the
    rendered selector, the error modal, the check button, [localStorage] and
    the location. *)
Record Page := {
  selectedMedications : list string;
  drugInput : string;
  conditionInput : string;
  medicationSearchInput : string;
  medicationSearchInput_disabled : bool;
  medicationTags : list string;
  medCount : nat;
  drugDropdown : dropdown;
  conditionDropdown : dropdown;
  medicationDropdown : dropdown;
  errorMessage : option string;
  checkBtn_disabled : bool;
  btnLoading : bool;
  results : string;
  pharmacheck_token : option string;
  pharmacheck_user : option string;
  interactionsData : option Bundle;
  location : option string
}.

Definition MAX_MEDICATIONS : nat := 5.

(** [showError(message)]: opens the modal with the message. *)
Definition showError (message : string) (st : Page) : Page :=
  {| selectedMedications := selectedMedications st;
     drugInput := drugInput st;
     conditionInput := conditionInput st;
     medicationSearchInput := medicationSearchInput st;
     medicationSearchInput_disabled := medicationSearchInput_disabled st;
     medicationTags := medicationTags st;
     medCount := medCount st;
     drugDropdown := drugDropdown st;
     conditionDropdown := conditionDropdown st;
     medicationDropdown := medicationDropdown st;
     errorMessage := Some message;
     checkBtn_disabled := checkBtn_disabled st;
     btnLoading := btnLoading st;
     results := results st;
     pharmacheck_token := pharmacheck_token st;
     pharmacheck_user := pharmacheck_user st;
     interactionsData := interactionsData st;
     location := location st |}.

(** Assignment to the global [selectedMedications]. *)
Definition set_selectedMedications (meds : list string) (st : Page) : Page :=
  {| selectedMedications := meds;
     drugInput := drugInput st;
     conditionInput := conditionInput st;
     medicationSearchInput := medicationSearchInput st;
     medicationSearchInput_disabled := medicationSearchInput_disabled st;
     medicationTags := medicationTags st;
     medCount := medCount st;
     drugDropdown := drugDropdown st;
     conditionDropdown := conditionDropdown st;
     medicationDropdown := medicationDropdown st;
     errorMessage := errorMessage st;
     checkBtn_disabled := checkBtn_disabled st;
     btnLoading := btnLoading st;
     results := results st;
     pharmacheck_token := pharmacheck_token st;
     pharmacheck_user := pharmacheck_user st;
     interactionsData := interactionsData st;
     location := location st |}.

(** [renderSelectedMedications()]: one tag per selected medication, the
    counter, and the search input disabled once the maximum is reached. *)
Definition renderSelectedMedications (st : Page) : Page :=
  {| selectedMedications := selectedMedications st;
     drugInput := drugInput st;
     conditionInput := conditionInput st;
     medicationSearchInput := medicationSearchInput st;
     medicationSearchInput_disabled :=
       MAX_MEDICATIONS <=? length (selectedMedications st);
     medicationTags := selectedMedications st;
     medCount := length (selectedMedications st);
     drugDropdown := drugDropdown st;
     conditionDropdown := conditionDropdown st;
     medicationDropdown := medicationDropdown st;
     errorMessage := errorMessage st;
     checkBtn_disabled := checkBtn_disabled st;
     btnLoading := btnLoading st;
     results := results st;
     pharmacheck_token := pharmacheck_token st;
     pharmacheck_user := pharmacheck_user st;
     interactionsData := interactionsData st;
     location := location st |}.

(** Clears the medication search box and closes its dropdown. *)
Definition clearMedicationSearch (st : Page) : Page :=
  {| selectedMedications := selectedMedications st;
     drugInput := drugInput st;
     conditionInput := conditionInput st;
     medicationSearchInput := "";
     medicationSearchInput_disabled := medicationSearchInput_disabled st;
     medicationTags := medicationTags st;
     medCount := medCount st;
     drugDropdown := drugDropdown st;
     conditionDropdown := conditionDropdown st;
     medicationDropdown :=
       {| show := false; items := items (medicationDropdown st) |};
     errorMessage := errorMessage st;
     checkBtn_disabled := checkBtn_disabled st;
     btnLoading := btnLoading st;
     results := results st;
     pharmacheck_token := pharmacheck_token st;
     pharmacheck_user := pharmacheck_user st;
     interactionsData := interactionsData st;
     location := location st |}.

(** The test [m => m.toLowerCase() === name.toLowerCase()]. *)
Definition same_name (name m : string) : bool :=
  Js.seq (Js.toLowerCase m) (Js.toLowerCase name).

(** [addMedication(name)].  The duplicate check uses the value returned by
    [find], the matching element itself, as the condition. *)
Definition addMedication (name : string) (st : Page) : Page :=
  if MAX_MEDICATIONS <=? length (selectedMedications st) then
    showError "Maximum 5 medications allowed" st
  else if Js.truthy_opt (Js.find (same_name name) (selectedMedications st)) then
    showError (name +:+ " is already added") st
  else
    clearMedicationSearch
      (renderSelectedMedications
         (set_selectedMedications (selectedMedications st ++ [name]) st)).

(** [removeMedication(name)]: keeps the entries [m !== name]. *)
Definition removeMedication (name : string) (st : Page) : Page :=
  renderSelectedMedications
    (set_selectedMedications
       (Js.filter (fun m => negb (Js.seq m name)) (selectedMedications st)) st).

Definition get_dropdown (d : dropdown_id) (st : Page) : dropdown :=
  match d with
  | drugAutocomplete => drugDropdown st
  | conditionAutocomplete => conditionDropdown st
  | medicationAutocomplete => medicationDropdown st
  end.

Definition set_dropdown (d : dropdown_id) (v : dropdown) (st : Page) : Page :=
  {| selectedMedications := selectedMedications st;
     drugInput := drugInput st;
     conditionInput := conditionInput st;
     medicationSearchInput := medicationSearchInput st;
     medicationSearchInput_disabled := medicationSearchInput_disabled st;
     medicationTags := medicationTags st;
     medCount := medCount st;
     drugDropdown :=
       match d with drugAutocomplete => v | _ => drugDropdown st end;
     conditionDropdown :=
       match d with conditionAutocomplete => v | _ => conditionDropdown st end;
     medicationDropdown :=
       match d with medicationAutocomplete => v | _ => medicationDropdown st end;
     errorMessage := errorMessage st;
     checkBtn_disabled := checkBtn_disabled st;
     btnLoading := btnLoading st;
     results := results st;
     pharmacheck_token := pharmacheck_token st;
     pharmacheck_user := pharmacheck_user st;
     interactionsData := interactionsData st;
     location := location st |}.

(** [dropdown.classList.remove('show')]. *)
Definition hide (d : dropdown_id) (st : Page) : Page :=
  set_dropdown d {| show := false; items := items (get_dropdown d st) |} st.

(** [fetchAutocomplete(query, type, dropdown, isMultiSelect)]. *)
Definition fetchAutocomplete (query type : string) (d : dropdown_id)
    (isMultiSelect : bool) (st : Page) : js Page :=
  if String.length query <? 2 then Ret (hide d st)
  else
    await! reply := Autocomplete type query in
    match reply with
    | Threw => Ret (hide d st)
    | Got data =>
        if length data =? 0 then Ret (hide d st)
        else
          let filteredData :=
            if isMultiSelect then
              Js.filter
                (fun item =>
                   negb (Js.truthy_opt
                           (Js.find (same_name (s_name item))
                              (selectedMedications st))))
                data
            else data in
          if length filteredData =? 0 then Ret (hide d st)
          else Ret (set_dropdown d {| show := true; items := filteredData |} st)
    end.

(** [selectAutocomplete(element, type, isMultiSelect)], for the suggestion
    with text [name] of dropdown [d]. *)
Definition selectAutocomplete (name type : string) (d : dropdown_id)
    (isMultiSelect : bool) (st : Page) : Page :=
  hide d
    (if isMultiSelect || Js.seq type "medications" then addMedication name st
     else if Js.seq type "drugs" then
       {| selectedMedications := selectedMedications st;
          drugInput := name;
          conditionInput := conditionInput st;
          medicationSearchInput := medicationSearchInput st;
          medicationSearchInput_disabled := medicationSearchInput_disabled st;
          medicationTags := medicationTags st;
          medCount := medCount st;
          drugDropdown := drugDropdown st;
          conditionDropdown := conditionDropdown st;
          medicationDropdown := medicationDropdown st;
          errorMessage := errorMessage st;
          checkBtn_disabled := checkBtn_disabled st;
          btnLoading := btnLoading st;
          results := results st;
          pharmacheck_token := pharmacheck_token st;
          pharmacheck_user := pharmacheck_user st;
          interactionsData := interactionsData st;
          location := location st |}
     else
       {| selectedMedications := selectedMedications st;
          drugInput := drugInput st;
          conditionInput := name;
          medicationSearchInput := medicationSearchInput st;
          medicationSearchInput_disabled := medicationSearchInput_disabled st;
          medicationTags := medicationTags st;
          medCount := medCount st;
          drugDropdown := drugDropdown st;
          conditionDropdown := conditionDropdown st;
          medicationDropdown := medicationDropdown st;
          errorMessage := errorMessage st;
          checkBtn_disabled := checkBtn_disabled st;
          btnLoading := btnLoading st;
          results := results st;
          pharmacheck_token := pharmacheck_token st;
          pharmacheck_user := pharmacheck_user st;
          interactionsData := interactionsData st;
          location := location st |}).

(** The check button: [disabled], and whether the loading label is shown in
    place of the text label. *)
Definition set_checkBtn (disabled loading : bool) (st : Page) : Page :=
  {| selectedMedications := selectedMedications st;
     drugInput := drugInput st;
     conditionInput := conditionInput st;
     medicationSearchInput := medicationSearchInput st;
     medicationSearchInput_disabled := medicationSearchInput_disabled st;
     medicationTags := medicationTags st;
     medCount := medCount st;
     drugDropdown := drugDropdown st;
     conditionDropdown := conditionDropdown st;
     medicationDropdown := medicationDropdown st;
     errorMessage := errorMessage st;
     checkBtn_disabled := disabled;
     btnLoading := loading;
     results := results st;
     pharmacheck_token := pharmacheck_token st;
     pharmacheck_user := pharmacheck_user st;
     interactionsData := interactionsData st;
     location := location st |}.

(** [resultsContainer.innerHTML = ...], as the text it displays. *)
Definition set_results (text : string) (st : Page) : Page :=
  {| selectedMedications := selectedMedications st;
     drugInput := drugInput st;
     conditionInput := conditionInput st;
     medicationSearchInput := medicationSearchInput st;
     medicationSearchInput_disabled := medicationSearchInput_disabled st;
     medicationTags := medicationTags st;
     medCount := medCount st;
     drugDropdown := drugDropdown st;
     conditionDropdown := conditionDropdown st;
     medicationDropdown := medicationDropdown st;
     errorMessage := errorMessage st;
     checkBtn_disabled := checkBtn_disabled st;
     btnLoading := btnLoading st;
     results := text;
     pharmacheck_token := pharmacheck_token st;
     pharmacheck_user := pharmacheck_user st;
     interactionsData := interactionsData st;
     location := location st |}.

(** Writes to [localStorage] and to [window.location.href]. *)
Definition set_storage (token user : option string) (stored : option Bundle)
    (href : option string) (st : Page) : Page :=
  {| selectedMedications := selectedMedications st;
     drugInput := drugInput st;
     conditionInput := conditionInput st;
     medicationSearchInput := medicationSearchInput st;
     medicationSearchInput_disabled := medicationSearchInput_disabled st;
     medicationTags := medicationTags st;
     medCount := medCount st;
     drugDropdown := drugDropdown st;
     conditionDropdown := conditionDropdown st;
     medicationDropdown := medicationDropdown st;
     errorMessage := errorMessage st;
     checkBtn_disabled := checkBtn_disabled st;
     btnLoading := btnLoading st;
     results := results st;
     pharmacheck_token := token;
     pharmacheck_user := user;
     interactionsData := stored;
     location := href |}.

(** [logout()]. *)
Definition logout (st : Page) : Page :=
  set_storage None None (interactionsData st) (Some "/welcome.html") st.

(** The local function [resetButton()] of [checkDrugInteraction]. *)
Definition resetButton (st : Page) : Page := set_checkBtn false false st.

(** The three messages of the validation steps. *)
Definition drug_not_found_message (drugInput : string) : string :=
  "Drug " +:+ Js.dquote +:+ drugInput +:+ Js.dquote +:+
  " was not found. Please check the spelling or try a different name.".

Definition condition_not_found_message (conditionInput : string) : string :=
  "Condition " +:+ Js.dquote +:+ conditionInput +:+ Js.dquote +:+
  " was not found. Please check the spelling.".

Definition medications_not_found_message (not_found : list string) : string :=
  "The following medications were not found: " +:+ Js.join ", " not_found.

(** The test [body.not_found_drugs && body.not_found_drugs.length > 0]. *)
Definition some_not_found (body : validate_body) : bool :=
  match not_found_drugs body with
  | Some l => 0 <? length l
  | None => false
  end.

(** The test [!conditionData || !conditionData[0]]. *)
Definition condition_missing (conditionData : Js.json) : bool :=
  negb (Js.truthy_json conditionData)
  || match Js.index0 conditionData with
     | Some first => negb (Js.truthy_json first)
     | None => true
     end.

(** A validation step that failed: the message, the button reset, the results
    area cleared; the [finally] clause resets the button once more. *)
Definition reject (message : string) (st : Page) : Page :=
  resetButton (set_results "" (resetButton (showError message st))).

(** The [catch] clause followed by [finally]. *)
Definition connection_failed (st : Page) : Page :=
  resetButton
    (set_results ""
       (showError "Unable to connect to the server. Please try again." st)).

(** [checkDrugInteraction()]. *)
Definition checkDrugInteraction (st : Page) : js Page :=
  let drugInput := Js.trim (drugInput st) in
  let conditionInput := Js.trim (conditionInput st) in
  if negb (Js.truthy drugInput) then
    Ret (showError "Please enter the drug being prescribed" st)
  else if negb (Js.truthy conditionInput) then
    Ret (showError "Please enter the condition being treated" st)
  else if length (selectedMedications st) =? 0 then
    Ret (showError "Please add at least one current medication" st)
  else
    let st := set_results "Analyzing interactions..." (set_checkBtn true true st) in
    await! drugData := ValidateDrugs [drugInput] in
    match drugData with
    | Threw => Ret (connection_failed st)
    | Got drugData =>
    if some_not_found drugData then
      Ret (reject (drug_not_found_message drugInput) st)
    else
    await! conditionData := SearchConditions conditionInput in
    match conditionData with
    | Threw => Ret (connection_failed st)
    | Got conditionData =>
    if condition_missing conditionData then
      Ret (reject (condition_not_found_message conditionInput) st)
    else
    await! medsData := ValidateDrugs (selectedMedications st) in
    match medsData with
    | Threw => Ret (connection_failed st)
    | Got medsData =>
    if some_not_found medsData then
      Ret (reject (medications_not_found_message
                     (default [] (not_found_drugs medsData))) st)
    else
    await! response := CheckDrugInteractions (selectedMedications st) drugInput in
    match response with
    | Threw => Ret (connection_failed st)
    | Got response =>
        if status response =? 401 then Ret (resetButton (logout st))
        else
          Ret (resetButton
                 (set_storage (pharmacheck_token st) (pharmacheck_user st)
                    (Some (data response)) (Some "/interactions/") st))
    end end end end.

(** The user actions the script listens to, and the handler each one reaches:
    a click on a suggestion, a click on the remove button of a tag, the
    debounce timer of one of the three inputs, a click on the check button. *)
Inductive event :=
| PickSuggestion (name type : string) (d : dropdown_id) (isMultiSelect : bool)
| RemoveTag (name : string)
| Debounced (d : dropdown_id)
| CheckClick.

Definition handle (e : event) (st : Page) : js Page :=
  match e with
  | PickSuggestion name type d isMultiSelect =>
      Ret (selectAutocomplete name type d isMultiSelect st)
  | RemoveTag name => Ret (removeMedication name st)
  | Debounced drugAutocomplete =>
      fetchAutocomplete (drugInput st) "drugs" drugAutocomplete false st
  | Debounced conditionAutocomplete =>
      fetchAutocomplete (conditionInput st) "conditions" conditionAutocomplete
        false st
  | Debounced medicationAutocomplete =>
      fetchAutocomplete (medicationSearchInput st) "drugs"
        medicationAutocomplete true st
  | CheckClick => checkDrugInteraction st
  end.

End Index.

(** ** The results page ([interactions/index.js]) *)

Module Interactions.

(** The three lists of the page; [data-type] of a card. *)
Inductive kind :=
| drug_kind
| food_kind
| disease_kind.

(** What a translate button displays, up to white space: the label of the
    template, the loading dots, or the failure notice. *)
Inductive caption :=
| TranslateToPatientFriendly
| Translating
| TranslationFailed.

Record button := { disabled : bool; label : caption }.

(** A rendered card.  [header_listeners] counts the click listeners attached
    to its header; [translate_btn] is [None] when the template emitted no
    button.  [card_severity] is the string the templates interpolate, without
    escaping, into the class of the card and into the severity badge; the
    other texts go through [escapeHtml] and are the texts displayed. *)
Record card := {
  data_index : nat;
  data_type : kind;
  card_severity : string;
  card_name : string;
  card_hazard : string;
  card_plausibility : string;
  card_conditions : string;
  detail_value : string;
  translate_btn : option button;
  ai_label : bool;
  expanded : bool;
  header_listeners : nat
}.

(** A list container.  Every assignment to [innerHTML] creates new elements;
    [epoch] counts these assignments, so that a callback holding an element of
    an earlier rendering can be told apart. *)
Inductive content :=
| EmptyState (text : string)
| Cards (cards : list card).

Record container := { epoch : nat; shown : content }.

(** A pending [setTimeout] callback of a failed translation: it holds the
    button of card [t_index] of list [t_kind] as rendered at [t_epoch]. *)
Record timer := { t_kind : kind; t_epoch : nat; t_index : nat }.

Record Page := {
  drugDrugInteractions : list Interaction;
  foodInteractions : list Interaction;
  diseaseInteractions : list Interaction;
  prescribedDrug : string;
  currentMedications : list string;
  drugDrugList : container;
  foodList : container;
  diseaseList : container;
  timers : list timer
}.

Definition records (k : kind) (st : Page) : list Interaction :=
  match k with
  | drug_kind => drugDrugInteractions st
  | food_kind => foodInteractions st
  | disease_kind => diseaseInteractions st
  end.

Definition list_of (k : kind) (st : Page) : container :=
  match k with
  | drug_kind => drugDrugList st
  | food_kind => foodList st
  | disease_kind => diseaseList st
  end.

Definition set_records (k : kind) (l : list Interaction) (st : Page) : Page :=
  {| drugDrugInteractions :=
       match k with drug_kind => l | _ => drugDrugInteractions st end;
     foodInteractions :=
       match k with food_kind => l | _ => foodInteractions st end;
     diseaseInteractions :=
       match k with disease_kind => l | _ => diseaseInteractions st end;
     prescribedDrug := prescribedDrug st;
     currentMedications := currentMedications st;
     drugDrugList := drugDrugList st;
     foodList := foodList st;
     diseaseList := diseaseList st;
     timers := timers st |}.

Definition set_list (k : kind) (c : container) (st : Page) : Page :=
  {| drugDrugInteractions := drugDrugInteractions st;
     foodInteractions := foodInteractions st;
     diseaseInteractions := diseaseInteractions st;
     prescribedDrug := prescribedDrug st;
     currentMedications := currentMedications st;
     drugDrugList :=
       match k with drug_kind => c | _ => drugDrugList st end;
     foodList :=
       match k with food_kind => c | _ => foodList st end;
     diseaseList :=
       match k with disease_kind => c | _ => diseaseList st end;
     timers := timers st |}.

Definition set_timers (ts : list timer) (st : Page) : Page :=
  {| drugDrugInteractions := drugDrugInteractions st;
     foodInteractions := foodInteractions st;
     diseaseInteractions := diseaseInteractions st;
     prescribedDrug := prescribedDrug st;
     currentMedications := currentMedications st;
     drugDrugList := drugDrugList st;
     foodList := foodList st;
     diseaseList := diseaseList st;
     timers := ts |}.

Definition cards_of (c : container) : list card :=
  match shown c with
  | Cards cs => cs
  | EmptyState _ => []
  end.

(** The card at position [i] of list [k], if it is displayed. *)
Definition card_at (k : kind) (i : nat) (st : Page) : option card :=
  cards_of (list_of k st) !! i.

(** The button the three templates emit under [!aiDesc && professionalDesc]. *)
Definition fresh_button : button :=
  {| disabled := false; label := TranslateToPatientFriendly |}.

(** [createInteractionCard(interaction, type, index)]. *)
Definition createInteractionCard (it : Interaction) (type : kind) (index : nat)
  : card :=
  let severity := Js.or_else (severity it) "Unknown" in
  let name :=
    Js.or_else (Js.or_opt (Js.or_opt (drug it) (interaction it)) (name it))
      "Unknown Interaction" in
  let professionalDesc :=
    Js.or_else (professional_description it) "No description available" in
  let aiDesc := ai_description it in
  let descriptionToShow := Js.or_else aiDesc professionalDesc in
  {| data_index := index;
     data_type := type;
     card_severity := severity;
     card_name := name;
     card_hazard := "";
     card_plausibility := "";
     card_conditions := "";
     detail_value := descriptionToShow;
     translate_btn :=
       if negb (Js.truthy_opt aiDesc) && Js.truthy professionalDesc
       then Some fresh_button else None;
     ai_label := Js.truthy_opt aiDesc;
     expanded := true;
     header_listeners := 0 |}.

(** [createFoodInteractionCard(interaction, index)]. *)
Definition createFoodInteractionCard (it : Interaction) (index : nat) : card :=
  let severity := Js.or_else (severity it) "Unknown" in
  let name := Js.or_else (interaction_name it) "Food/Lifestyle Interaction" in
  let hazard := Js.or_else (hazard_level it) "" in
  let plausibility := Js.or_else (plausibility it) "" in
  let professionalDesc :=
    Js.or_else (professional_description it) "No description available" in
  let aiDesc := ai_description it in
  let descriptionToShow := Js.or_else aiDesc professionalDesc in
  {| data_index := index;
     data_type := food_kind;
     card_severity := severity;
     card_name := name;
     card_hazard := hazard;
     card_plausibility := plausibility;
     card_conditions := "";
     detail_value := descriptionToShow;
     translate_btn :=
       if negb (Js.truthy_opt aiDesc) && Js.truthy professionalDesc
       then Some fresh_button else None;
     ai_label := false;
     expanded := true;
     header_listeners := 0 |}.

(** [createDiseaseInteractionCard(interaction, index)]. *)
Definition createDiseaseInteractionCard (it : Interaction) (index : nat)
  : card :=
  let severity := Js.or_else (severity it) "Unknown" in
  let name := Js.or_else (disease_name it) "Disease Interaction" in
  let hazard := Js.or_else (hazard_level it) "" in
  let plausibility := Js.or_else (plausibility it) "" in
  let conditions := Js.or_else (applicable_conditions it) "" in
  let professionalDesc :=
    Js.or_else (professional_description it) "No description available" in
  let aiDesc := ai_description it in
  let descriptionToShow := Js.or_else aiDesc professionalDesc in
  {| data_index := index;
     data_type := disease_kind;
     card_severity := severity;
     card_name := name;
     card_hazard := hazard;
     card_plausibility := plausibility;
     card_conditions := conditions;
     detail_value := descriptionToShow;
     translate_btn :=
       if negb (Js.truthy_opt aiDesc) && Js.truthy professionalDesc
       then Some fresh_button else None;
     ai_label := false;
     expanded := true;
     header_listeners := 0 |}.

(** The card template of each list. *)
Definition create_card (k : kind) (index : nat) (it : Interaction) : card :=
  match k with
  | drug_kind => createInteractionCard it drug_kind index
  | food_kind => createFoodInteractionCard it index
  | disease_kind => createDiseaseInteractionCard it index
  end.

Definition add_listener (c : card) : card :=
  {| data_index := data_index c;
     data_type := data_type c;
     card_severity := card_severity c;
     card_name := card_name c;
     card_hazard := card_hazard c;
     card_plausibility := card_plausibility c;
     card_conditions := card_conditions c;
     detail_value := detail_value c;
     translate_btn := translate_btn c;
     ai_label := ai_label c;
     expanded := expanded c;
     header_listeners := S (header_listeners c) |}.

Definition set_expanded (b : bool) (c : card) : card :=
  {| data_index := data_index c;
     data_type := data_type c;
     card_severity := card_severity c;
     card_name := card_name c;
     card_hazard := card_hazard c;
     card_plausibility := card_plausibility c;
     card_conditions := card_conditions c;
     detail_value := detail_value c;
     translate_btn := translate_btn c;
     ai_label := ai_label c;
     expanded := b;
     header_listeners := header_listeners c |}.

(** Writes to the translate button of a card; a card without a button has
    none to write to. *)
Definition set_btn (b : button) (c : card) : card :=
  {| data_index := data_index c;
     data_type := data_type c;
     card_severity := card_severity c;
     card_name := card_name c;
     card_hazard := card_hazard c;
     card_plausibility := card_plausibility c;
     card_conditions := card_conditions c;
     detail_value := detail_value c;
     translate_btn :=
       match translate_btn c with Some _ => Some b | None => None end;
     ai_label := ai_label c;
     expanded := expanded c;
     header_listeners := header_listeners c |}.

(** Applies [f] to the cards of a container, which stay the same elements. *)
Definition map_cards (f : list card -> list card) (c : container) : container :=
  {| epoch := epoch c;
     shown :=
       match shown c with
       | Cards cs => Cards (f cs)
       | EmptyState t => EmptyState t
       end |}.

(** Applies [f] to card [i] of list [k]. *)
Definition update_card (k : kind) (i : nat) (f : card -> card) (st : Page)
  : Page :=
  set_list k (map_cards (alter f i) (list_of k st)) st.

(** [setupCardListeners()]: one more click listener on every header of the
    document, the headers of the other lists included. *)
Definition setupCardListeners (st : Page) : Page :=
  set_list disease_kind (map_cards (fmap add_listener) (diseaseList st))
    (set_list food_kind (map_cards (fmap add_listener) (foodList st))
       (set_list drug_kind (map_cards (fmap add_listener) (drugDrugList st))
          st)).

(** The text of the empty state of each list. *)
Definition empty_text (k : kind) (st : Page) : string :=
  match k with
  | drug_kind =>
      "No drug-drug interactions found for " +:+
      (if 0 <? length (currentMedications st)
       then Js.join " and " (currentMedications st)
       else prescribedDrug st) +:+ "."
  | food_kind =>
      "No food/lifestyle interactions found for " +:+ prescribedDrug st +:+ "."
  | disease_kind =>
      "No disease/health condition interactions found for " +:+
      prescribedDrug st +:+ "."
  end.

(** [renderDrugDrugInteractions()], [renderFoodInteractions()] and
    [renderDiseaseInteractions()]: the container gets new content; listeners
    are set up only when cards were rendered. *)
Definition render (k : kind) (st : Page) : Page :=
  if length (records k st) =? 0 then
    set_list k {| epoch := S (epoch (list_of k st));
                  shown := EmptyState (empty_text k st) |} st
  else
    setupCardListeners
      (set_list k {| epoch := S (epoch (list_of k st));
                     shown := Cards (imap (create_card k) (records k st)) |} st).

Definition renderDrugDrugInteractions : Page -> Page := render drug_kind.
Definition renderFoodInteractions : Page -> Page := render food_kind.
Definition renderDiseaseInteractions : Page -> Page := render disease_kind.

(** [loadInteractionsData()] for a stored bundle [parsed], on the page as the
    document delivers it (empty containers): fills the globals and renders the
    three lists.  The heading and the counters it also writes are not part of
    the model. *)
Definition loadInteractionsData (parsed : Bundle) : Page :=
  let with_drugs :=
    match drugs parsed with
    | Some ds => 0 <? length ds
    | None => false
    end in
  let st :=
    {| drugDrugInteractions := default [] (interactions parsed);
       foodInteractions := default [] (food_interactions parsed);
       diseaseInteractions := default [] (disease_interactions parsed);
       prescribedDrug :=
         if with_drugs then Js.join ", " (default [] (drugs parsed))
         else Js.or_else (prescribed_drug parsed) "the selected medication";
       currentMedications :=
         if with_drugs then default [] (drugs parsed)
         else default [] (current_medications parsed);
       drugDrugList := {| epoch := 0; shown := Cards [] |};
       foodList := {| epoch := 0; shown := Cards [] |};
       diseaseList := {| epoch := 0; shown := Cards [] |};
       timers := [] |} in
  renderDiseaseInteractions
    (renderFoodInteractions (renderDrugDrugInteractions st)).

(** A click listener of a header: [card.classList.toggle('expanded')]. *)
Definition toggle (c : card) : card := set_expanded (negb (expanded c)) c.

(** A click on the header of a card runs every listener attached to it.  The
    translate button is not inside the header, so the guard of the listener
    on the target of the click never applies. *)
Definition clickHeader (k : kind) (i : nat) (st : Page) : Page :=
  update_card k i (fun c => Nat.iter (header_listeners c) toggle c) st.

(** The failure branch shared by the [else] and the [catch] of the three
    translate handlers: the notice on the button, and the callback that
    restores it scheduled. *)
Definition translation_failed (k : kind) (index : nat) (st : Page) : Page :=
  let st :=
    update_card k index
      (set_btn {| disabled := true; label := TranslationFailed |}) st in
  set_timers
    (timers st ++
       [{| t_kind := k; t_epoch := epoch (list_of k st); t_index := index |}])
    st.

(** The body of the callback: [button.disabled = false] and the label back.
    It acts on the button element it captured; when the list was rendered anew
    in between, that element is no longer in the document. *)
Definition restore_button (t : timer) (st : Page) : Page :=
  if epoch (list_of (t_kind t) st) =? t_epoch t then
    update_card (t_kind t) (t_index t) (set_btn fresh_button) st
  else st.

(** The oldest pending callback fires (they all wait the same 2000 ms). *)
Definition fireTimer (st : Page) : Page :=
  match timers st with
  | [] => st
  | t :: rest => restore_button t (set_timers rest st)
  end.

(** The assignments of the success branch to the record (an alias of the
    array element): the drug handler also overwrites [patient_description]. *)
Definition store_translation (k : kind) (text : option string)
    (it : Interaction) : Interaction :=
  {| interaction_id := interaction_id it;
     severity := severity it;
     drug := drug it;
     interaction := interaction it;
     name := name it;
     interaction_name := interaction_name it;
     disease_name := disease_name it;
     hazard_level := hazard_level it;
     plausibility := plausibility it;
     applicable_conditions := applicable_conditions it;
     professional_description := professional_description it;
     patient_description :=
       match k with
       | drug_kind => text
       | _ => patient_description it
       end;
     ai_description := text |}.

(** The request body: only the drug handler sends [interaction_id]. *)
Definition translate_request (k : kind) (it : Interaction) : request :=
  TranslateDescription (professional_description it)
    (match k with drug_kind => interaction_id it | _ => None end).

(** [translateDescription(index, 'drug', event)],
    [translateFoodDescription(index, event)] and
    [translateDiseaseDescription(index, event)], where [event.target] is the
    translate button of card [index] of the list.  Reading a property of a
    missing array element throws inside the [try]. *)
Definition translate (k : kind) (index : nat) (st : Page) : js Page :=
  let st :=
    update_card k index
      (set_btn {| disabled := true; label := Translating |}) st in
  match records k st !! index with
  | None => Ret (translation_failed k index st)
  | Some it =>
      await! response := translate_request k it in
      match response with
      | Threw => Ret (translation_failed k index st)
      | Got response =>
          if ok response then
            match body response with
            | Threw => Ret (translation_failed k index st)
            | Got data =>
                let it := store_translation k (consumer_description data) it in
                let st := set_records k (<[index := it]> (records k st)) st in
                let st := render k st in
                Ret (update_card k index (set_expanded true) st)
            end
          else Ret (translation_failed k index st)
      end
  end.

Definition translateDescription : nat -> Page -> js Page := translate drug_kind.
Definition translateFoodDescription : nat -> Page -> js Page :=
  translate food_kind.
Definition translateDiseaseDescription : nat -> Page -> js Page :=
  translate disease_kind.

(** What can happen on the page.  A translate handler is reachable only
    through the [onclick] attribute of a translate button, so a translate
    action takes place only on a card that displays the button, and a click on
    a disabled button dispatches nothing. *)
Inductive event :=
| HeaderClick (k : kind) (i : nat)
| TranslateClick (k : kind) (i : nat)
| TimerFires.

(** Whether card [i] of list [k] offers the translate action. *)
Definition offers_translate (k : kind) (i : nat) (st : Page) : bool :=
  match card_at k i st with
  | Some c =>
      match translate_btn c with
      | Some b => negb (disabled b)
      | None => false
      end
  | None => false
  end.

Definition handle (e : event) (st : Page) : js Page :=
  match e with
  | HeaderClick k i => Ret (clickHeader k i st)
  | TranslateClick k i =>
      if offers_translate k i st then translate k i st else Ret st
  | TimerFires => Ret (fireTimer st)
  end.

(** Handlers run one after the other, each to completion. *)
Fixpoint handle_all (srv : server) (es : list event) (st : Page)
    (seen : list request) : list request * Page :=
  match es with
  | [] => (seen, st)
  | e :: es =>
      let '(seen, st) := run srv (handle e st) seen in
      handle_all srv es st seen
  end.

(** The states of the page: those a stored bundle leads to, followed by any
    sequence of events against any server.  Every handler runs to completion
    before the next event is taken. *)
Inductive reachable : Page -> Prop :=
| reachable_load (parsed : Bundle) : reachable (loadInteractionsData parsed)
| reachable_event (srv : server) (seen : list request) (e : event) (st : Page) :
    reachable st -> reachable (snd (run srv (handle e st) seen)).

End Interactions.

(** ** The details page ([descriptions/index.js]) *)

Module Details.

(** Text of the translate button, up to white space; [Markup] is whatever the
    document ships. *)
Inductive caption :=
| Markup
| TranslatingDots
| GeneratePatientFriendlyVersion.

Record button := { disabled : bool; label : caption; hidden : bool }.

(** A block of the details card: its label and its text. *)
Record section := { detail_label : string; detail_text : string }.

Record Page := {
  currentInteraction : option Interaction;
  selectedInteraction : option Interaction;
  interactionTitle : string;
  severityIndicator : string;
  detailsCard : list section;
  aiSection_shown : bool;
  aiContent : string;
  translateBtn : button;
  alerts : list string
}.

Definition line_break : string := String (ascii_of_nat 10) EmptyString.

(** The blocks [renderDetails] builds, in order; an empty list displays
    the notice that no details are available. *)
Definition details_of (it : Interaction) : list section :=
  (if Js.truthy_opt (hazard_level it) || Js.truthy_opt (plausibility it) then
     [{| detail_label := "Risk Assessment";
         detail_text :=
           (if Js.truthy_opt (hazard_level it)
            then "Hazard: " +:+ default "" (hazard_level it) +:+ line_break
            else "") +:+
           (if Js.truthy_opt (plausibility it)
            then "Plausibility: " +:+ default "" (plausibility it)
            else "") |}]
   else []) ++
  (if Js.truthy_opt (applicable_conditions it) then
     [{| detail_label := "Applicable Conditions";
         detail_text := default "" (applicable_conditions it) |}]
   else []) ++
  (if Js.truthy_opt (professional_description it) then
     [{| detail_label := "Professional Description";
         detail_text := default "" (professional_description it) |}]
   else []) ++
  (if Js.truthy_opt (patient_description it)
      && negb (bool_decide
                 (patient_description it = professional_description it)) then
     [{| detail_label := "Patient Description";
         detail_text := default "" (patient_description it) |}]
   else []).

(** [showAIDescription(description)]. *)
Definition showAIDescription (description : option string) (st : Page) : Page :=
  {| currentInteraction := currentInteraction st;
     selectedInteraction := selectedInteraction st;
     interactionTitle := interactionTitle st;
     severityIndicator := severityIndicator st;
     detailsCard := detailsCard st;
     aiSection_shown := true;
     aiContent := default "" description;
     translateBtn :=
       {| disabled := disabled (translateBtn st);
          label := label (translateBtn st);
          hidden := true |};
     alerts := alerts st |}.

(** [renderDetails()], for the interaction [it] held in [currentInteraction]. *)
Definition renderDetails (it : Interaction) (st : Page) : Page :=
  let severity := Js.or_else (severity it) "Unknown" in
  let name :=
    Js.or_else
      (Js.or_opt (Js.or_opt (Js.or_opt (drug it) (interaction_name it))
                    (disease_name it)) (name it))
      "Interaction" in
  let st :=
    {| currentInteraction := currentInteraction st;
       selectedInteraction := selectedInteraction st;
       interactionTitle := name;
       severityIndicator := severity +:+ " Severity";
       detailsCard := details_of it;
       aiSection_shown := aiSection_shown st;
       aiContent := aiContent st;
       translateBtn := translateBtn st;
       alerts := alerts st |} in
  if Js.truthy_opt (ai_description it)
  then showAIDescription (ai_description it) st
  else st.

(** [loadInteractionDetails()] when [localStorage] holds a record: the page
    the document delivers, [doc], gets the record and is rendered. *)
Definition loadInteractionDetails (doc : Page) (stored : Interaction) : Page :=
  renderDetails stored
    {| currentInteraction := Some stored;
       selectedInteraction := Some stored;
       interactionTitle := interactionTitle doc;
       severityIndicator := severityIndicator doc;
       detailsCard := detailsCard doc;
       aiSection_shown := aiSection_shown doc;
       aiContent := aiContent doc;
       translateBtn := translateBtn doc;
       alerts := alerts doc |}.

Definition set_translateBtn (b : button) (st : Page) : Page :=
  {| currentInteraction := currentInteraction st;
     selectedInteraction := selectedInteraction st;
     interactionTitle := interactionTitle st;
     severityIndicator := severityIndicator st;
     detailsCard := detailsCard st;
     aiSection_shown := aiSection_shown st;
     aiContent := aiContent st;
     translateBtn := b;
     alerts := alerts st |}.

(** [alert(message)]. *)
Definition alert (message : string) (st : Page) : Page :=
  {| currentInteraction := currentInteraction st;
     selectedInteraction := selectedInteraction st;
     interactionTitle := interactionTitle st;
     severityIndicator := severityIndicator st;
     detailsCard := detailsCard st;
     aiSection_shown := aiSection_shown st;
     aiContent := aiContent st;
     translateBtn := translateBtn st;
     alerts := alerts st ++ [message] |}.

(** The button as both failure branches leave it. *)
Definition enable_again (st : Page) : Page :=
  set_translateBtn
    {| disabled := false;
       label := GeneratePatientFriendlyVersion;
       hidden := hidden (translateBtn st) |} st.

(** The [catch] clause. *)
Definition service_unreachable (st : Page) : Page :=
  enable_again
    (alert "Unable to connect to translation service. Please try again later."
       st).

(** The assignments of the success branch: the record and its stored copy. *)
Definition store_translation (text : option string) (it : Interaction)
    (st : Page) : Page :=
  let it :=
    {| interaction_id := interaction_id it;
       severity := severity it;
       drug := drug it;
       interaction := interaction it;
       name := name it;
       interaction_name := interaction_name it;
       disease_name := disease_name it;
       hazard_level := hazard_level it;
       plausibility := plausibility it;
       applicable_conditions := applicable_conditions it;
       professional_description := professional_description it;
       patient_description := patient_description it;
       ai_description := text |} in
  {| currentInteraction := Some it;
     selectedInteraction := Some it;
     interactionTitle := interactionTitle st;
     severityIndicator := severityIndicator st;
     detailsCard := detailsCard st;
     aiSection_shown := aiSection_shown st;
     aiContent := aiContent st;
     translateBtn := translateBtn st;
     alerts := alerts st |}.

(** [requestTranslation()]. *)
Definition requestTranslation (st : Page) : js Page :=
  match currentInteraction st with
  | None => Ret st
  | Some it =>
      if negb (Js.truthy_opt (professional_description it)) then Ret st
      else
        let st :=
          set_translateBtn
            {| disabled := true;
               label := TranslatingDots;
               hidden := hidden (translateBtn st) |} st in
        await! response :=
          TranslateDescription (professional_description it)
            (interaction_id it) in
        match response with
        | Threw => Ret (service_unreachable st)
        | Got response =>
            match body response with
            | Threw => Ret (service_unreachable st)
            | Got data =>
                if ok response then
                  let st := store_translation (consumer_description data) it st in
                  let st := showAIDescription (consumer_description data) st in
                  Ret (set_translateBtn
                         {| disabled := disabled (translateBtn st);
                            label := label (translateBtn st);
                            hidden := true |} st)
                else
                  Ret (enable_again
                         (alert
                            (Js.or_else (error data)
                               "Translation failed. Please try again.")
                            st))
            end
        end
  end.

(** The translate button is in the document; a click reaches
    [requestTranslation] only when the button is displayed and enabled. *)
Definition offers_translate (st : Page) : bool :=
  negb (hidden (translateBtn st)) && negb (disabled (translateBtn st)).

Definition clickTranslate (st : Page) : js Page :=
  if offers_translate st then requestTranslation st else Ret st.

(** The states of the page: the document with a stored record loaded, followed
    by any number of clicks on the translate button against any server. *)
Inductive reachable : Page -> Prop :=
| reachable_load (doc : Page) (stored : Interaction) :
    reachable (loadInteractionDetails doc stored)
| reachable_click (srv : server) (seen : list request) (st : Page) :
    reachable st -> reachable (snd (run srv (clickTranslate st) seen)).

End Details.

(** ** The junction table and the server-side merge *)

Module Aggregator.

(** A row of the table [Drug_Interaction] of the schema, whose primary key is
    the pair of the first two columns: which drug the interaction is listed
    under, the interaction record, and the display name of the other drug. *)
Record Drug_Interaction := {
  drug_id : Z;
  interaction_id : Z;
  interacting_drug_name : option string
}.

(** Modelled from the spec: the handler of [/check_drug_interactions] is not
    among the sources; this is the drug-drug part of [interactionsFor] of the
    Interaction Repository, which returns the full set of records associated
    with a drug identifier. *)
Definition interactionsFor (table : list Drug_Interaction) (drugId : Z)
  : list Drug_Interaction :=
  List.filter (fun r => (drug_id r =? drugId)%Z) table.

(** Whether an interaction record is already listed in the bundle. *)
Definition listed (id : Z) (bundle : list Drug_Interaction) : bool :=
  existsb (fun e => (interaction_id e =? id)%Z) bundle.

(** Modelled from the spec: the merge of step 5 of the Interaction Aggregator,
    missing from the sources with the rest of the handler.  Drug-drug
    interactions are deduplicated by interaction identity: an entry whose
    interaction is already listed is not listed again. *)
Definition merge_entry (bundle : list Drug_Interaction) (e : Drug_Interaction)
  : list Drug_Interaction :=
  if listed (interaction_id e) bundle then bundle else bundle ++ [e].

Definition merge_into (bundle set : list Drug_Interaction)
  : list Drug_Interaction :=
  fold_left merge_entry set bundle.

Definition merge (fetched_sets : list (list Drug_Interaction))
  : list Drug_Interaction :=
  fold_left merge_into fetched_sets [].

(** Modelled from the spec: steps 4 and 5 of [checkInteractions] for the
    validated medications (prescribed and current, deduplicated), missing from
    the sources: fetch the records of every medication, then merge. *)
Definition checkInteractions (table : list Drug_Interaction)
    (prescribedDrug : Z) (currentMedications : list Z)
  : list Drug_Interaction :=
  merge (interactionsFor table
           <$> remove_dups (prescribedDrug :: currentMedications)).

(** The entries of a bundle that stand for interaction record [id]. *)
Definition entries_for (id : Z) (bundle : list Drug_Interaction)
  : list Drug_Interaction :=
  List.filter (fun e => (interaction_id e =? id)%Z) bundle.

End Aggregator.

(** ** Vocabulary of the statements *)

(** A server that is out of reach: every [fetch] rejects. *)
Definition offline : server :=
  fun _ q =>
    match q return answer q with
    | ValidateDrugs _ => Threw
    | SearchConditions _ => Threw
    | CheckDrugInteractions _ _ => Threw
    | Autocomplete _ _ => Threw
    | TranslateDescription _ _ => Threw
    end.

(** A validation reply that lets the check go on. *)
Definition validated (r : fetched validate_body) : bool :=
  match r with
  | Got b => negb (Index.some_not_found b)
  | Threw => false
  end.

(** The names a validation reply reports as unknown, when it reports any. *)
Definition unknown_names (r : fetched validate_body) : option (list string) :=
  match r with
  | Got b => if Index.some_not_found b then not_found_drugs b else None
  | Threw => None
  end.

Definition condition_found (r : fetched Js.json) : bool :=
  match r with
  | Got v => negb (Index.condition_missing v)
  | Threw => false
  end.

Definition condition_unknown (r : fetched Js.json) : bool :=
  match r with
  | Got v => Index.condition_missing v
  | Threw => false
  end.

(** The form is filled in: the three guards at the top of
    [checkDrugInteraction] let the run start. *)
Definition form_complete (st : Index.Page) : bool :=
  Js.truthy (Js.trim (Index.drugInput st))
  && Js.truthy (Js.trim (Index.conditionInput st))
  && negb (length (Index.selectedMedications st) =? 0).

(** The invariant of the medication selector. *)
Definition selector_ok (meds : list string) : Prop :=
  length meds <= Index.MAX_MEDICATIONS /\ NoDup (Js.toLowerCase <$> meds).

(** A reply of [/translate_description] that counts as a failed call: the
    [fetch] rejected, the status is not ok, or the body of an ok reply does
    not parse. *)
Definition call_failed (r : fetched translate_response) : bool :=
  match r with
  | Threw => true
  | Got response =>
      negb (ok response)
      || match body response with Threw => true | Got _ => false end
  end.

(** ** Concrete pages and servers *)

(** The search page as the document delivers it, with a stored session. *)
Definition blank : Index.Page :=
  {| Index.selectedMedications := [];
     Index.drugInput := "";
     Index.conditionInput := "";
     Index.medicationSearchInput := "";
     Index.medicationSearchInput_disabled := false;
     Index.medicationTags := [];
     Index.medCount := 0;
     Index.drugDropdown := {| Index.show := false; Index.items := [] |};
     Index.conditionDropdown := {| Index.show := false; Index.items := [] |};
     Index.medicationDropdown := {| Index.show := false; Index.items := [] |};
     Index.errorMessage := None;
     Index.checkBtn_disabled := false;
     Index.btnLoading := false;
     Index.results := "";
     Index.pharmacheck_token := Some "token";
     Index.pharmacheck_user := Some "user";
     Index.interactionsData := None;
     Index.location := None |}.

(** The search page with the form filled in. *)
Definition filled (drug condition : string) (meds : list string) : Index.Page :=
  {| Index.selectedMedications := meds;
     Index.drugInput := drug;
     Index.conditionInput := condition;
     Index.medicationSearchInput := "";
     Index.medicationSearchInput_disabled :=
       Index.MAX_MEDICATIONS <=? length meds;
     Index.medicationTags := meds;
     Index.medCount := length meds;
     Index.drugDropdown := {| Index.show := false; Index.items := [] |};
     Index.conditionDropdown := {| Index.show := false; Index.items := [] |};
     Index.medicationDropdown := {| Index.show := false; Index.items := [] |};
     Index.errorMessage := None;
     Index.checkBtn_disabled := false;
     Index.btnLoading := false;
     Index.results := "";
     Index.pharmacheck_token := Some "token";
     Index.pharmacheck_user := Some "user";
     Index.interactionsData := None;
     Index.location := None |}.

Definition no_bundle : Bundle :=
  {| interactions := None;
     food_interactions := None;
     disease_interactions := None;
     drugs := None;
     prescribed_drug := None;
     current_medications := None |}.

(** A drug-drug record with a professional description. *)
Definition record_of (id : Z) (other : string) (professional : option string)
  : Interaction :=
  {| interaction_id := Some id;
     severity := Some "Major";
     drug := Some other;
     interaction := None;
     name := None;
     interaction_name := None;
     disease_name := None;
     hazard_level := None;
     plausibility := None;
     applicable_conditions := None;
     professional_description := professional;
     patient_description := None;
     ai_description := None |}.

(** A record that already carries an AI description. *)
Definition translated_record (id : Z) (other professional ai : string)
  : Interaction :=
  {| interaction_id := Some id;
     severity := Some "Major";
     drug := Some other;
     interaction := None;
     name := None;
     interaction_name := None;
     disease_name := None;
     hazard_level := None;
     plausibility := None;
     applicable_conditions := None;
     professional_description := Some professional;
     patient_description := None;
     ai_description := Some ai |}.

Definition bundle_of (rs : list Interaction) (meds : list string) : Bundle :=
  {| interactions := Some rs;
     food_interactions := None;
     disease_interactions := None;
     drugs := Some meds;
     prescribed_drug := None;
     current_medications := None |}.

(** A server with a small catalog: two drugs and one condition are known,
    every translation succeeds. *)
Definition known_drug (d : string) : bool :=
  Js.seq (Js.toLowerCase d) "aspirin" || Js.seq (Js.toLowerCase d) "warfarin".

Definition catalog : server :=
  fun _ q =>
    match q return answer q with
    | ValidateDrugs ds =>
        Got {| not_found_drugs :=
                 Some (Js.filter (fun d => negb (known_drug d)) ds) |}
    | SearchConditions c =>
        Got (Js.JArray
               (if Js.seq (Js.toLowerCase c) "hypertension"
                then [Js.JString "Hypertension"] else []))
    | CheckDrugInteractions ds _ =>
        Got {| status := 200;
               data := bundle_of [record_of 1 "Warfarin" (Some "Bleeding risk")]
                         ds |}
    | Autocomplete _ _ => Got []
    | TranslateDescription _ _ =>
        Got {| ok := true;
               body := Got {| consumer_description := Some "May cause bleeding";
                              error := None |} |}
    end.

(** A server whose translation service answers with an error status. *)
Definition failing_translation : server :=
  fun seen q =>
    match q return answer q with
    | TranslateDescription _ _ =>
        Got {| ok := false;
               body := Got {| consumer_description := None;
                              error := Some "Translation failed" |} |}
    | q => catalog seen q
    end.

(** ** The results page: what a card displays *)

#[global] Instance kind_eq_dec : EqDecision Interactions.kind.
Proof. solve_decision. Defined.

(** A card with the parts that change while it is displayed put back as the
    template emits them: the button enabled with its label, the card
    expanded, no listener yet. *)
Definition as_rendered (c : Interactions.card) : Interactions.card :=
  {| Interactions.data_index := Interactions.data_index c;
     Interactions.data_type := Interactions.data_type c;
     Interactions.card_severity := Interactions.card_severity c;
     Interactions.card_name := Interactions.card_name c;
     Interactions.card_hazard := Interactions.card_hazard c;
     Interactions.card_plausibility := Interactions.card_plausibility c;
     Interactions.card_conditions := Interactions.card_conditions c;
     Interactions.detail_value := Interactions.detail_value c;
     Interactions.translate_btn :=
       match Interactions.translate_btn c with
       | Some _ => Some Interactions.fresh_button
       | None => None
       end;
     Interactions.ai_label := Interactions.ai_label c;
     Interactions.expanded := true;
     Interactions.header_listeners := 0 |}.

(** List [k] displays the cards of its records. *)
Definition synced (k : Interactions.kind) (st : Interactions.Page) : Prop :=
  as_rendered <$> Interactions.cards_of (Interactions.list_of k st)
  = imap (Interactions.create_card k) (Interactions.records k st).

(** Every list displays the cards of its records. *)
Definition in_sync (st : Interactions.Page) : Prop :=
  forall k, synced k st.

(** Two states of the page hold the same records and display the same cards of
    the same renderings, up to the state of the translate buttons. *)
Definition same_but_buttons (st st' : Interactions.Page) : Prop :=
  (forall k, Interactions.records k st' = Interactions.records k st)
  /\ (forall k, Interactions.epoch (Interactions.list_of k st')
                = Interactions.epoch (Interactions.list_of k st))
  /\ (forall k j,
         Interactions.set_btn Interactions.fresh_button
           <$> Interactions.card_at k j st'
         = Interactions.set_btn Interactions.fresh_button
             <$> Interactions.card_at k j st).

(** All pending callbacks fire, oldest first. *)
Definition fire_all (st : Interactions.Page) : Interactions.Page :=
  fold_left (fun st t => Interactions.restore_button t st)
    (Interactions.timers st) (Interactions.set_timers [] st).

(** The button of card [i] of list [k], when the card displays one. *)
Definition button_at (k : Interactions.kind) (i : nat) (st : Interactions.Page)
  : option Interactions.button :=
  Interactions.card_at k i st ≫= Interactions.translate_btn.

(** A page with two drug-drug cards, neither translated. *)
Definition two_cards : Interactions.Page :=
  Interactions.loadInteractionsData
    (bundle_of [record_of 1 "Warfarin" (Some "Bleeding risk");
                record_of 2 "Ibuprofen" (Some "Reduced effect")]
       ["Aspirin"; "Warfarin"; "Ibuprofen"]).

(** A page with one card whose record has an AI description. *)
Definition translated_card : Interactions.Page :=
  Interactions.loadInteractionsData
    (bundle_of [translated_record 1 "Warfarin" "Bleeding risk"
                  "May cause bleeding"]
       ["Aspirin"; "Warfarin"]).

(** A page with one card whose record has an empty professional
    description. *)
Definition undescribed_card : Interactions.Page :=
  Interactions.loadInteractionsData
    (bundle_of [record_of 7 "Warfarin" (Some "")] ["Aspirin"; "Warfarin"]).

(** The details page as the document delivers it: nothing rendered, the AI
    section closed, the translate button displayed. *)
Definition details_document : Details.Page :=
  {| Details.currentInteraction := None;
     Details.selectedInteraction := None;
     Details.interactionTitle := "";
     Details.severityIndicator := "";
     Details.detailsCard := [];
     Details.aiSection_shown := false;
     Details.aiContent := "";
     Details.translateBtn :=
       {| Details.disabled := false;
          Details.label := Details.Markup;
          Details.hidden := false |};
     Details.alerts := [] |}.

(** The details page displays the AI description of its record, when the
    record has one, and hides the translate button. *)
Definition shows_translation (st : Details.Page) : Prop :=
  forall it,
    Details.currentInteraction st = Some it ->
    Js.truthy_opt (ai_description it) = true ->
    Details.aiContent st = default "" (ai_description it)
    /\ Details.aiSection_shown st = true
    /\ Details.hidden (Details.translateBtn st) = true.

(** The details page of a record that carries an AI description. *)
Definition translated_details : Details.Page :=
  Details.loadInteractionDetails details_document
    (translated_record 1 "Warfarin" "Bleeding risk" "May cause bleeding").

(** The details page of a record that has not been translated. *)
Definition untranslated_details : Details.Page :=
  Details.loadInteractionDetails details_document
    (record_of 1 "Warfarin" (Some "Bleeding risk")).

(** The page with two cards after a click on the header of the second one,
    which collapses it. *)
Definition second_collapsed : Interactions.Page :=
  Interactions.clickHeader Interactions.drug_kind 1 two_cards.

(** The details page of a record with an empty professional description. *)
Definition undescribed_details : Details.Page :=
  Details.loadInteractionDetails details_document
    (record_of 7 "Warfarin" (Some "")).

(** The user types in the medication search box. *)
Definition typed (text : string) (st : Index.Page) : Index.Page :=
  {| Index.selectedMedications := Index.selectedMedications st;
     Index.drugInput := Index.drugInput st;
     Index.conditionInput := Index.conditionInput st;
     Index.medicationSearchInput := text;
     Index.medicationSearchInput_disabled :=
       Index.medicationSearchInput_disabled st;
     Index.medicationTags := Index.medicationTags st;
     Index.medCount := Index.medCount st;
     Index.drugDropdown := Index.drugDropdown st;
     Index.conditionDropdown := Index.conditionDropdown st;
     Index.medicationDropdown := Index.medicationDropdown st;
     Index.errorMessage := Index.errorMessage st;
     Index.checkBtn_disabled := Index.checkBtn_disabled st;
     Index.btnLoading := Index.btnLoading st;
     Index.results := Index.results st;
     Index.pharmacheck_token := Index.pharmacheck_token st;
     Index.pharmacheck_user := Index.pharmacheck_user st;
     Index.interactionsData := Index.interactionsData st;
     Index.location := Index.location st |}.

(** A catalog with an entry whose name is the empty string, found through its
    generic name. *)
Definition nameless_entry : suggestion :=
  {| s_name := ""; generic_name := Some "acetaminophen" |}.

Definition nameless_catalog : server :=
  fun seen q =>
    match q return answer q with
    | Autocomplete _ _ => Got [nameless_entry]
    | q => catalog seen q
    end.

(** ** Keyboard navigation of a dropdown ([setupKeyboardNav] of [index.js]) *)

Module Keyboard.

(** The listener sees the items of its dropdown with their class [selected];
    the list holds, for each item in document order, whether it carries the
    class. *)
Fixpoint first_selected (flags : list bool) : option nat :=
  match flags with
  | [] => None
  | true :: _ => Some 0
  | false :: rest => S <$> first_selected rest
  end.

(** [Array.from(items).indexOf(selected)], where [selected] is the first item
    with the class, or [null]. *)
Definition selectedIndex (flags : list bool) : Z :=
  match first_selected flags with
  | Some i => Z.of_nat i
  | None => (-1)%Z
  end.

(** [if (selected) selected.classList.remove('selected')]. *)
Definition deselect (flags : list bool) : list bool :=
  match first_selected flags with
  | Some i => <[i := false]> flags
  | None => flags
  end.

(** [items[i].classList.add('selected')]. *)
Definition select (i : Z) (flags : list bool) : list bool :=
  <[Z.to_nat i := true]> flags.

(** The branch of the key [ArrowDown]. *)
Definition arrowDown (flags : list bool) : list bool :=
  if (selectedIndex flags <? Z.of_nat (length flags) - 1)%Z
  then select (selectedIndex flags + 1) (deselect flags)
  else flags.

(** The branch of the key [ArrowUp]. *)
Definition arrowUp (flags : list bool) : list bool :=
  if (0 <? selectedIndex flags)%Z
  then select (selectedIndex flags - 1) (deselect flags)
  else flags.

(** [input.value = name] for the input of dropdown [d]. *)
Definition set_input (d : Index.dropdown_id) (name : string) (st : Index.Page)
  : Index.Page :=
  {| Index.selectedMedications := Index.selectedMedications st;
     Index.drugInput :=
       match d with
       | Index.drugAutocomplete => name
       | _ => Index.drugInput st
       end;
     Index.conditionInput :=
       match d with
       | Index.conditionAutocomplete => name
       | _ => Index.conditionInput st
       end;
     Index.medicationSearchInput :=
       match d with
       | Index.medicationAutocomplete => name
       | _ => Index.medicationSearchInput st
       end;
     Index.medicationSearchInput_disabled :=
       Index.medicationSearchInput_disabled st;
     Index.medicationTags := Index.medicationTags st;
     Index.medCount := Index.medCount st;
     Index.drugDropdown := Index.drugDropdown st;
     Index.conditionDropdown := Index.conditionDropdown st;
     Index.medicationDropdown := Index.medicationDropdown st;
     Index.errorMessage := Index.errorMessage st;
     Index.checkBtn_disabled := Index.checkBtn_disabled st;
     Index.btnLoading := Index.btnLoading st;
     Index.results := Index.results st;
     Index.pharmacheck_token := Index.pharmacheck_token st;
     Index.pharmacheck_user := Index.pharmacheck_user st;
     Index.interactionsData := Index.interactionsData st;
     Index.location := Index.location st |}.

(** The type the listener of each input was set up with. *)
Definition type_of (d : Index.dropdown_id) : string :=
  match d with
  | Index.drugAutocomplete => "drugs"
  | Index.conditionAutocomplete => "conditions"
  | Index.medicationAutocomplete => "medications"
  end.

(** The branch of the key [Enter] of the listener of dropdown [d], whose
    items carry the classes [flags]: the name is the text of the selected
    item. *)
Definition enter (d : Index.dropdown_id) (flags : list bool) (st : Index.Page)
  : Index.Page :=
  match first_selected flags with
  | None => st
  | Some i =>
      match Index.items (Index.get_dropdown d st) !! i with
      | None => st
      | Some item =>
          Index.hide d
            (if Js.seq (type_of d) "medications"
             then Index.addMedication (s_name item) st
             else set_input d (s_name item) st)
      end
  end.

(** The branch of the key [Escape]. *)
Definition escape (d : Index.dropdown_id) (st : Index.Page) : Index.Page :=
  Index.hide d st.

(** The classes of [n] items of which the one at [cursor], if any, is
    selected; a dropdown as [fetchAutocomplete] renders it has no cursor. *)
Definition classes (n : nat) (cursor : option nat) : list bool :=
  match cursor with
  | None => replicate n false
  | Some i => <[i := true]> (replicate n false)
  end.

(** The cursor one item further down a list of [n] items. *)
Definition down (n : nat) (cursor : option nat) : option nat :=
  match cursor with
  | None => if n =? 0 then None else Some 0
  | Some i => if S i <? n then Some (S i) else Some i
  end.

(** The cursor one item further up. *)
Definition up (cursor : option nat) : option nat :=
  match cursor with
  | None => None
  | Some i => Some (pred i)
  end.

(** The arguments the click handler of a suggestion of dropdown [d] gets from
    the markup [fetchAutocomplete] emitted. *)
Definition click_type (d : Index.dropdown_id) : string :=
  match d with
  | Index.conditionAutocomplete => "conditions"
  | _ => "drugs"
  end.

Definition click_multi (d : Index.dropdown_id) : bool :=
  match d with
  | Index.medicationAutocomplete => true
  | _ => false
  end.

End Keyboard.

(** ** Further vocabulary *)

(** An operation on the medication selector. *)
Inductive selector_op :=
| Add (name : string)
| Remove (name : string).

Definition apply_op (st : Index.Page) (op : selector_op) : Index.Page :=
  match op with
  | Add name => Index.addMedication name st
  | Remove name => Index.removeMedication name st
  end.

(** An operation that adds no empty name. *)
Definition names_medication (op : selector_op) : Prop :=
  match op with
  | Add name => name <> ""
  | Remove _ => True
  end.

(** The selector is displayed as [renderSelectedMedications] writes it. *)
Definition selector_rendered (st : Index.Page) : Prop :=
  Index.medicationTags st = Index.selectedMedications st
  /\ Index.medCount st = length (Index.selectedMedications st)
  /\ Index.medicationSearchInput_disabled st
     = (Index.MAX_MEDICATIONS <=? length (Index.selectedMedications st)).

(** A text that holds white space only. *)
Fixpoint only_spaces (s : string) : bool :=
  match s with
  | EmptyString => true
  | String c r => Js.is_space c && only_spaces r
  end.

(** The message of the [catch] clause of [checkDrugInteraction]. *)
Definition connection_message : string :=
  "Unable to connect to the server. Please try again.".

(** A server whose session has expired. *)
Definition expired : server :=
  fun seen q =>
    match q return answer q with
    | CheckDrugInteractions _ _ => Got {| status := 401; data := no_bundle |}
    | q => catalog seen q
    end.

(** The three lists of a stored bundle. *)
Definition stored_records (k : Interactions.kind) (parsed : Bundle)
  : list Interaction :=
  match k with
  | Interactions.drug_kind => default [] (interactions parsed)
  | Interactions.food_kind => default [] (food_interactions parsed)
  | Interactions.disease_kind => default [] (disease_interactions parsed)
  end.

(** [updateCounts()]: the three numbers written into the tab counters. *)
Definition updateCounts (st : Interactions.Page) : nat * nat * nat :=
  (length (Interactions.drugDrugInteractions st),
   length (Interactions.foodInteractions st),
   length (Interactions.diseaseInteractions st)).

(** The states of the results page that the stored bundle [parsed] leads
    to. *)
Inductive reachable_from (parsed : Bundle) : Interactions.Page -> Prop :=
| from_load : reachable_from parsed (Interactions.loadInteractionsData parsed)
| from_event (srv : server) (seen : list request) (e : Interactions.event)
    (st : Interactions.Page) :
    reachable_from parsed st ->
    reachable_from parsed (snd (run srv (Interactions.handle e st) seen)).

Definition has_records (l : list Interaction) : nat :=
  if length l =? 0 then 0 else 1.

(** The number of calls of [setupCardListeners] a card of list [k] has been
    through when [loadInteractionsData] returns: the call of its own render
    function and those of the lists rendered after it that have records. *)
Definition listeners_after_load (k : Interactions.kind) (parsed : Bundle)
  : nat :=
  match k with
  | Interactions.drug_kind =>
      1 + has_records (stored_records Interactions.food_kind parsed)
      + has_records (stored_records Interactions.disease_kind parsed)
  | Interactions.food_kind =>
      1 + has_records (stored_records Interactions.disease_kind parsed)
  | Interactions.disease_kind => 1
  end.

(** A bundle with one record in each list. *)
Definition three_lists : Bundle :=
  {| interactions := Some [record_of 1 "Warfarin" (Some "Bleeding risk")];
     food_interactions := Some [record_of 2 "" (Some "Avoid alcohol")];
     disease_interactions := Some [record_of 3 "" (Some "Renal impairment")];
     drugs := Some ["Aspirin"; "Warfarin"];
     prescribed_drug := None;
     current_medications := None |}.

(** A server whose translation answers ok with a body that lacks the text. *)
Definition wordless_translation : server :=
  fun seen q =>
    match q return answer q with
    | TranslateDescription _ _ =>
        Got {| ok := true;
               body := Got {| consumer_description := None;
                              error := None |} |}
    | q => catalog seen q
    end.

(** The details page keeps the stored copy of its record equal to the record
    in memory and displays the details of that record. *)
Definition details_in_sync (st : Details.Page) : Prop :=
  forall it,
    Details.currentInteraction st = Some it ->
    Details.selectedInteraction st = Some it
    /\ Details.detailsCard st = Details.details_of it.

(** The record with the text of a translation stored. *)
Definition with_translation (text : option string) (it : Interaction)
  : Interaction :=
  {| interaction_id := interaction_id it;
     severity := severity it;
     drug := drug it;
     interaction := interaction it;
     name := name it;
     interaction_name := interaction_name it;
     disease_name := disease_name it;
     hazard_level := hazard_level it;
     plausibility := plausibility it;
     applicable_conditions := applicable_conditions it;
     professional_description := professional_description it;
     patient_description := patient_description it;
     ai_description := text |}.

(** A list of the results page displays its notice when it has no record,
    and cards when it has some. *)
Definition notice_or_cards (k : Interactions.kind) (st : Interactions.Page)
  : Prop :=
  match Interactions.shown (Interactions.list_of k st) with
  | Interactions.EmptyState t =>
      Interactions.records k st = [] /\ t = Interactions.empty_text k st
  | Interactions.Cards _ => Interactions.records k st <> []
  end.

(** The text [message] holds the text [term] somewhere in it. *)
Definition mentions (term message : string) : Prop :=
  exists before after, message = before +:+ term +:+ after.

(** A catalog whose autocomplete offers two painkillers, whatever is typed. *)
Definition analgesics : server :=
  fun seen q =>
    match q return answer q with
    | Autocomplete _ _ =>
        Got [{| s_name := "Aspirin";
                generic_name := Some "acetylsalicylic acid" |};
             {| s_name := "Acetaminophen"; generic_name := None |}]
    | q => catalog seen q
    end.

(** ** The monad *)

Lemma run_seen {R} (srv : server) (p : js R) (seen : list request) :
  exists issued, fst (run srv p seen) = seen ++ issued.
Proof.
  revert seen. induction p as [r | q k IH]; intros seen; simpl.
  - exists []. by rewrite app_nil_r.
  - destruct (IH (srv seen q) (seen ++ [q])) as [issued ->].
    exists (q :: issued). by rewrite <- app_assoc.
Qed.

Lemma run_bind {A B} (srv : server) (p : js A) (f : A -> js B) seen :
  run srv (bind p f) seen =
  run srv (f (snd (run srv p seen))) (fst (run srv p seen)).
Proof.
  revert seen. induction p as [r | q k IH]; intros seen; simpl; [done |].
  apply IH.
Qed.

(** ** The search page *)

Section SearchPage.
Import Index.

Lemma toLowerCase_empty (s : string) : Js.toLowerCase s = "" -> s = "".
Proof. by destruct s. Qed.

Lemma seq_true (a b : string) : Js.seq a b = true <-> a = b.
Proof. apply String.eqb_eq. Qed.

Lemma truthy_false (s : string) : Js.truthy s = false <-> s = "".
Proof.
  unfold Js.truthy. rewrite negb_false_iff. apply String.eqb_eq.
Qed.

Lemma find_none {A} (p : A -> bool) (xs : list A) :
  Js.find p xs = None <-> Forall (fun x => p x = false) xs.
Proof.
  induction xs as [| x xs IH]; simpl.
  - split; [constructor | done].
  - destruct (p x) eqn:E.
    + split; [done | intros H; inversion H; congruence].
    + rewrite IH. split; [by constructor | by inversion 1].
Qed.

Lemma find_some {A} (p : A -> bool) (xs : list A) (x : A) :
  Js.find p xs = Some x -> x ∈ xs /\ p x = true.
Proof.
  induction xs as [| y xs IH]; simpl; [done |].
  destruct (p y) eqn:E.
  - intros [= ->]. split; [left | done].
  - intros H. destruct (IH H). split; [by right | done].
Qed.

Lemma filter_sublist {A} (p : A -> bool) (xs : list A) :
  Js.filter p xs `sublist_of` xs.
Proof.
  induction xs as [| x xs IH]; simpl; [done |].
  destruct (p x); by constructor.
Qed.

(** The duplicate check of [addMedication] when no selected name matches. *)
Lemma no_match_fresh (name : string) (meds : list string) :
  Js.toLowerCase name ∉ Js.toLowerCase <$> meds ->
  Js.truthy_opt (Js.find (same_name name) meds) = false.
Proof.
  intros Hfresh.
  assert (Js.find (same_name name) meds = None) as ->; [| done].
  apply find_none, Forall_forall. intros m Hm.
  apply not_true_is_false. unfold same_name. rewrite seq_true. intros Heq.
  apply Hfresh. rewrite <- Heq. by apply list_elem_of_fmap_2.
Qed.

(** The duplicate check detects every match of a non-empty name. *)
Lemma match_detected (name : string) (meds : list string) :
  name <> "" ->
  Js.toLowerCase name ∈ Js.toLowerCase <$> meds ->
  Js.truthy_opt (Js.find (same_name name) meds) = true.
Proof.
  intros Hname Hin.
  destruct (Js.find (same_name name) meds) as [m |] eqn:Hfind.
  - apply find_some in Hfind as [_ Hm]. unfold same_name in Hm.
    apply seq_true in Hm. simpl. apply not_false_is_true.
    rewrite truthy_false. intros ->.
    apply Hname, toLowerCase_empty. by rewrite <- Hm.
  - exfalso. rewrite find_none, Forall_forall in Hfind.
    apply list_elem_of_fmap in Hin as (m & Heq & Hm).
    specialize (Hfind m Hm). unfold same_name in Hfind.
    apply not_true_iff_false in Hfind. apply Hfind, seq_true. done.
Qed.

(** [removeMedication] keeps the invariant of the selector. *)
Lemma removeMedication_selector_ok (name : string) (st : Page) :
  selector_ok (selectedMedications st) ->
  selector_ok (selectedMedications (removeMedication name st)).
Proof.
  intros [Hlen Hdup]. simpl.
  pose proof (filter_sublist (fun m => negb (Js.seq m name))
                (selectedMedications st)) as Hsub.
  split.
  - apply sublist_length in Hsub. lia.
  - eapply sublist_NoDup; [exact Hdup |]. by apply fmap_sublist.
Qed.

(** [addMedication] never lets the list grow beyond the maximum. *)
Lemma addMedication_length (name : string) (st : Page) :
  length (selectedMedications st) <= MAX_MEDICATIONS ->
  length (selectedMedications (addMedication name st)) <= MAX_MEDICATIONS.
Proof.
  intros Hlen. unfold addMedication.
  destruct (MAX_MEDICATIONS <=? length (selectedMedications st)) eqn:Hmax;
    [done |].
  apply Nat.leb_gt in Hmax.
  destruct (Js.truthy_opt _); simpl; [done |].
  rewrite length_app. simpl. lia.
Qed.

(** For a name that is not empty, [addMedication] keeps the invariant of the
    selector. *)
Lemma addMedication_selector_ok (name : string) (st : Page) :
  name <> "" ->
  selector_ok (selectedMedications st) ->
  selector_ok (selectedMedications (addMedication name st)).
Proof.
  intros Hname [Hlen Hdup]. split; [by apply addMedication_length |].
  unfold addMedication.
  destruct (MAX_MEDICATIONS <=? length (selectedMedications st)); [done |].
  destruct (decide (Js.toLowerCase name
                      ∈ Js.toLowerCase <$> selectedMedications st)) as [Hin | Hout].
  - by rewrite (match_detected _ _ Hname Hin).
  - rewrite (no_match_fresh _ _ Hout). simpl.
    rewrite fmap_app. apply NoDup_app. split; [done |]. split.
    + intros x Hx Hx'. apply list_elem_of_singleton in Hx'. by subst.
    + apply NoDup_singleton.
Qed.

End SearchPage.

Section SearchPageClaims.
Import Index.

(** Adding names one after the other to a selector that has room for them,
    none of them matching another or a selected one, appends them all. *)
Lemma addMedication_all (names : list string) (st : Page) :
  length (selectedMedications st) + length names <= MAX_MEDICATIONS ->
  NoDup (Js.toLowerCase <$> (selectedMedications st ++ names)) ->
  selectedMedications (fold_left (fun st n => addMedication n st) names st)
  = selectedMedications st ++ names.
Proof.
  revert st. induction names as [| n names IH]; intros st Hlen Hdup; simpl.
  - by rewrite app_nil_r.
  - simpl in Hlen.
    assert (selectedMedications (addMedication n st)
            = selectedMedications st ++ [n]) as Hadd.
    { unfold addMedication.
      destruct (MAX_MEDICATIONS <=? length (selectedMedications st)) eqn:Hmax.
      { apply Nat.leb_le in Hmax. lia. }
      rewrite no_match_fresh; [done |].
      rewrite fmap_app, fmap_cons in Hdup.
      apply NoDup_app in Hdup as (_ & Hdisj & _).
      intros Hin. apply (Hdisj _ Hin). left. }
    rewrite IH; rewrite Hadd.
    + by rewrite <- app_assoc.
    + rewrite length_app. simpl. lia.
    + by rewrite <- app_assoc.
Qed.

(** C5: five medications can be selected, one after the other, when no two
    of them are equal up to case; the selector then holds exactly these five
    and its search input is disabled.  A sixth one is rejected by the page
    itself: the handler shows the message about the maximum and changes
    nothing else, the list included, and it issues no request. *)
Theorem five_medications_accepted_sixth_rejected
    (srv : server) (st : Page) (names : list string)
    (sixth : string) (d : dropdown_id) :
  selectedMedications st = [] ->
  length names = 5 ->
  NoDup (Js.toLowerCase <$> names) ->
  let st5 := fold_left (fun st n => addMedication n st) names st in
  selectedMedications st5 = names
  /\ addMedication sixth st5 = showError "Maximum 5 medications allowed" st5
  /\ selectedMedications (addMedication sixth st5) = names
  /\ trace srv (handle (PickSuggestion sixth "drugs" d true) st5) = []
  /\ selectedMedications
       (result srv (handle (PickSuggestion sixth "drugs" d true) st5)) = names.
Proof.
  intros Hempty Hlen Hdup st5.
  assert (selectedMedications st5 = names) as Hfive.
  { unfold st5. rewrite addMedication_all; rewrite Hempty; simpl; try done.
    unfold MAX_MEDICATIONS. lia. }
  assert (addMedication sixth st5 = showError "Maximum 5 medications allowed" st5)
    as Hsixth.
  { unfold addMedication. by rewrite Hfive, Hlen. }
  repeat split; try done.
  - by rewrite Hsixth.
  - unfold result. simpl. by rewrite Hsixth.
Qed.

Lemma five_medications_accepted_sixth_rejected_witness :
  let names := ["Aspirin"; "Warfarin"; "Ibuprofen"; "Metformin"; "Lisinopril"] in
  let st5 := fold_left (fun st n => addMedication n st) names blank in
  selectedMedications st5 = names
  /\ addMedication "Atorvastatin" st5
     = showError "Maximum 5 medications allowed" st5
  /\ selectedMedications (addMedication "Atorvastatin" st5) = names
  /\ trace offline
       (handle (PickSuggestion "Atorvastatin" "drugs" medicationAutocomplete true)
          st5) = []
  /\ selectedMedications
       (result offline
          (handle
             (PickSuggestion "Atorvastatin" "drugs" medicationAutocomplete true)
             st5)) = names.
Proof.
  apply (five_medications_accepted_sixth_rejected offline blank
           ["Aspirin"; "Warfarin"; "Ibuprofen"; "Metformin"; "Lisinopril"]
           "Atorvastatin" medicationAutocomplete).
  - reflexivity.
  - reflexivity.
  - apply (bool_decide_unpack _). vm_compute. exact I.
Defined.

(** C9: [fetchAutocomplete] issues no request for a query of fewer than two
    characters and hides the dropdown; for a longer query it issues exactly
    one request, the autocomplete lookup of that query. *)
Theorem fetchAutocomplete_from_two_characters
    (srv : server) (query type : string) (d : dropdown_id)
    (isMultiSelect : bool) (st : Page) :
  let p := fetchAutocomplete query type d isMultiSelect st in
  if String.length query <? 2 then
    trace srv p = [] /\ show (get_dropdown d (result srv p)) = false
  else trace srv p = [Autocomplete type query].
Proof.
  unfold fetchAutocomplete, trace, result.
  destruct (String.length query <? 2); simpl.
  - split; [done |]. by destruct d.
  - destruct (srv [] (Autocomplete type query)) as [| data]; [done |].
    destruct (length data =? 0); [done |].
    by destruct (length _ =? 0).
Qed.

(** C10: the duplicate check of [addMedication] takes the element returned by
    [find] for the answer, and the empty name is falsy: added twice, it is
    listed twice, and the selector holds two equal names.  The filter of the
    suggestions has the same test, so a suggestion with the empty name is
    offered again once it is selected. *)
Theorem addMedication_empty_name_twice :
  let once := addMedication "" blank in
  let twice := addMedication "" once in
  selector_ok (selectedMedications once)
  /\ items (medicationDropdown
              (result nameless_catalog
                 (handle (Debounced medicationAutocomplete)
                    (typed "ac" once))))
     = [nameless_entry]
  /\ selectedMedications twice = [""; ""]
  /\ ~ selector_ok (selectedMedications twice).
Proof.
  simpl. split; [| split; [reflexivity | split; [reflexivity |]]].
  - split; [unfold MAX_MEDICATIONS; simpl; lia |].
    apply NoDup_singleton.
  - intros [_ Hdup]. simpl in Hdup.
    apply NoDup_cons in Hdup as [Hnotin _]. apply Hnotin. left.
Qed.

End SearchPageClaims.

Section AggregateCheck.
Import Index.

(** Where the interaction fetch sits in a list of requests that ends with it
    and has none before. *)
Lemma fetch_is_last (before : list request) (c : request)
    (pre post : list request) (q : request) :
  Forall (fun x => is_interaction_fetch x = false) before ->
  before ++ [c] = pre ++ q :: post ->
  is_interaction_fetch q = true ->
  pre = before /\ q = c /\ post = [].
Proof.
  revert pre. induction before as [| b before IH]; intros pre Hnone Heq Hq.
  - destruct pre as [| x pre]; simpl in Heq.
    + by injection Heq as <- <-.
    + injection Heq as _ Heq. by destruct pre.
  - apply Forall_cons in Hnone as [Hb Hnone].
    destruct pre as [| x pre]; simpl in Heq.
    + injection Heq as -> _. congruence.
    + injection Heq as <- Heq.
      destruct (IH pre Hnone Heq Hq) as (-> & -> & ->). done.
Qed.

Lemma no_fetch_among (l pre post : list request) (q : request) :
  Forall (fun x => is_interaction_fetch x = false) l ->
  l = pre ++ q :: post ->
  is_interaction_fetch q = true ->
  False.
Proof.
  intros Hnone -> Hq.
  apply Forall_app in Hnone as [_ Hnone].
  apply Forall_cons in Hnone as [Hnone _]. congruence.
Qed.

Ltac no_fetch_in l :=
  let Heq := fresh "Heq" in
  let Hq := fresh "Hq" in
  intros ? ? ? Heq Hq;
  exfalso; eapply (no_fetch_among l); [repeat constructor | exact Heq | exact Hq].

Lemma append_assoc (a b c : string) : (a +:+ b) +:+ c = a +:+ b +:+ c.
Proof.
  induction a as [| x a IH]; [reflexivity |].
  change (String x ((a +:+ b) +:+ c) = String x (a +:+ b +:+ c)).
  by rewrite IH.
Qed.

Lemma append_empty (a : string) : a +:+ "" = a.
Proof.
  induction a as [| x a IH]; [reflexivity |].
  change (String x (a +:+ "") = String x a). by rewrite IH.
Qed.

(** Every string joined is part of the result of [join], whatever precedes
    it. *)
Lemma mentions_join (sep before name : string) (names : list string) :
  name ∈ names -> mentions name (before +:+ Js.join sep names).
Proof.
  unfold Js.join. revert before.
  induction names as [| x rest IH]; intros before Hin;
    [by apply elem_of_nil in Hin |].
  apply elem_of_cons in Hin as [-> | Hin].
  - destruct rest as [| y rest]; simpl.
    + exists before, "". by rewrite append_empty.
    + by exists before, (sep +:+ String.concat sep (y :: rest)).
  - destruct rest as [| y rest]; [by apply elem_of_nil in Hin |].
    destruct (IH (before +:+ x +:+ sep) Hin) as (b & a & Heq).
    exists b, a. rewrite <- Heq.
    change (String.concat sep (x :: y :: rest))
      with (x +:+ sep +:+ String.concat sep (y :: rest)).
    by rewrite !append_assoc.
Qed.

(** The steps of a run of [checkDrugInteraction], with the message of each
    failed validation as the code builds it. *)
Lemma checkDrugInteraction_steps
    (srv : server) (st : Page) :
  let drug := Js.trim (drugInput st) in
  let condition := Js.trim (conditionInput st) in
  let meds := selectedMedications st in
  let v1 := ValidateDrugs [drug] in
  let v2 := SearchConditions condition in
  let v3 := ValidateDrugs meds in
  let r1 : fetched validate_body := srv [] v1 in
  let r2 : fetched Js.json := srv [v1] v2 in
  let r3 : fetched validate_body := srv [v1; v2] v3 in
  let issued := trace srv (checkDrugInteraction st) in
  let after := result srv (checkDrugInteraction st) in
  (forall pre q post,
      issued = pre ++ q :: post ->
      is_interaction_fetch q = true ->
      pre = [v1; v2; v3] /\ q = CheckDrugInteractions meds drug /\ post = []
      /\ validated r1 = true /\ condition_found r2 = true
      /\ validated r3 = true)
  /\ (form_complete st = true ->
      forall names, unknown_names r1 = Some names ->
      issued = [v1]
      /\ errorMessage after = Some (drug_not_found_message drug))
  /\ (form_complete st = true ->
      validated r1 = true ->
      condition_unknown r2 = true ->
      issued = [v1; v2]
      /\ errorMessage after = Some (condition_not_found_message condition))
  /\ (form_complete st = true ->
      validated r1 = true ->
      condition_found r2 = true ->
      forall names, unknown_names r3 = Some names ->
      issued = [v1; v2; v3]
      /\ errorMessage after = Some (medications_not_found_message names)).
Proof.
  intros drug condition meds v1 v2 v3 r1 r2 r3 issued after.
  subst issued after r1 r2 r3 v1 v2 v3 meds.
  unfold trace, result, checkDrugInteraction, form_complete.
  fold drug condition. clearbody drug condition.
  simpl. remember (selectedMedications st) as meds eqn:Hmeds.
  set (v1 := ValidateDrugs [drug]).
  set (v2 := SearchConditions condition).
  set (v3 := ValidateDrugs meds).
  destruct (Js.truthy drug); simpl;
    [| split; [no_fetch_in (@nil request) | by repeat split]].
  destruct (Js.truthy condition); simpl;
    [| split; [no_fetch_in (@nil request) | by repeat split]].
  destruct (length meds =? 0); simpl;
    [split; [no_fetch_in (@nil request) | by repeat split] |].
  destruct (srv [] v1) as [| b1]; simpl;
    [split; [no_fetch_in [v1] | by repeat split] |].
  destruct (some_not_found b1) eqn:H1; simpl;
    [split; [no_fetch_in [v1] | by repeat split] |].
  destruct (srv [v1] v2) as [| j2]; simpl;
    [split; [no_fetch_in [v1; v2] | by repeat split] |].
  destruct (condition_missing j2) eqn:H2; simpl;
    [split; [no_fetch_in [v1; v2] | by repeat split] |].
  destruct (srv [v1; v2] v3) as [| b3]; simpl;
    [split; [no_fetch_in [v1; v2; v3] | by repeat split] |].
  destruct (some_not_found b3) eqn:H3; simpl.
  { split; [no_fetch_in [v1; v2; v3] |].
    split; [done |]. split; [done |].
    intros _ _ _ names Hnames. simpl in Hnames. split; [done |].
    by rewrite Hnames. }
  assert (forall pre q post,
             [v1; v2; v3; CheckDrugInteractions meds drug] = pre ++ q :: post ->
             is_interaction_fetch q = true ->
             pre = [v1; v2; v3] /\ q = CheckDrugInteractions meds drug
             /\ post = [] /\ true = true /\ true = true /\ true = true) as Hlast.
  { intros pre q post Heq Hq.
    destruct (fetch_is_last [v1; v2; v3] (CheckDrugInteractions meds drug)
                pre post q) as (-> & -> & ->);
      [repeat constructor | done | done | done]. }
  destruct (srv [v1; v2; v3] (CheckDrugInteractions meds drug)) as [| response];
    simpl; [split; [exact Hlast | by repeat split] |].
  destruct (status response =? 401); simpl;
    (split; [exact Hlast | by repeat split]).
Qed.

(** C1: in every run of [checkDrugInteraction], against any server, a request
    to [/check_drug_interactions] is the fourth and last request, issued after
    the validation of the prescribed drug, the lookup of the condition and the
    validation of the current medications, in this order, each of which has
    passed.  A validation step that fails ends the run at that step, and the
    message shown, whose text is given, holds the name of the drug, the name
    of the condition, or the name of every medication reported as unknown. *)
Theorem checkDrugInteraction_validates_before_fetch
    (srv : server) (st : Page) :
  let drug := Js.trim (drugInput st) in
  let condition := Js.trim (conditionInput st) in
  let meds := selectedMedications st in
  let v1 := ValidateDrugs [drug] in
  let v2 := SearchConditions condition in
  let v3 := ValidateDrugs meds in
  let r1 : fetched validate_body := srv [] v1 in
  let r2 : fetched Js.json := srv [v1] v2 in
  let r3 : fetched validate_body := srv [v1; v2] v3 in
  let issued := trace srv (checkDrugInteraction st) in
  let after := result srv (checkDrugInteraction st) in
  (forall pre q post,
      issued = pre ++ q :: post ->
      is_interaction_fetch q = true ->
      pre = [v1; v2; v3] /\ q = CheckDrugInteractions meds drug /\ post = []
      /\ validated r1 = true /\ condition_found r2 = true
      /\ validated r3 = true)
  /\ (form_complete st = true ->
      forall names, unknown_names r1 = Some names ->
      issued = [v1]
      /\ exists message,
          errorMessage after = Some message
          /\ message
             = "Drug " +:+ Js.dquote +:+ drug +:+ Js.dquote +:+
               " was not found. Please check the spelling or try a different name."
          /\ mentions drug message)
  /\ (form_complete st = true ->
      validated r1 = true ->
      condition_unknown r2 = true ->
      issued = [v1; v2]
      /\ exists message,
          errorMessage after = Some message
          /\ message
             = "Condition " +:+ Js.dquote +:+ condition +:+ Js.dquote +:+
               " was not found. Please check the spelling."
          /\ mentions condition message)
  /\ (form_complete st = true ->
      validated r1 = true ->
      condition_found r2 = true ->
      forall names, unknown_names r3 = Some names ->
      issued = [v1; v2; v3]
      /\ exists message,
          errorMessage after = Some message
          /\ message
             = "The following medications were not found: " +:+
               Js.join ", " names
          /\ Forall (fun name => mentions name message) names).
Proof.
  pose proof (checkDrugInteraction_steps srv st) as Hsteps.
  cbv zeta in *. destruct Hsteps as (Hlast & Hdrug & Hcondition & Hmeds).
  split; [exact Hlast |]. split; [| split].
  - intros Hform names Hnames.
    destruct (Hdrug Hform names Hnames) as [Htrace Hmessage].
    split; [done |]. eexists. split; [exact Hmessage |]. split; [done |].
    by exists ("Drug " +:+ Js.dquote),
      (Js.dquote +:+
       " was not found. Please check the spelling or try a different name.").
  - intros Hform Hr1 Hr2.
    destruct (Hcondition Hform Hr1 Hr2) as [Htrace Hmessage].
    split; [done |]. eexists. split; [exact Hmessage |]. split; [done |].
    by exists ("Condition " +:+ Js.dquote),
      (Js.dquote +:+ " was not found. Please check the spelling.").
  - intros Hform Hr1 Hr2 names Hnames.
    destruct (Hmeds Hform Hr1 Hr2 names Hnames) as [Htrace Hmessage].
    split; [done |]. eexists. split; [exact Hmessage |]. split; [done |].
    apply Forall_forall. intros name Hin.
    by apply (mentions_join ", "
                "The following medications were not found: ").
Qed.

End AggregateCheck.

Section AggregateCheckRuns.
Import Index.

Lemma checkDrugInteraction_validates_before_fetch_witness :
  let v1 := ValidateDrugs ["Aspirin"] in
  let v2 := SearchConditions "Hypertension" in
  let v3 := ValidateDrugs ["Warfarin"] in
  let unknown := filled "Aspirin" "Hypertension" ["Warfarin"; "Xanadrin123"] in
  ([v1; v2; v3] = [v1; v2; v3]
   /\ CheckDrugInteractions ["Warfarin"] "Aspirin"
      = CheckDrugInteractions ["Warfarin"] "Aspirin"
   /\ @nil request = []
   /\ validated (catalog [] v1) = true
   /\ condition_found (catalog [v1] v2) = true
   /\ validated (catalog [v1; v2] v3) = true)
  /\ (trace catalog (checkDrugInteraction unknown)
      = [v1; v2; ValidateDrugs ["Warfarin"; "Xanadrin123"]]
      /\ exists message,
          errorMessage (result catalog (checkDrugInteraction unknown))
          = Some message
          /\ message
             = "The following medications were not found: " +:+
               Js.join ", " ["Xanadrin123"]
          /\ Forall (fun name => mentions name message) ["Xanadrin123"])
  /\ (trace catalog
        (checkDrugInteraction (filled " Xanadrin123 " "Hypertension" ["Warfarin"]))
      = [ValidateDrugs ["Xanadrin123"]]
      /\ exists message,
          errorMessage
            (result catalog
               (checkDrugInteraction
                  (filled " Xanadrin123 " "Hypertension" ["Warfarin"])))
          = Some message
          /\ message
             = "Drug " +:+ Js.dquote +:+ "Xanadrin123" +:+ Js.dquote +:+
               " was not found. Please check the spelling or try a different name."
          /\ mentions "Xanadrin123" message)
  /\ (trace catalog
        (checkDrugInteraction (filled "Aspirin" "Hypertensio" ["Warfarin"]))
      = [v1; SearchConditions "Hypertensio"]
      /\ exists message,
          errorMessage
            (result catalog
               (checkDrugInteraction
                  (filled "Aspirin" "Hypertensio" ["Warfarin"])))
          = Some message
          /\ message
             = "Condition " +:+ Js.dquote +:+ "Hypertensio" +:+ Js.dquote +:+
               " was not found. Please check the spelling."
          /\ mentions "Hypertensio" message).
Proof.
  intros v1 v2 v3 unknown. split; [| split; [| split]].
  - apply (proj1 (checkDrugInteraction_validates_before_fetch catalog
                    (filled "Aspirin" "Hypertension" ["Warfarin"]))
             [v1; v2; v3] (CheckDrugInteractions ["Warfarin"] "Aspirin") []);
      reflexivity.
  - apply (proj2 (proj2 (proj2
             (checkDrugInteraction_validates_before_fetch catalog unknown))));
      reflexivity.
  - apply (proj1 (proj2
             (checkDrugInteraction_validates_before_fetch catalog
                (filled " Xanadrin123 " "Hypertension" ["Warfarin"])))
             eq_refl ["Xanadrin123"]).
    reflexivity.
  - apply (proj1 (proj2 (proj2
             (checkDrugInteraction_validates_before_fetch catalog
                (filled "Aspirin" "Hypertensio" ["Warfarin"])))));
      reflexivity.
Defined.

(** C8, as stated, fails: with no medication selected and the drug field left
    blank, the message shown asks for the prescribed drug. *)
Lemma check_without_medications_counterexample :
  ~ (forall (srv : server) (st : Page),
        selectedMedications st = [] ->
        trace srv (checkDrugInteraction st) = []
        /\ errorMessage (result srv (checkDrugInteraction st))
           = Some "Please add at least one current medication").
Proof.
  intros Hclaim.
  destruct (Hclaim offline (filled "" "Hypertension" []) eq_refl) as [_ Hmsg].
  vm_compute in Hmsg. discriminate Hmsg.
Qed.

(** C8, amended: with no medication selected, [checkDrugInteraction] issues no
    request at all and only opens the error modal; the message asks for at
    least one medication when the drug and condition fields are filled in
    (these two are checked first and have messages of their own). *)
Theorem check_without_medications (srv : server) (st : Page) :
  selectedMedications st = [] ->
  trace srv (checkDrugInteraction st) = []
  /\ (exists message,
         result srv (checkDrugInteraction st) = showError message st)
  /\ (Js.truthy (Js.trim (drugInput st)) = true ->
      Js.truthy (Js.trim (conditionInput st)) = true ->
      result srv (checkDrugInteraction st)
      = showError "Please add at least one current medication" st).
Proof.
  intros Hnone. unfold trace, result, checkDrugInteraction. rewrite Hnone.
  destruct (Js.truthy (Js.trim (drugInput st))); simpl;
    [| split; [done | split; [by eexists | done]]].
  destruct (Js.truthy (Js.trim (conditionInput st))); simpl;
    split; try done; split; try done; by eexists.
Qed.

Lemma check_without_medications_witness :
  let st := filled "Aspirin" "Hypertension" [] in
  trace catalog (checkDrugInteraction st) = []
  /\ result catalog (checkDrugInteraction st)
     = showError "Please add at least one current medication" st.
Proof.
  destruct (check_without_medications catalog
              (filled "Aspirin" "Hypertension" []) eq_refl)
    as (Hnone & _ & Hmessage).
  split; [exact Hnone | apply Hmessage; reflexivity].
Defined.

End AggregateCheckRuns.

(** ** The results page *)

Section ResultsPage.
Import Interactions.

Lemma fmap_alter_stable {A B} (g : A -> B) (f : A -> A) (i : nat) (l : list A) :
  (forall x, g (f x) = g x) -> g <$> alter f i l = g <$> l.
Proof.
  intros Hstable. revert i.
  induction l as [| x l IH]; intros [| i]; simpl; try done.
  - by rewrite Hstable.
  - f_equal. apply IH.
Qed.

Lemma cards_of_alter (f : card -> card) (i : nat) (c : container) :
  cards_of (map_cards (alter f i) c) = alter f i (cards_of c).
Proof. unfold cards_of, map_cards. simpl. by destruct (shown c). Qed.

Lemma cards_of_fmap (f : card -> card) (c : container) :
  cards_of (map_cards (fmap f) c) = f <$> cards_of c.
Proof. unfold cards_of, map_cards. simpl. by destruct (shown c). Qed.

Lemma list_of_set_list (k k' : kind) (c : container) (st : Page) :
  list_of k' (set_list k c st) = if decide (k' = k) then c else list_of k' st.
Proof. by destruct k, k'. Qed.

Lemma records_set_records (k k' : kind) (l : list Interaction) (st : Page) :
  records k' (set_records k l st)
  = if decide (k' = k) then l else records k' st.
Proof. by destruct k, k'. Qed.

Lemma records_set_list (k k' : kind) (c : container) (st : Page) :
  records k' (set_list k c st) = records k' st.
Proof. by destruct k, k'. Qed.

Lemma records_update_card (k k' : kind) (i : nat) (f : card -> card) (st : Page) :
  records k' (update_card k i f st) = records k' st.
Proof. by destruct k, k'. Qed.

Lemma timers_update_card (k : kind) (i : nat) (f : card -> card) (st : Page) :
  timers (update_card k i f st) = timers st.
Proof. by destruct k. Qed.

Lemma epoch_update_card (k k' : kind) (i : nat) (f : card -> card) (st : Page) :
  epoch (list_of k' (update_card k i f st)) = epoch (list_of k' st).
Proof.
  unfold update_card. rewrite list_of_set_list. by case_decide; subst.
Qed.

Lemma card_at_update_card (k k' : kind) (i j : nat) (f : card -> card)
    (st : Page) :
  card_at k' j (update_card k i f st)
  = if decide (k' = k /\ j = i) then f <$> card_at k i st else card_at k' j st.
Proof.
  unfold card_at, update_card. rewrite list_of_set_list.
  destruct (decide (k' = k)) as [-> | Hk].
  - rewrite cards_of_alter.
    destruct (decide (j = i)) as [-> | Hj].
    + rewrite decide_True by done. apply list_lookup_alter_eq.
    + rewrite decide_False; [| by intros [_ ?]]. by apply list_lookup_alter_ne.
  - rewrite decide_False; [done | by intros [? _]].
Qed.

(** The templates emit cards that are as rendered. *)
Lemma as_rendered_create_card (k : kind) (i : nat) (it : Interaction) :
  as_rendered (create_card k i it) = create_card k i it.
Proof.
  destruct k;
    unfold as_rendered, create_card, createInteractionCard,
      createFoodInteractionCard, createDiseaseInteractionCard; simpl;
    by destruct (negb (Js.truthy_opt (ai_description it))
                 && Js.truthy (Js.or_else (professional_description it)
                                 "No description available")).
Qed.

Lemma as_rendered_iter_toggle (n : nat) (c : card) :
  as_rendered (Nat.iter n toggle c) = as_rendered c.
Proof. induction n as [| n IH]; simpl; [done |]. by rewrite <- IH. Qed.

Lemma synced_update_card (k k' : kind) (i : nat) (f : card -> card) (st : Page) :
  (forall c, as_rendered (f c) = as_rendered c) ->
  synced k' st -> synced k' (update_card k i f st).
Proof.
  intros Hf Hsync. unfold synced. rewrite records_update_card.
  unfold update_card. rewrite list_of_set_list.
  case_decide as Hk; [subst k' | apply Hsync].
  rewrite cards_of_alter, fmap_alter_stable by done. apply Hsync.
Qed.

Lemma synced_set_timers (k : kind) (ts : list timer) (st : Page) :
  synced k st -> synced k (set_timers ts st).
Proof. by destruct k. Qed.

Lemma synced_setupCardListeners (k : kind) (st : Page) :
  synced k st -> synced k (setupCardListeners st).
Proof.
  unfold synced. intros Hsync.
  destruct k; simpl in *; rewrite cards_of_fmap, <- list_fmap_compose;
    exact Hsync.
Qed.

Lemma synced_set_list_other (k k' : kind) (c : container) (st : Page) :
  k' <> k -> synced k' st -> synced k' (set_list k c st).
Proof. by destruct k, k'. Qed.

(** Rendering a list brings it in line with its records. *)
Lemma synced_render (k : kind) (st : Page) : synced k (render k st).
Proof.
  unfold render.
  destruct (length (records k st) =? 0) eqn:Hempty.
  - apply Nat.eqb_eq, nil_length_inv in Hempty. unfold synced.
    rewrite list_of_set_list, decide_True, records_set_list by done.
    by rewrite Hempty.
  - apply synced_setupCardListeners. unfold synced.
    rewrite list_of_set_list, decide_True, records_set_list by done.
    unfold cards_of. simpl.
    apply list_eq. intros j.
    rewrite list_lookup_fmap, !list_lookup_imap.
    destruct (records k st !! j); simpl; [| done].
    by rewrite as_rendered_create_card.
Qed.

(** Rendering a list leaves the other lists in line with their records. *)
Lemma synced_render_other (k k' : kind) (st : Page) :
  k' <> k -> synced k' st -> synced k' (render k st).
Proof.
  intros Hk Hsync. unfold render.
  destruct (length (records k st) =? 0).
  - by apply synced_set_list_other.
  - by apply synced_setupCardListeners, synced_set_list_other.
Qed.

Lemma in_sync_render (k : kind) (st : Page) :
  (forall k', k' <> k -> synced k' st) -> in_sync (render k st).
Proof.
  intros Hothers k'. destruct (decide (k' = k)) as [-> | Hk].
  - apply synced_render.
  - by apply synced_render_other, Hothers.
Qed.

Lemma in_sync_loadInteractionsData (parsed : Bundle) :
  in_sync (loadInteractionsData parsed).
Proof.
  unfold loadInteractionsData, renderDiseaseInteractions,
    renderFoodInteractions, renderDrugDrugInteractions.
  apply in_sync_render. intros [| |] Hk; [| | done].
  - apply synced_render_other; [done |]. apply synced_render.
  - apply synced_render.
Qed.

Lemma synced_set_records_other (k k' : kind) (l : list Interaction) (st : Page) :
  k' <> k -> synced k' st -> synced k' (set_records k l st).
Proof. by destruct k, k'. Qed.

Lemma as_rendered_set_btn (b : button) (c : card) :
  as_rendered (set_btn b c) = as_rendered c.
Proof. unfold as_rendered, set_btn. simpl. by destruct (translate_btn c). Qed.

Lemma as_rendered_set_expanded (b : bool) (c : card) :
  as_rendered (set_expanded b c) = as_rendered c.
Proof. done. Qed.

Lemma in_sync_translation_failed (k : kind) (i : nat) (st : Page) :
  in_sync st -> in_sync (translation_failed k i st).
Proof.
  intros Hsync k'. unfold translation_failed.
  apply synced_set_timers, synced_update_card; [| done].
  apply as_rendered_set_btn.
Qed.

Lemma in_sync_translate (srv : server) (seen : list request) (k : kind)
    (i : nat) (st : Page) :
  in_sync st -> in_sync (snd (run srv (translate k i st) seen)).
Proof.
  intros Hsync. unfold translate.
  set (st1 := update_card k i _ st).
  assert (in_sync st1) as Hsync1.
  { intros k'. apply synced_update_card; [apply as_rendered_set_btn | done]. }
  destruct (records k st1 !! i) as [it |]; simpl;
    [| by apply in_sync_translation_failed].
  destruct (srv seen (translate_request k it)) as [| response]; simpl;
    [by apply in_sync_translation_failed |].
  destruct (ok response); simpl; [| by apply in_sync_translation_failed].
  destruct (body response) as [| data]; simpl;
    [by apply in_sync_translation_failed |].
  intros k'. apply synced_update_card; [done |].
  apply in_sync_render. intros k'' Hk''.
  by apply synced_set_records_other.
Qed.

Lemma in_sync_restore_button (t : timer) (st : Page) :
  in_sync st -> in_sync (restore_button t st).
Proof.
  intros Hsync. unfold restore_button.
  destruct (epoch _ =? t_epoch t); [| done].
  intros k. apply synced_update_card; [apply as_rendered_set_btn | done].
Qed.

Lemma in_sync_handle (srv : server) (seen : list request) (e : event)
    (st : Page) :
  in_sync st -> in_sync (snd (run srv (handle e st) seen)).
Proof.
  intros Hsync. destruct e as [k i | k i |]; simpl.
  - intros k'. apply synced_update_card; [| done].
    intros c. apply as_rendered_iter_toggle.
  - destruct (offers_translate k i st); [by apply in_sync_translate | done].
  - unfold fireTimer. destruct (timers st) as [| t rest]; [done |].
    apply in_sync_restore_button. intros k. by apply synced_set_timers.
Qed.

(** In every state of the page, each list displays the cards of its
    records. *)
Lemma reachable_in_sync (st : Page) : reachable st -> in_sync st.
Proof.
  induction 1 as [parsed | srv seen e st _ IH].
  - apply in_sync_loadInteractionsData.
  - by apply in_sync_handle.
Qed.

(** The card of a record, in a list that is in line with its records. *)
Lemma synced_card (k : kind) (i : nat) (it : Interaction) (st : Page) :
  synced k st ->
  records k st !! i = Some it ->
  exists c, card_at k i st = Some c /\ as_rendered c = create_card k i it.
Proof.
  intros Hsync Hit. unfold card_at.
  assert ((as_rendered <$> cards_of (list_of k st)) !! i
          = Some (create_card k i it)) as Hcard.
  { rewrite Hsync, list_lookup_imap, Hit. done. }
  rewrite list_lookup_fmap in Hcard.
  destruct (cards_of (list_of k st) !! i) as [c |]; [| done].
  exists c. split; [done |]. by injection Hcard.
Qed.

(** What the three templates emit for a record with an AI description. *)
Lemma create_card_translated (k : kind) (i : nat) (it : Interaction)
    (text : string) :
  ai_description it = Some text ->
  text <> "" ->
  detail_value (create_card k i it) = text
  /\ translate_btn (create_card k i it) = None.
Proof.
  intros Hai Htext.
  assert (Js.truthy text = true) as Htruthy.
  { apply not_false_is_true. by rewrite truthy_false. }
  destruct k; simpl; rewrite Hai; simpl; by rewrite Htruthy.
Qed.

(** The default the templates substitute for a missing description is never
    empty. *)
Lemma professionalDesc_truthy (professional : option string) :
  Js.truthy (Js.or_else professional "No description available") = true.
Proof.
  destruct professional as [s |]; simpl; [| done].
  by destruct (Js.truthy s) eqn:Hs.
Qed.

(** What the three templates emit for a record without an AI description:
    the button, whatever the professional description is. *)
Lemma create_card_untranslated (k : kind) (i : nat) (it : Interaction) :
  Js.truthy_opt (ai_description it) = false ->
  translate_btn (create_card k i it) = Some fresh_button.
Proof.
  intros Hai.
  destruct k; simpl; by rewrite Hai, professionalDesc_truthy.
Qed.

End ResultsPage.

(** ** The details page *)

Section DetailsPage.
Import Details.

Lemma shows_translation_load (doc : Page) (stored : Interaction) :
  shows_translation (loadInteractionDetails doc stored).
Proof.
  intros it. unfold loadInteractionDetails, renderDetails.
  destruct (Js.truthy_opt (ai_description stored)) eqn:Hai; simpl.
  - by intros [= <-] _.
  - intros [= <-]. congruence.
Qed.

Lemma shows_translation_click (srv : server) (seen : list request) (st : Page) :
  shows_translation st ->
  shows_translation (snd (run srv (clickTranslate st) seen)).
Proof.
  intros Hshows. unfold clickTranslate.
  destruct (offers_translate st); [| done].
  unfold requestTranslation.
  destruct (currentInteraction st) as [it |] eqn:Hcur; [| done].
  destruct (negb (Js.truthy_opt (professional_description it))); [done |].
  simpl.
  assert (forall message,
             shows_translation
               (enable_again (alert message (set_translateBtn
                  {| disabled := true; label := TranslatingDots;
                     hidden := hidden (translateBtn st) |} st)))) as Hfail.
  { intros message it' Hit' Hai'. simpl in *.
    rewrite Hcur in Hit'. by apply Hshows; [rewrite Hcur |]. }
  destruct (srv seen _) as [| response]; simpl; [by apply Hfail |].
  destruct (body response) as [| data]; simpl; [by apply Hfail |].
  destruct (ok response); simpl; [| by apply Hfail].
  intros it'. simpl. by intros [= <-] _.
Qed.

Lemma reachable_shows_translation (st : Page) :
  reachable st -> shows_translation st.
Proof.
  induction 1 as [doc stored | srv seen st _ IH].
  - apply shows_translation_load.
  - by apply shows_translation_click.
Qed.

End DetailsPage.

Section TranslateOnce.

(** C3: a record that carries a non-empty AI description is displayed with
    that text and without a translate action, on the results page (in each
    of its three lists) and on the details page, in every state these pages
    can be in.  Invoking the translate action on it twice therefore issues no
    request, against any server, and leaves the page, and so the text
    displayed, as it was. *)
Theorem translated_record_is_not_translated_again :
  (forall (st : Interactions.Page) (k : Interactions.kind) (i : nat)
          (it : Interaction) (text : string),
      Interactions.reachable st ->
      Interactions.records k st !! i = Some it ->
      ai_description it = Some text ->
      text <> "" ->
      (exists c,
          Interactions.card_at k i st = Some c
          /\ Interactions.detail_value c = text
          /\ Interactions.translate_btn c = None)
      /\ forall (srv : server) (seen : list request),
          run srv
            (bind (Interactions.handle (Interactions.TranslateClick k i) st)
               (Interactions.handle (Interactions.TranslateClick k i)))
            seen
          = (seen, st))
  /\ (forall (st : Details.Page) (it : Interaction) (text : string),
         Details.reachable st ->
         Details.currentInteraction st = Some it ->
         ai_description it = Some text ->
         text <> "" ->
         Details.aiContent st = text
         /\ Details.aiSection_shown st = true
         /\ Details.offers_translate st = false
         /\ forall (srv : server) (seen : list request),
             run srv (bind (Details.clickTranslate st) Details.clickTranslate)
               seen
             = (seen, st)).
Proof.
  split.
  - intros st k i it text Hreach Hit Hai Htext.
    destruct (synced_card k i it st (reachable_in_sync st Hreach k) Hit)
      as (c & Hc & Hface).
    destruct (create_card_translated k i it text Hai Htext) as [Hvalue Hbtn].
    rewrite <- Hface in Hvalue, Hbtn. simpl in Hvalue, Hbtn.
    assert (Interactions.translate_btn c = None) as Hnone.
    { by destruct (Interactions.translate_btn c). }
    split; [by exists c |].
    intros srv seen.
    assert (Interactions.handle (Interactions.TranslateClick k i) st = Ret st)
      as Hnoop.
    { simpl. unfold Interactions.offers_translate. by rewrite Hc, Hnone. }
    rewrite run_bind, Hnoop.
    change (run srv (Ret st) seen) with (seen, st). cbn [fst snd].
    by rewrite Hnoop.
  - intros st it text Hreach Hit Hai Htext.
    assert (Js.truthy_opt (ai_description it) = true) as Htruthy.
    { rewrite Hai. simpl. apply not_false_is_true. by rewrite truthy_false. }
    destruct (reachable_shows_translation st Hreach it Hit Htruthy)
      as (Hcontent & Hshown & Hhidden).
    rewrite Hai in Hcontent.
    assert (Details.offers_translate st = false) as Hoffer.
    { unfold Details.offers_translate. by rewrite Hhidden. }
    repeat split; try done.
    intros srv seen.
    assert (Details.clickTranslate st = Ret st) as Hnoop.
    { unfold Details.clickTranslate. by rewrite Hoffer. }
    rewrite run_bind, Hnoop.
    change (run srv (Ret st) seen) with (seen, st). cbn [fst snd].
    by rewrite Hnoop.
Qed.

Lemma translated_record_is_not_translated_again_witness :
  ((exists c,
       Interactions.card_at Interactions.drug_kind 0 translated_card = Some c
       /\ Interactions.detail_value c = "May cause bleeding"
       /\ Interactions.translate_btn c = None)
   /\ forall (srv : server) (seen : list request),
       run srv
         (bind
            (Interactions.handle
               (Interactions.TranslateClick Interactions.drug_kind 0)
               translated_card)
            (Interactions.handle
               (Interactions.TranslateClick Interactions.drug_kind 0)))
         seen
       = (seen, translated_card))
  /\ (Details.aiContent translated_details = "May cause bleeding"
      /\ Details.aiSection_shown translated_details = true
      /\ Details.offers_translate translated_details = false
      /\ forall (srv : server) (seen : list request),
          run srv
            (bind (Details.clickTranslate translated_details)
               Details.clickTranslate)
            seen
          = (seen, translated_details)).
Proof.
  split.
  - apply (proj1 translated_record_is_not_translated_again translated_card
             Interactions.drug_kind 0
             (translated_record 1 "Warfarin" "Bleeding risk"
                "May cause bleeding")
             "May cause bleeding").
    + apply Interactions.reachable_load.
    + reflexivity.
    + reflexivity.
    + discriminate.
  - apply (proj2 translated_record_is_not_translated_again translated_details
             (translated_record 1 "Warfarin" "Bleeding risk"
                "May cause bleeding")
             "May cause bleeding").
    + apply Details.reachable_load.
    + reflexivity.
    + reflexivity.
    + discriminate.
Defined.

End TranslateOnce.

(** ** Failed and successful translations on the results page *)

Section ResultsTranslation.
Import Interactions.

Lemma same_but_buttons_refl (st : Page) : same_but_buttons st st.
Proof. by repeat split. Qed.

Lemma same_but_buttons_trans (st1 st2 st3 : Page) :
  same_but_buttons st1 st2 -> same_but_buttons st2 st3 ->
  same_but_buttons st1 st3.
Proof.
  intros (Hr1 & He1 & Hc1) (Hr2 & He2 & Hc2).
  split; [| split]; intros.
  - by rewrite Hr2, Hr1.
  - by rewrite He2, He1.
  - by rewrite Hc2, Hc1.
Qed.

Lemma set_btn_set_btn (b b' : button) (c : card) :
  set_btn b (set_btn b' c) = set_btn b c.
Proof. unfold set_btn. simpl. by destruct (translate_btn c). Qed.

Lemma same_but_buttons_update_card (k : kind) (i : nat) (b : button)
    (st : Page) :
  same_but_buttons st (update_card k i (set_btn b) st).
Proof.
  split; [| split]; intros.
  - apply records_update_card.
  - apply epoch_update_card.
  - rewrite card_at_update_card. case_decide as Hsame; [| done].
    destruct Hsame as [-> ->].
    destruct (card_at k i st) as [c |]; simpl; [| done].
    by rewrite set_btn_set_btn.
Qed.

Lemma same_but_buttons_set_timers (ts : list timer) (st : Page) :
  same_but_buttons st (set_timers ts st).
Proof. split; [| split]; intros k; by destruct k. Qed.

Lemma same_but_buttons_restore_button (t : timer) (st : Page) :
  same_but_buttons st (restore_button t st).
Proof.
  unfold restore_button. destruct (epoch _ =? t_epoch t).
  - apply same_but_buttons_update_card.
  - apply same_but_buttons_refl.
Qed.

Lemma same_but_buttons_restore_all (ts : list timer) (st : Page) :
  same_but_buttons st (fold_left (fun st t => restore_button t st) ts st).
Proof.
  revert st. induction ts as [| t ts IH]; intros st; simpl.
  - apply same_but_buttons_refl.
  - eapply same_but_buttons_trans; [| apply IH].
    apply same_but_buttons_restore_button.
Qed.

Lemma same_but_buttons_translation_failed (k : kind) (i : nat) (st : Page) :
  same_but_buttons st (translation_failed k i st).
Proof.
  unfold translation_failed.
  eapply same_but_buttons_trans; [| apply same_but_buttons_set_timers].
  apply same_but_buttons_update_card.
Qed.

(** A card that offers the translate action displays an enabled button. *)
Lemma offers_translate_button (k : kind) (i : nat) (st : Page) :
  offers_translate k i st = true ->
  exists c b,
    card_at k i st = Some c /\ translate_btn c = Some b /\ disabled b = false.
Proof.
  unfold offers_translate.
  destruct (card_at k i st) as [c |]; [| done].
  destruct (translate_btn c) as [b |] eqn:Hbtn; [| done].
  intros Hb. exists c, b. repeat split; [done |]. by destruct (disabled b).
Qed.

(** The run of a translate handler whose call fails. *)
Lemma translate_failed_run (srv : server) (seen : list request) (k : kind)
    (i : nat) (it : Interaction) (st : Page) :
  records k st !! i = Some it ->
  call_failed (srv seen (translate_request k it)) = true ->
  run srv (translate k i st) seen
  = (seen ++ [translate_request k it],
     translation_failed k i
       (update_card k i
          (set_btn {| disabled := true; label := Translating |}) st)).
Proof.
  intros Hit Hfailed. unfold translate.
  rewrite records_update_card, Hit. simpl.
  destruct (srv seen (translate_request k it)) as [| response]; simpl;
    [done |].
  simpl in Hfailed.
  destruct (ok response); simpl; [| done].
  by destruct (body response).
Qed.

(** The run of a translate handler whose call succeeds. *)
Lemma translate_succeeded_run (srv : server) (seen : list request) (k : kind)
    (i : nat) (it : Interaction) (data : translate_body) (st : Page) :
  records k st !! i = Some it ->
  srv seen (translate_request k it) = Got {| ok := true; body := Got data |} ->
  run srv (translate k i st) seen
  = (seen ++ [translate_request k it],
     update_card k i (set_expanded true)
       (render k
          (set_records k
             (<[i := store_translation k (consumer_description data) it]>
                (records k st))
             (update_card k i
                (set_btn {| disabled := true; label := Translating |}) st)))).
Proof.
  intros Hit Hreply. unfold translate.
  rewrite records_update_card, Hit. simpl. by rewrite Hreply.
Qed.

End ResultsTranslation.

Section FailedTranslation.

Lemma card_at_set_timers (k : Interactions.kind) (i : nat)
    (ts : list Interactions.timer) (st : Interactions.Page) :
  Interactions.card_at k i (Interactions.set_timers ts st)
  = Interactions.card_at k i st.
Proof. by destruct k. Qed.

(** A card that displays the button stands for a record without an AI
    description. *)
Lemma button_means_untranslated (k : Interactions.kind) (i : nat)
    (it : Interaction) :
  is_Some (Interactions.translate_btn (Interactions.create_card k i it)) ->
  Js.truthy_opt (ai_description it) = false.
Proof.
  destruct k; simpl; destruct (Js.truthy_opt (ai_description it)); simpl;
    try done; by intros [? ?].
Qed.

(** The state of the results page once the callbacks pending after a failed
    translation of card [i] of list [k] have fired. *)
Lemma fire_all_after_failure (k : Interactions.kind) (i : nat)
    (st : Interactions.Page) :
  let attempt :=
    Interactions.update_card k i
      (Interactions.set_btn
         {| Interactions.disabled := true;
            Interactions.label := Interactions.Translating |}) st in
  let st1 := Interactions.translation_failed k i attempt in
  same_but_buttons st (fire_all st1)
  /\ Interactions.card_at k i (fire_all st1)
     = Interactions.set_btn Interactions.fresh_button
         <$> Interactions.card_at k i st.
Proof.
  intros attempt st1.
  set (t := {| Interactions.t_kind := k;
               Interactions.t_epoch :=
                 Interactions.epoch (Interactions.list_of k st);
               Interactions.t_index := i |}).
  assert (Interactions.timers st1 = Interactions.timers st ++ [t]) as Htimers.
  { unfold st1, Interactions.translation_failed, attempt. simpl.
    rewrite ?timers_update_card, ?epoch_update_card. done. }
  set (before := fold_left (fun st t => Interactions.restore_button t st)
                   (Interactions.timers st) (Interactions.set_timers [] st1)).
  assert (same_but_buttons st before) as Hbefore.
  { eapply same_but_buttons_trans; [| apply same_but_buttons_restore_all].
    eapply same_but_buttons_trans; [| apply same_but_buttons_set_timers].
    eapply same_but_buttons_trans;
      [| apply same_but_buttons_translation_failed].
    apply same_but_buttons_update_card. }
  assert (fire_all st1
          = Interactions.update_card k i
              (Interactions.set_btn Interactions.fresh_button) before) as Hfire.
  { unfold fire_all. rewrite Htimers, fold_left_app. simpl. fold before.
    unfold Interactions.restore_button. simpl.
    destruct Hbefore as (_ & Hepoch & _). rewrite Hepoch.
    by rewrite Nat.eqb_refl. }
  rewrite Hfire. split.
  - eapply same_but_buttons_trans; [exact Hbefore |].
    apply same_but_buttons_update_card.
  - rewrite card_at_update_card, decide_True by done.
    by destruct Hbefore as (_ & _ & ->).
Qed.

Lemma set_timers_restore_button (t : Interactions.timer)
    (ts : list Interactions.timer) (st : Interactions.Page) :
  Interactions.set_timers ts (Interactions.restore_button t st)
  = Interactions.restore_button t (Interactions.set_timers ts st).
Proof.
  unfold Interactions.restore_button.
  destruct t as [k e i]. simpl.
  by destruct k; simpl; destruct (_ =? e).
Qed.

Lemma timers_restore_button (t : Interactions.timer) (st : Interactions.Page) :
  Interactions.timers (Interactions.restore_button t st)
  = Interactions.timers st.
Proof.
  unfold Interactions.restore_button.
  destruct (_ =? _); [apply timers_update_card | done].
Qed.

(** [fire_all] is the state after as many timer events as callbacks are
    pending. *)
Lemma fire_all_events (srv : server) (seen : list request)
    (st : Interactions.Page) :
  Interactions.handle_all srv
    (replicate (length (Interactions.timers st)) Interactions.TimerFires)
    st seen
  = (seen, fire_all st).
Proof.
  remember (Interactions.timers st) as ts eqn:Hts.
  revert st Hts. induction ts as [| t ts IH]; intros st Hts; simpl.
  - unfold fire_all. rewrite <- Hts. simpl. by destruct st; simpl in *; subst.
  - unfold Interactions.fireTimer. rewrite <- Hts.
    rewrite IH by (by rewrite timers_restore_button).
    unfold fire_all. rewrite timers_restore_button, <- Hts. simpl.
    by rewrite set_timers_restore_button.
Qed.

(** C6: when the call of a translate attempt fails (the request rejects, the
    status is an error, or the body cannot be read), on the results page the
    record is as before, without an AI description, every card displays the
    text it displayed, and the button, which shows the failure notice until
    its timer fires, is then enabled again with its label, so the attempt can
    be repeated; on the details page the record and the details displayed are
    as before and the button is enabled again at once. *)
Theorem failed_translation_leaves_record_and_text :
  (forall (srv : server) (seen : list request) (st : Interactions.Page)
          (k : Interactions.kind) (i : nat) (it : Interaction),
      Interactions.reachable st ->
      Interactions.offers_translate k i st = true ->
      Interactions.records k st !! i = Some it ->
      call_failed (srv seen (Interactions.translate_request k it)) = true ->
      let st1 :=
        snd (run srv (Interactions.handle (Interactions.TranslateClick k i) st)
               seen) in
      Js.truthy_opt (ai_description it) = false
      /\ same_but_buttons st st1
      /\ button_at k i st1
         = Some {| Interactions.disabled := true;
                   Interactions.label := Interactions.TranslationFailed |}
      /\ same_but_buttons st (fire_all st1)
      /\ button_at k i (fire_all st1) = Some Interactions.fresh_button
      /\ Interactions.offers_translate k i (fire_all st1) = true)
  /\ (forall (srv : server) (seen : list request) (st : Details.Page)
             (it : Interaction),
         Details.offers_translate st = true ->
         Details.currentInteraction st = Some it ->
         Js.truthy_opt (professional_description it) = true ->
         call_failed
           (srv seen
              (TranslateDescription (professional_description it)
                 (interaction_id it))) = true ->
         let st1 := snd (run srv (Details.clickTranslate st) seen) in
         Details.currentInteraction st1 = Some it
         /\ Details.selectedInteraction st1 = Details.selectedInteraction st
         /\ Details.detailsCard st1 = Details.detailsCard st
         /\ Details.aiSection_shown st1 = Details.aiSection_shown st
         /\ Details.aiContent st1 = Details.aiContent st
         /\ Details.disabled (Details.translateBtn st1) = false
         /\ Details.offers_translate st1 = true).
Proof.
  split.
  - intros srv seen st k i it Hreach Hoffer Hit Hfailed st1.
    destruct (offers_translate_button k i st Hoffer) as (c & b & Hc & Hb & _).
    assert (st1 = Interactions.translation_failed k i
                    (Interactions.update_card k i
                       (Interactions.set_btn
                          {| Interactions.disabled := true;
                             Interactions.label := Interactions.Translating |})
                       st)) as Hst1.
    { unfold st1. simpl. rewrite Hoffer.
      by rewrite (translate_failed_run srv seen k i it st Hit Hfailed). }
    destruct (fire_all_after_failure k i st) as [Hsame Hcard].
    rewrite <- Hst1 in Hsame, Hcard.
    split; [| split; [| split; [| split; [done | split]]]].
    + destruct (synced_card k i it st (reachable_in_sync st Hreach k) Hit)
        as (c' & Hc' & Hface).
      rewrite Hc in Hc'. injection Hc' as <-.
      apply (button_means_untranslated k i). rewrite <- Hface. simpl.
      by rewrite Hb.
    + rewrite Hst1.
      eapply same_but_buttons_trans;
        [| apply same_but_buttons_translation_failed].
      apply same_but_buttons_update_card.
    + rewrite Hst1. unfold button_at, Interactions.translation_failed.
      rewrite card_at_set_timers, !card_at_update_card, !decide_True by done.
      rewrite Hc. simpl. by rewrite Hb.
    + unfold button_at. rewrite Hcard, Hc. simpl. by rewrite Hb.
    + unfold Interactions.offers_translate. rewrite Hcard, Hc. simpl.
      by rewrite Hb.
  - intros srv seen st it Hoffer Hit Hprof Hfailed st1.
    unfold st1, Details.clickTranslate, Details.requestTranslation.
    rewrite Hoffer, Hit, Hprof. simpl.
    unfold Details.offers_translate in Hoffer.
    apply andb_true_iff in Hoffer as [Hhidden _].
    destruct (srv seen _) as [| response]; simpl;
      [by rewrite Hit; repeat split; try done;
          unfold Details.offers_translate; simpl; rewrite Hhidden |].
    simpl in Hfailed.
    destruct (body response) as [| data]; simpl;
      [by rewrite Hit; repeat split; try done;
          unfold Details.offers_translate; simpl; rewrite Hhidden |].
    destruct (ok response); simpl; [done |].
    by rewrite Hit; repeat split; try done;
       unfold Details.offers_translate; simpl; rewrite Hhidden.
Qed.

End FailedTranslation.

Section FailedTranslationRuns.

Lemma failed_translation_leaves_record_and_text_witness :
  (let st1 :=
     snd (run failing_translation
            (Interactions.handle
               (Interactions.TranslateClick Interactions.drug_kind 0)
               two_cards) []) in
   Js.truthy_opt
     (ai_description (record_of 1 "Warfarin" (Some "Bleeding risk"))) = false
   /\ same_but_buttons two_cards st1
   /\ button_at Interactions.drug_kind 0 st1
      = Some {| Interactions.disabled := true;
                Interactions.label := Interactions.TranslationFailed |}
   /\ same_but_buttons two_cards (fire_all st1)
   /\ button_at Interactions.drug_kind 0 (fire_all st1)
      = Some Interactions.fresh_button
   /\ Interactions.offers_translate Interactions.drug_kind 0 (fire_all st1)
      = true)
  /\ (let st1 :=
        snd (run failing_translation
               (Details.clickTranslate untranslated_details) []) in
      Details.currentInteraction st1
      = Some (record_of 1 "Warfarin" (Some "Bleeding risk"))
      /\ Details.selectedInteraction st1
         = Details.selectedInteraction untranslated_details
      /\ Details.detailsCard st1 = Details.detailsCard untranslated_details
      /\ Details.aiSection_shown st1
         = Details.aiSection_shown untranslated_details
      /\ Details.aiContent st1 = Details.aiContent untranslated_details
      /\ Details.disabled (Details.translateBtn st1) = false
      /\ Details.offers_translate st1 = true).
Proof.
  split.
  - apply (proj1 failed_translation_leaves_record_and_text
             failing_translation [] two_cards Interactions.drug_kind 0
             (record_of 1 "Warfarin" (Some "Bleeding risk"))).
    + apply Interactions.reachable_load.
    + reflexivity.
    + reflexivity.
    + reflexivity.
  - apply (proj2 failed_translation_leaves_record_and_text
             failing_translation [] untranslated_details
             (record_of 1 "Warfarin" (Some "Bleeding risk")));
      reflexivity.
Defined.

End FailedTranslationRuns.

Section EmptyDescription.

(** The guard of [requestTranslation]: without a professional description the
    details page issues no request. *)
Lemma requestTranslation_rejects_empty (srv : server) (seen : list request)
    (st : Details.Page) (it : Interaction) :
  Details.currentInteraction st = Some it ->
  Js.truthy_opt (professional_description it) = false ->
  run srv (Details.requestTranslation st) seen = (seen, st).
Proof.
  intros Hit Hempty. unfold Details.requestTranslation.
  by rewrite Hit, Hempty.
Qed.

(** C4: on the results page the card of a record whose professional
    description is empty does offer the translate action (the template tests
    the text after the default was substituted, which is never empty), and
    the action sends the empty description to [/translate_description]; on
    the details page the same record is rejected without a request. *)
Theorem empty_description_reaches_translate_description :
  Interactions.offers_translate Interactions.drug_kind 0 undescribed_card = true
  /\ Interactions.detail_value
       <$> Interactions.card_at Interactions.drug_kind 0 undescribed_card
     = Some "No description available"
  /\ trace catalog
       (Interactions.handle
          (Interactions.TranslateClick Interactions.drug_kind 0)
          undescribed_card)
     = [TranslateDescription (Some "") (Some 7%Z)]
  /\ trace catalog (Details.clickTranslate undescribed_details) = [].
Proof. repeat split. Qed.

End EmptyDescription.

Section SuccessfulTranslation.
Import Interactions.

Lemma card_at_set_list (k k' : kind) (j : nat) (c : container) (st : Page) :
  card_at k' j (set_list k c st)
  = if decide (k' = k) then cards_of c !! j else card_at k' j st.
Proof. unfold card_at. rewrite list_of_set_list. by case_decide. Qed.

Lemma card_at_set_records (k k' : kind) (j : nat) (l : list Interaction)
    (st : Page) :
  card_at k' j (set_records k l st) = card_at k' j st.
Proof. by destruct k, k'. Qed.

Lemma card_at_setupCardListeners (k : kind) (j : nat) (st : Page) :
  card_at k j (setupCardListeners st) = add_listener <$> card_at k j st.
Proof.
  unfold card_at.
  destruct k; simpl; by rewrite cards_of_fmap, list_lookup_fmap.
Qed.

(** The cards of a list that has records, once it is rendered. *)
Lemma card_at_render (k k' : kind) (j : nat) (st : Page) :
  records k st <> [] ->
  card_at k' j (render k st)
  = add_listener
      <$> (if decide (k' = k) then create_card k j <$> records k st !! j
           else card_at k' j st).
Proof.
  intros Hrecords. unfold render.
  destruct (length (records k st) =? 0) eqn:Hempty.
  { apply Nat.eqb_eq, nil_length_inv in Hempty. done. }
  rewrite card_at_setupCardListeners, card_at_set_list.
  case_decide; [| done]. unfold cards_of. simpl.
  by rewrite list_lookup_imap.
Qed.

(** C7, as stated, fails: a card of the same list that was collapsed is
    expanded after the translation of another card. *)
Lemma translation_keeps_other_cards_counterexample :
  ~ (forall (srv : server) (seen : list request) (st : Page) (k : kind)
            (i j : nat) (it : Interaction) (data : translate_body),
        reachable st ->
        offers_translate k i st = true ->
        records k st !! i = Some it ->
        srv seen (translate_request k it)
        = Got {| ok := true; body := Got data |} ->
        j <> i ->
        expanded
          <$> card_at k j (snd (run srv (handle (TranslateClick k i) st) seen))
        = expanded <$> card_at k j st).
Proof.
  intros Hclaim.
  assert (reachable second_collapsed) as Hreach.
  { apply (reachable_event catalog [] (HeaderClick drug_kind 1) two_cards).
    apply reachable_load. }
  specialize (Hclaim catalog [] second_collapsed drug_kind 0 1
                (record_of 1 "Warfarin" (Some "Bleeding risk"))
                {| consumer_description := Some "May cause bleeding";
                   error := None |}
                Hreach eq_refl eq_refl eq_refl).
  vm_compute in Hclaim. specialize (Hclaim ltac:(discriminate)).
  discriminate Hclaim.
Qed.

(** C7, amended: a successful translate action stores the text in the record
    and renders the whole list of the card anew from the records: every card
    of that list is then as the template emits it, expanded, whatever its
    state before; the cards of the other two lists keep their expand/collapse
    state. *)
Theorem translation_renders_list_anew
    (srv : server) (seen : list request) (st : Page) (k : kind) (i : nat)
    (it : Interaction) (data : translate_body) :
  offers_translate k i st = true ->
  records k st !! i = Some it ->
  srv seen (translate_request k it) = Got {| ok := true; body := Got data |} ->
  let st1 := snd (run srv (handle (TranslateClick k i) st) seen) in
  records k st1
  = <[i := store_translation k (consumer_description data) it]> (records k st)
  /\ (forall j,
         card_at k j st1
         = add_listener <$> (create_card k j <$> records k st1 !! j))
  /\ (forall j c, card_at k j st1 = Some c -> expanded c = true)
  /\ (forall k' j,
         k' <> k -> expanded <$> card_at k' j st1 = expanded <$> card_at k' j st).
Proof.
  intros Hoffer Hit Hreply st1.
  set (attempt := update_card k i
                    (set_btn {| disabled := true; label := Translating |}) st).
  set (stored := set_records k
                   (<[i := store_translation k (consumer_description data) it]>
                      (records k st)) attempt).
  assert (st1 = update_card k i (set_expanded true) (render k stored)) as Hst1.
  { unfold st1. simpl. rewrite Hoffer.
    by rewrite (translate_succeeded_run srv seen k i it data st Hit Hreply). }
  assert (records k stored
          = <[i := store_translation k (consumer_description data) it]>
              (records k st)) as Hstored.
  { unfold stored. by rewrite records_set_records, decide_True. }
  assert (records k stored <> []) as Hrecords.
  { rewrite Hstored. intros Hnil.
    apply (f_equal length) in Hnil. rewrite length_insert in Hnil.
    apply lookup_lt_Some in Hit. simpl in Hnil. lia. }
  assert (records k st1 = records k stored) as Hsame.
  { rewrite Hst1, records_update_card. unfold render.
    destruct (length (records k stored) =? 0); by destruct k. }
  assert (forall j,
             card_at k j st1
             = add_listener <$> (create_card k j <$> records k st1 !! j))
    as Hcards.
  { intros j. rewrite Hsame, Hst1, card_at_update_card.
    rewrite !card_at_render by done.
    rewrite !(decide_True (P := k = k)) by done.
    case_decide as Hj; [| done]. destruct Hj as [_ ->].
    destruct (records k stored !! i) as [r |]; simpl; [| done].
    by destruct k. }
  split; [by rewrite Hsame |]. split; [exact Hcards |]. split.
  - intros j c. rewrite Hcards.
    destruct (records k st1 !! j) as [r |]; simpl; [| done].
    intros [= <-]. by destruct k.
  - intros k' j Hk'. rewrite Hst1, card_at_update_card.
    rewrite decide_False; [| by intros [? _]].
    rewrite card_at_render, decide_False by done.
    unfold stored, attempt.
    rewrite card_at_set_records, card_at_update_card.
    rewrite decide_False; [| by intros [? _]].
    by destruct (card_at k' j st).
Qed.

Lemma translation_renders_list_anew_witness :
  let st1 :=
    snd (run catalog (handle (TranslateClick drug_kind 0) second_collapsed) [])
  in
  records drug_kind st1
  = <[0 := store_translation drug_kind (Some "May cause bleeding")
             (record_of 1 "Warfarin" (Some "Bleeding risk"))]>
      (records drug_kind second_collapsed)
  /\ (forall j,
         card_at drug_kind j st1
         = add_listener
             <$> (create_card drug_kind j <$> records drug_kind st1 !! j))
  /\ (forall j c, card_at drug_kind j st1 = Some c -> expanded c = true)
  /\ (forall k' j,
         k' <> drug_kind ->
         expanded <$> card_at k' j st1
         = expanded <$> card_at k' j second_collapsed).
Proof.
  apply (translation_renders_list_anew catalog [] second_collapsed drug_kind 0
           (record_of 1 "Warfarin" (Some "Bleeding risk"))
           {| consumer_description := Some "May cause bleeding";
              error := None |});
    reflexivity.
Defined.

End SuccessfulTranslation.

(** ** The merge of the drug-drug interactions *)

Section Merge.
Import Aggregator.

Abbreviation ids := (fmap (M := list) interaction_id).
Abbreviation merge_set := (fold_left merge_entry).
Abbreviation merge_sets := (fold_left merge_into).

Lemma listed_spec (id : Z) (bundle : list Drug_Interaction) :
  listed id bundle = true <-> id ∈ ids bundle.
Proof.
  unfold listed. rewrite existsb_exists, list_elem_of_fmap.
  split.
  - intros (e & He & Hid). exists e. apply Z.eqb_eq in Hid.
    by rewrite <- list_elem_of_In in He.
  - intros (e & Hid & He). exists e. rewrite <- list_elem_of_In.
    split; [done |]. by apply Z.eqb_eq.
Qed.

Lemma merge_entry_id (bundle : list Drug_Interaction) (e : Drug_Interaction)
    (id : Z) :
  id ∈ ids (merge_entry bundle e) <-> id ∈ ids bundle \/ id = interaction_id e.
Proof.
  unfold merge_entry.
  destruct (listed (interaction_id e) bundle) eqn:Hlisted.
  - apply listed_spec in Hlisted. split; [by left |].
    by intros [? | ->].
  - rewrite fmap_app, elem_of_app. simpl. by rewrite list_elem_of_singleton.
Qed.

Lemma merge_entry_NoDup (bundle : list Drug_Interaction) (e : Drug_Interaction) :
  NoDup (ids bundle) -> NoDup (ids (merge_entry bundle e)).
Proof.
  intros Hdup. unfold merge_entry.
  destruct (listed (interaction_id e) bundle) eqn:Hlisted; [done |].
  rewrite fmap_app. apply NoDup_app. split; [done |]. split.
  - intros id Hid Hid'. apply list_elem_of_singleton in Hid'. subst id.
    apply listed_spec in Hid. congruence.
  - apply NoDup_singleton.
Qed.

Lemma merge_entry_elem (bundle : list Drug_Interaction)
    (e x : Drug_Interaction) :
  x ∈ merge_entry bundle e -> x ∈ bundle \/ x = e.
Proof.
  unfold merge_entry. destruct (listed (interaction_id e) bundle); [by left |].
  rewrite elem_of_app, list_elem_of_singleton. done.
Qed.

Lemma merge_set_id (set bundle : list Drug_Interaction) (id : Z) :
  id ∈ ids (merge_set set bundle) <-> id ∈ ids bundle \/ id ∈ ids set.
Proof.
  revert bundle. induction set as [| e set IH]; intros bundle; simpl.
  - rewrite elem_of_nil. tauto.
  - rewrite IH, merge_entry_id, elem_of_cons. tauto.
Qed.

Lemma merge_set_NoDup (set bundle : list Drug_Interaction) :
  NoDup (ids bundle) -> NoDup (ids (merge_set set bundle)).
Proof.
  revert bundle. induction set as [| e set IH]; intros bundle Hdup; simpl;
    [done |].
  by apply IH, merge_entry_NoDup.
Qed.

Lemma merge_set_elem (set bundle : list Drug_Interaction)
    (x : Drug_Interaction) :
  x ∈ merge_set set bundle -> x ∈ bundle \/ x ∈ set.
Proof.
  revert bundle. induction set as [| e set IH]; intros bundle; simpl;
    [by left |].
  intros [Hx | Hx]%IH; [| right; by right].
  apply merge_entry_elem in Hx as [Hx | ->]; [by left | right; left].
Qed.

Lemma merge_sets_id (sets : list (list Drug_Interaction))
    (bundle : list Drug_Interaction) (id : Z) :
  id ∈ ids (merge_sets sets bundle)
  <-> id ∈ ids bundle \/ exists set, set ∈ sets /\ id ∈ ids set.
Proof.
  revert bundle. induction sets as [| set sets IH]; intros bundle; simpl.
  - split; [by left |]. intros [Hid | (set & Hset & _)]; [done |].
    by apply elem_of_nil in Hset.
  - unfold merge_into at 2. rewrite IH, merge_set_id. split.
    + intros [[Hid | Hid] | (set' & Hset' & Hid)];
        first [ by left
              | right; exists set; split; [left | done]
              | right; exists set'; split; [by right | done] ].
    + intros [Hid | (set' & Hset' & Hid)]; [left; by left |].
      apply elem_of_cons in Hset' as [-> | Hset']; [left; by right |].
      right. by exists set'.
Qed.

Lemma merge_sets_NoDup (sets : list (list Drug_Interaction))
    (bundle : list Drug_Interaction) :
  NoDup (ids bundle) -> NoDup (ids (merge_sets sets bundle)).
Proof.
  revert bundle. induction sets as [| set sets IH]; intros bundle Hdup; simpl;
    [done |].
  by apply IH, merge_set_NoDup.
Qed.

Lemma merge_sets_elem (sets : list (list Drug_Interaction))
    (bundle : list Drug_Interaction) (x : Drug_Interaction) :
  x ∈ merge_sets sets bundle ->
  x ∈ bundle \/ exists set, set ∈ sets /\ x ∈ set.
Proof.
  revert bundle. induction sets as [| set sets IH]; intros bundle; simpl;
    [by left |].
  intros [Hx | (set' & Hset' & Hx)]%IH.
  - apply merge_set_elem in Hx as [Hx | Hx]; [by left |].
    right. exists set. split; [left | done].
  - right. exists set'. split; [by right | done].
Qed.

(** No entry of a bundle stands for an interaction that is not listed. *)
Lemma entries_for_none (id : Z) (bundle : list Drug_Interaction) :
  id ∉ ids bundle -> entries_for id bundle = [].
Proof.
  unfold entries_for. induction bundle as [| x bundle IH]; simpl; [done |].
  intros Hid. apply not_elem_of_cons in Hid as [Hx Hid].
  destruct (interaction_id x =? id)%Z eqn:Heq.
  - apply Z.eqb_eq in Heq. congruence.
  - by apply IH.
Qed.

(** In a bundle without two entries of the same interaction, the entries of a
    listed interaction are one entry. *)
Lemma entries_for_single (id : Z) (bundle : list Drug_Interaction) :
  NoDup (ids bundle) ->
  id ∈ ids bundle ->
  exists e, entries_for id bundle = [e] /\ e ∈ bundle /\ interaction_id e = id.
Proof.
  induction bundle as [| x bundle IH]; simpl; intros Hdup Hin.
  - by apply elem_of_nil in Hin.
  - apply NoDup_cons in Hdup as [Hx Hdup]. unfold entries_for. simpl.
    destruct (interaction_id x =? id)%Z eqn:Hid.
    + apply Z.eqb_eq in Hid. exists x. split; [| split; [left | done]].
      f_equal. apply entries_for_none. by rewrite <- Hid.
    + apply Z.eqb_neq in Hid.
      apply elem_of_cons in Hin as [Hin | Hin]; [congruence |].
      destruct (IH Hdup Hin) as (e & Hentries & He & Heid).
      exists e. split; [done |]. split; [by right | done].
Qed.

(** C2: when two of the medications of a check, A and B, share one
    interaction record (the junction table lists it under A with B as the
    counterpart, and under B with A as the counterpart), the merged bundle
    contains exactly one entry for that record: the entry listed under one of
    the medications, which is not listed again under the other. *)
Theorem shared_interaction_listed_once
    (table : list Drug_Interaction) (prescribedDrug : Z)
    (currentMedications : list Z) (a b id : Z) (nameA nameB : option string) :
  a ∈ prescribedDrug :: currentMedications ->
  b ∈ prescribedDrug :: currentMedications ->
  {| drug_id := a; interaction_id := id; interacting_drug_name := nameB |}
    ∈ table ->
  {| drug_id := b; interaction_id := id; interacting_drug_name := nameA |}
    ∈ table ->
  exists e,
    entries_for id (checkInteractions table prescribedDrug currentMedications)
    = [e]
    /\ e ∈ table
    /\ interaction_id e = id
    /\ drug_id e ∈ prescribedDrug :: currentMedications.
Proof.
  intros Ha _ Hrow _. unfold checkInteractions, merge.
  set (meds := prescribedDrug :: currentMedications) in *.
  set (sets := interactionsFor table <$> remove_dups meds).
  assert (id ∈ ids (merge_sets sets [])) as Hlisted.
  { apply merge_sets_id. right.
    exists (interactionsFor table a). split.
    - apply list_elem_of_fmap_2. by apply elem_of_remove_dups.
    - apply list_elem_of_fmap.
      exists {| drug_id := a; interaction_id := id;
                interacting_drug_name := nameB |}.
      split; [done |]. unfold interactionsFor.
      apply list_elem_of_In, filter_In. split; [by apply list_elem_of_In |].
      simpl. apply Z.eqb_refl. }
  destruct (entries_for_single id (merge_sets sets []))
    as (e & Hentries & He & Hid); [| done |].
  { apply merge_sets_NoDup. constructor. }
  exists e. split; [done |].
  apply merge_sets_elem in He as [He | (set & Hset & He)];
    [by apply elem_of_nil in He |].
  apply list_elem_of_fmap in Hset as (d & -> & Hd).
  rewrite elem_of_remove_dups in Hd.
  apply list_elem_of_In, filter_In in He as [He Hdrug].
  apply Z.eqb_eq in Hdrug. apply list_elem_of_In in He.
  split; [done |]. split; [done |]. by rewrite Hdrug.
Qed.

Lemma shared_interaction_listed_once_witness :
  let table :=
    [{| drug_id := 1; interaction_id := 10;
        interacting_drug_name := Some "Warfarin" |};
     {| drug_id := 2; interaction_id := 10;
        interacting_drug_name := Some "Aspirin" |};
     {| drug_id := 2; interaction_id := 11;
        interacting_drug_name := Some "Ibuprofen" |};
     {| drug_id := 3; interaction_id := 11;
        interacting_drug_name := Some "Warfarin" |}] in
  exists e,
    entries_for 10 (checkInteractions table 1 [2%Z; 3%Z]) = [e]
    /\ e ∈ table
    /\ interaction_id e = 10%Z
    /\ drug_id e ∈ [1%Z; 2%Z; 3%Z].
Proof.
  intros table.
  apply (shared_interaction_listed_once table 1 [2%Z; 3%Z] 1 2 10
           (Some "Aspirin") (Some "Warfarin")).
  - apply (bool_decide_unpack _). vm_compute. exact I.
  - apply (bool_decide_unpack _). vm_compute. exact I.
  - left.
  - right. left.
Defined.

End Merge.

(** ** Runs of the model on concrete inputs *)

Section Runs.

Example toLowerCase_mixed : Js.toLowerCase "AsPirin 81MG" = "aspirin 81mg".
Proof. reflexivity. Qed.

Example trim_both_ends : Js.trim "  low dose aspirin  " = "low dose aspirin".
Proof. reflexivity. Qed.

Example addMedication_same_name_other_case :
  Index.selectedMedications
    (Index.addMedication "WARFARIN" (Index.addMedication "Warfarin" blank))
  = ["Warfarin"]
  /\ Index.errorMessage
       (Index.addMedication "WARFARIN" (Index.addMedication "Warfarin" blank))
     = Some "WARFARIN is already added".
Proof. split; reflexivity. Qed.

Example removeMedication_exact_name :
  Index.selectedMedications
    (Index.removeMedication "warfarin"
       (Index.addMedication "Aspirin" (Index.addMedication "Warfarin" blank)))
  = ["Warfarin"; "Aspirin"]
  /\ Index.selectedMedications
       (Index.removeMedication "Warfarin"
          (Index.addMedication "Aspirin" (Index.addMedication "Warfarin" blank)))
     = ["Aspirin"].
Proof. split; reflexivity. Qed.

(** The scenario of the specification: all three validations succeed, the
    bundle is stored and the results page is opened. *)
Example check_aspirin_warfarin :
  let st := filled "Aspirin" "Hypertension" ["Warfarin"] in
  let after := result catalog (Index.checkDrugInteraction st) in
  trace catalog (Index.checkDrugInteraction st)
  = [ValidateDrugs ["Aspirin"]; SearchConditions "Hypertension";
     ValidateDrugs ["Warfarin"]; CheckDrugInteractions ["Warfarin"] "Aspirin"]
  /\ Index.interactionsData after
     = Some (bundle_of [record_of 1 "Warfarin" (Some "Bleeding risk")]
               ["Warfarin"])
  /\ Index.location after = Some "/interactions/"
  /\ Index.errorMessage after = None
  /\ Index.checkBtn_disabled after = false.
Proof. repeat split. Qed.

Example check_offline :
  let st := filled "Aspirin" "Hypertension" ["Warfarin"] in
  trace offline (Index.checkDrugInteraction st) = [ValidateDrugs ["Aspirin"]]
  /\ Index.errorMessage (result offline (Index.checkDrugInteraction st))
     = Some "Unable to connect to the server. Please try again.".
Proof. split; reflexivity. Qed.

Example autocomplete_one_character :
  trace catalog
    (Index.handle (Index.Debounced Index.drugAutocomplete)
       (filled "A" "" []))
  = []
  /\ trace catalog
       (Index.handle (Index.Debounced Index.drugAutocomplete)
          (filled "As" "" []))
     = [Autocomplete "drugs" "As"].
Proof. split; reflexivity. Qed.

(** A failed translation followed by its timer leaves the page as it was. *)
Example failed_translation_then_timer :
  Interactions.handle_all failing_translation
    [Interactions.TranslateClick Interactions.drug_kind 0;
     Interactions.TimerFires]
    two_cards []
  = ([TranslateDescription (Some "Bleeding risk") (Some 1%Z)], two_cards).
Proof. reflexivity. Qed.

(** While the failure notice is displayed the button does not react. *)
Example failed_translation_click_before_timer :
  trace failing_translation
    (bind
       (Interactions.handle
          (Interactions.TranslateClick Interactions.drug_kind 0) two_cards)
       (Interactions.handle
          (Interactions.TranslateClick Interactions.drug_kind 0)))
  = [TranslateDescription (Some "Bleeding risk") (Some 1%Z)].
Proof. reflexivity. Qed.

(** With cards in all three lists, the headers of the earlier lists carry the
    listeners of the later calls: three on a drug card, two on a food card,
    one on a disease card, so a click collapses a drug or a disease card and
    leaves a food card expanded. *)
Example listeners_of_three_lists :
  let parsed :=
    {| interactions := Some [record_of 1 "Warfarin" (Some "Bleeding risk")];
       food_interactions := Some [record_of 2 "" (Some "Avoid alcohol")];
       disease_interactions := Some [record_of 3 "" (Some "Renal impairment")];
       drugs := Some ["Aspirin"; "Warfarin"];
       prescribed_drug := None;
       current_medications := None |} in
  let st := Interactions.loadInteractionsData parsed in
  let clicked k := Interactions.clickHeader k 0 st in
  (Interactions.header_listeners
     <$> Interactions.card_at Interactions.drug_kind 0 st,
   Interactions.header_listeners
     <$> Interactions.card_at Interactions.food_kind 0 st,
   Interactions.header_listeners
     <$> Interactions.card_at Interactions.disease_kind 0 st)
  = (Some 3, Some 2, Some 1)
  /\ (Interactions.expanded
        <$> Interactions.card_at Interactions.drug_kind 0
              (clicked Interactions.drug_kind),
      Interactions.expanded
        <$> Interactions.card_at Interactions.food_kind 0
              (clicked Interactions.food_kind),
      Interactions.expanded
        <$> Interactions.card_at Interactions.disease_kind 0
              (clicked Interactions.disease_kind))
     = (Some false, Some true, Some false).
Proof. split; reflexivity. Qed.

Example details_translation :
  let after := result catalog (Details.clickTranslate untranslated_details) in
  trace catalog (Details.clickTranslate untranslated_details)
  = [TranslateDescription (Some "Bleeding risk") (Some 1%Z)]
  /\ Details.aiContent after = "May cause bleeding"
  /\ Details.offers_translate after = false
  /\ (ai_description <$> Details.selectedInteraction after)
     = Some (Some "May cause bleeding").
Proof. repeat split. Qed.

Example merge_two_medications :
  let row d i n :=
    {| Aggregator.drug_id := d; Aggregator.interaction_id := i;
       Aggregator.interacting_drug_name := Some n |} in
  Aggregator.checkInteractions
    [row 1%Z 10%Z "Warfarin"; row 2%Z 10%Z "Aspirin";
     row 2%Z 11%Z "Ibuprofen"; row 3%Z 11%Z "Warfarin"]
    1 [2%Z; 3%Z]
  = [row 1%Z 10%Z "Warfarin"; row 2%Z 11%Z "Ibuprofen"].
Proof. reflexivity. Qed.

End Runs.

(** ** Further properties of the search page *)

Section SearchPageBehaviour.
Import Index.

(** Takes the next reply of the server in a run of [checkDrugInteraction]. *)
Ltac next_reply srv :=
  match goal with
  | |- context [srv ?seen ?q] =>
      let reply := fresh "reply" in
      let Hreply := fresh "Hreply" in
      destruct (srv seen q) as [| reply] eqn:Hreply; simpl
  end.

Ltac next_test :=
  match goal with
  | |- context [run _ (if ?b then _ else _) _] =>
      let Htest := fresh "Htest" in
      destruct b eqn:Htest; simpl
  end.

(** X1: a run of [checkDrugInteraction] changes neither the selection nor
    the three form fields (the drug, the condition and the medication search
    box) nor the three dropdowns nor the rendered selector; when the form is
    complete it ends with the check button enabled and its text label back,
    whatever the server answers, and when the form is incomplete it issues
    no request and leaves the button and the results area alone. *)
Theorem checkDrugInteraction_leaves_form_and_button (srv : server) (st : Page) :
  let after := result srv (checkDrugInteraction st) in
  selectedMedications after = selectedMedications st
  /\ drugInput after = drugInput st
  /\ conditionInput after = conditionInput st
  /\ medicationSearchInput after = medicationSearchInput st
  /\ drugDropdown after = drugDropdown st
  /\ conditionDropdown after = conditionDropdown st
  /\ medicationDropdown after = medicationDropdown st
  /\ medicationTags after = medicationTags st
  /\ medCount after = medCount st
  /\ medicationSearchInput_disabled after = medicationSearchInput_disabled st
  /\ if form_complete st
     then checkBtn_disabled after = false /\ btnLoading after = false
     else checkBtn_disabled after = checkBtn_disabled st
          /\ btnLoading after = btnLoading st
          /\ results after = results st
          /\ trace srv (checkDrugInteraction st) = [].
Proof.
  unfold trace, result, checkDrugInteraction, form_complete.
  destruct (Js.truthy (Js.trim (drugInput st))); simpl; [| by repeat split].
  destruct (Js.truthy (Js.trim (conditionInput st))); simpl;
    [| by repeat split].
  destruct (length (selectedMedications st) =? 0); simpl; [by repeat split |].
  next_reply srv; [by repeat split |].
  next_test; [by repeat split |].
  next_reply srv; [by repeat split |].
  next_test; [by repeat split |].
  next_reply srv; [by repeat split |].
  next_test; [by repeat split |].
  next_reply srv; [by repeat split |].
  next_test; by repeat split.
Qed.

(** X2: when the form is complete, the three validations pass and the reply
    of [/check_drug_interactions] can be read, the run ends in one of two
    ways: on status 401 the session is removed from [localStorage] and the
    page goes to [/welcome.html] without storing anything; on any other
    status the body is stored as [interactionsData], the page goes to
    [/interactions/], and no error is shown. *)
Theorem checkDrugInteraction_completed
    (srv : server) (st : Page) (response : check_response) :
  let drug := Js.trim (drugInput st) in
  let condition := Js.trim (conditionInput st) in
  let meds := selectedMedications st in
  let v1 := ValidateDrugs [drug] in
  let v2 := SearchConditions condition in
  let v3 := ValidateDrugs meds in
  let r1 : fetched validate_body := srv [] v1 in
  let r2 : fetched Js.json := srv [v1] v2 in
  let r3 : fetched validate_body := srv [v1; v2] v3 in
  let r4 : fetched check_response :=
    srv [v1; v2; v3] (CheckDrugInteractions meds drug) in
  let after := result srv (checkDrugInteraction st) in
  form_complete st = true ->
  validated r1 = true ->
  condition_found r2 = true ->
  validated r3 = true ->
  r4 = Got response ->
  if status response =? 401
  then pharmacheck_token after = None
       /\ pharmacheck_user after = None
       /\ location after = Some "/welcome.html"
       /\ interactionsData after = interactionsData st
  else interactionsData after = Some (data response)
       /\ location after = Some "/interactions/"
       /\ pharmacheck_token after = pharmacheck_token st
       /\ pharmacheck_user after = pharmacheck_user st
       /\ errorMessage after = errorMessage st.
Proof.
  intros drug condition meds v1 v2 v3 r1 r2 r3 r4 after.
  subst after r1 r2 r3 r4 v1 v2 v3 meds.
  unfold result, checkDrugInteraction, form_complete.
  fold drug condition. clearbody drug condition. simpl.
  destruct (Js.truthy drug); simpl; [| done].
  destruct (Js.truthy condition); simpl; [| done].
  destruct (length (selectedMedications st) =? 0); simpl; [done |].
  intros _.
  destruct (srv [] (ValidateDrugs [drug])) as [| b1]; simpl; [done |].
  destruct (some_not_found b1); simpl; [done |]. intros _.
  destruct (srv [ValidateDrugs [drug]] (SearchConditions condition))
    as [| j2]; simpl; [done |].
  destruct (condition_missing j2); simpl; [done |]. intros _.
  destruct (srv [ValidateDrugs [drug]; SearchConditions condition]
              (ValidateDrugs (selectedMedications st))) as [| b3]; simpl;
    [done |].
  destruct (some_not_found b3); simpl; [done |]. intros _ ->. simpl.
  destruct (status response =? 401); simpl; by repeat split.
Qed.

Lemma checkDrugInteraction_completed_witness :
  let st := filled "Aspirin" "Hypertension" ["Warfarin"] in
  (interactionsData (result catalog (checkDrugInteraction st))
   = Some (bundle_of [record_of 1 "Warfarin" (Some "Bleeding risk")]
             ["Warfarin"])
   /\ location (result catalog (checkDrugInteraction st))
      = Some "/interactions/"
   /\ pharmacheck_token (result catalog (checkDrugInteraction st))
      = pharmacheck_token st
   /\ pharmacheck_user (result catalog (checkDrugInteraction st))
      = pharmacheck_user st
   /\ errorMessage (result catalog (checkDrugInteraction st))
      = errorMessage st)
  /\ (pharmacheck_token (result expired (checkDrugInteraction st)) = None
      /\ pharmacheck_user (result expired (checkDrugInteraction st)) = None
      /\ location (result expired (checkDrugInteraction st))
         = Some "/welcome.html"
      /\ interactionsData (result expired (checkDrugInteraction st))
         = interactionsData st).
Proof.
  split.
  - apply (checkDrugInteraction_completed catalog
             (filled "Aspirin" "Hypertension" ["Warfarin"])
             {| status := 200;
                data := bundle_of
                          [record_of 1 "Warfarin" (Some "Bleeding risk")]
                          ["Warfarin"] |});
      reflexivity.
  - apply (checkDrugInteraction_completed expired
             (filled "Aspirin" "Hypertension" ["Warfarin"])
             {| status := 401; data := no_bundle |});
      reflexivity.
Defined.

(** X3: a run of [checkDrugInteraction] that did not get through the three
    validations to a readable reply of [/check_drug_interactions] stores
    nothing, keeps the session and does not leave the page. *)
Theorem checkDrugInteraction_stores_only_when_completed
    (srv : server) (st : Page) :
  let drug := Js.trim (drugInput st) in
  let condition := Js.trim (conditionInput st) in
  let meds := selectedMedications st in
  let v1 := ValidateDrugs [drug] in
  let v2 := SearchConditions condition in
  let v3 := ValidateDrugs meds in
  let r1 : fetched validate_body := srv [] v1 in
  let r2 : fetched Js.json := srv [v1] v2 in
  let r3 : fetched validate_body := srv [v1; v2] v3 in
  let r4 : fetched check_response :=
    srv [v1; v2; v3] (CheckDrugInteractions meds drug) in
  let after := result srv (checkDrugInteraction st) in
  (interactionsData after = interactionsData st
   /\ location after = location st
   /\ pharmacheck_token after = pharmacheck_token st
   /\ pharmacheck_user after = pharmacheck_user st)
  \/ (form_complete st = true
      /\ validated r1 = true
      /\ condition_found r2 = true
      /\ validated r3 = true
      /\ exists response, r4 = Got response).
Proof.
  intros drug condition meds v1 v2 v3 r1 r2 r3 r4 after.
  subst after r1 r2 r3 r4 v1 v2 v3 meds.
  unfold result, checkDrugInteraction, form_complete.
  fold drug condition. clearbody drug condition. simpl.
  destruct (Js.truthy drug); simpl; [| by left].
  destruct (Js.truthy condition); simpl; [| by left].
  destruct (length (selectedMedications st) =? 0); simpl; [by left |].
  destruct (srv [] (ValidateDrugs [drug])) as [| b1]; simpl; [by left |].
  destruct (some_not_found b1); simpl; [by left |].
  destruct (srv [ValidateDrugs [drug]] (SearchConditions condition))
    as [| j2]; simpl; [by left |].
  destruct (condition_missing j2); simpl; [by left |].
  destruct (srv [ValidateDrugs [drug]; SearchConditions condition]
              (ValidateDrugs (selectedMedications st))) as [| b3]; simpl;
    [by left |].
  destruct (some_not_found b3); simpl; [by left |].
  destruct (srv _ (CheckDrugInteractions (selectedMedications st) drug))
    as [| response]; simpl; [by left |].
  right. repeat split. by exists response.
Qed.

End SearchPageBehaviour.

Section SearchPageEdges.
Import Index.

(** X4: when the form is complete and a [fetch] of the run rejects (or its
    body cannot be read), at whichever of the four requests, the run ends
    with the general connection message, the results area cleared, the button
    enabled, nothing stored and the page not left. *)
Theorem checkDrugInteraction_connection_lost (srv : server) (st : Page) :
  let drug := Js.trim (drugInput st) in
  let condition := Js.trim (conditionInput st) in
  let meds := selectedMedications st in
  let v1 := ValidateDrugs [drug] in
  let v2 := SearchConditions condition in
  let v3 := ValidateDrugs meds in
  let r1 : fetched validate_body := srv [] v1 in
  let r2 : fetched Js.json := srv [v1] v2 in
  let r3 : fetched validate_body := srv [v1; v2] v3 in
  let r4 : fetched check_response :=
    srv [v1; v2; v3] (CheckDrugInteractions meds drug) in
  let after := result srv (checkDrugInteraction st) in
  form_complete st = true ->
  (r1 = Threw
   \/ (validated r1 = true /\ r2 = Threw)
   \/ (validated r1 = true /\ condition_found r2 = true /\ r3 = Threw)
   \/ (validated r1 = true /\ condition_found r2 = true
       /\ validated r3 = true /\ r4 = Threw)) ->
  errorMessage after = Some connection_message
  /\ results after = ""
  /\ checkBtn_disabled after = false
  /\ interactionsData after = interactionsData st
  /\ location after = location st.
Proof.
  intros drug condition meds v1 v2 v3 r1 r2 r3 r4 after.
  subst after r1 r2 r3 r4 v1 v2 v3 meds.
  unfold result, checkDrugInteraction, form_complete.
  fold drug condition. clearbody drug condition. simpl.
  destruct (Js.truthy drug); simpl; [| done].
  destruct (Js.truthy condition); simpl; [| done].
  destruct (length (selectedMedications st) =? 0); simpl; [done |].
  intros _.
  destruct (srv [] (ValidateDrugs [drug])) as [| b1]; simpl; [done |].
  destruct (some_not_found b1); simpl;
    [by intros [? | [[? _] | [[? _] | [? _]]]] |].
  destruct (srv [ValidateDrugs [drug]] (SearchConditions condition))
    as [| j2]; simpl; [done |].
  destruct (condition_missing j2); simpl;
    [by intros [? | [[_ ?] | [(_ & ? & _) | (_ & ? & _)]]] |].
  destruct (srv [ValidateDrugs [drug]; SearchConditions condition]
              (ValidateDrugs (selectedMedications st))) as [| b3]; simpl;
    [done |].
  destruct (some_not_found b3); simpl;
    [by intros [? | [[_ ?] | [(_ & _ & ?) | (_ & _ & ? & _)]]] |].
  destruct (srv _ (CheckDrugInteractions (selectedMedications st) drug))
    as [| response]; simpl; [done |].
  by intros [? | [[_ ?] | [(_ & _ & ?) | (_ & _ & _ & ?)]]].
Qed.

Lemma checkDrugInteraction_connection_lost_witness :
  let st := filled "Aspirin" "Hypertension" ["Warfarin"] in
  let after := result offline (checkDrugInteraction st) in
  errorMessage after = Some connection_message
  /\ results after = ""
  /\ checkBtn_disabled after = false
  /\ interactionsData after = interactionsData st
  /\ location after = location st.
Proof.
  apply (checkDrugInteraction_connection_lost offline
           (filled "Aspirin" "Hypertension" ["Warfarin"])).
  - reflexivity.
  - left. reflexivity.
Defined.

Lemma trim_only_spaces (s : string) : only_spaces s = true -> Js.trim s = "".
Proof.
  unfold Js.trim. induction s as [| c r IH]; simpl; [done |].
  intros [Hc Hr]%andb_true_iff. rewrite Hc. by apply IH.
Qed.

(** X5: a drug field that holds white space only counts as empty: the run
    issues no request and asks for the prescribed drug; with a drug entered,
    the same holds of the condition field and its message. *)
Theorem checkDrugInteraction_blank_fields (srv : server) (st : Page) :
  (only_spaces (drugInput st) = true ->
   trace srv (checkDrugInteraction st) = []
   /\ result srv (checkDrugInteraction st)
      = showError "Please enter the drug being prescribed" st)
  /\ (Js.truthy (Js.trim (drugInput st)) = true ->
      only_spaces (conditionInput st) = true ->
      trace srv (checkDrugInteraction st) = []
      /\ result srv (checkDrugInteraction st)
         = showError "Please enter the condition being treated" st).
Proof.
  unfold trace, result, checkDrugInteraction. split.
  - intros Hblank. by rewrite (trim_only_spaces _ Hblank).
  - intros -> Hblank. by rewrite (trim_only_spaces _ Hblank).
Qed.

Lemma checkDrugInteraction_blank_fields_witness :
  (trace catalog (checkDrugInteraction (filled "   " "Hypertension" ["Warfarin"]))
   = []
   /\ result catalog
        (checkDrugInteraction (filled "   " "Hypertension" ["Warfarin"]))
      = showError "Please enter the drug being prescribed"
          (filled "   " "Hypertension" ["Warfarin"]))
  /\ (trace catalog (checkDrugInteraction (filled "Aspirin" "  " ["Warfarin"]))
      = []
      /\ result catalog
           (checkDrugInteraction (filled "Aspirin" "  " ["Warfarin"]))
         = showError "Please enter the condition being treated"
             (filled "Aspirin" "  " ["Warfarin"])).
Proof.
  split.
  - apply (proj1 (checkDrugInteraction_blank_fields catalog
                    (filled "   " "Hypertension" ["Warfarin"]))).
    reflexivity.
  - apply (proj2 (checkDrugInteraction_blank_fields catalog
                    (filled "Aspirin" "  " ["Warfarin"])));
      reflexivity.
Defined.

Lemma elem_of_js_filter {A} (p : A -> bool) (xs : list A) (x : A) :
  x ∈ Js.filter p xs <-> x ∈ xs /\ p x = true.
Proof.
  induction xs as [| y xs IH]; simpl.
  - rewrite elem_of_nil. tauto.
  - destruct (p y) eqn:Hy; rewrite ?elem_of_cons, IH, ?elem_of_cons.
    + split; [intros [-> | [? ?]]; tauto | tauto].
    + split; [tauto |]. intros [[-> | ?] ?]; [congruence | tauto].
Qed.

Lemma js_filter_shorter {A} (p : A -> bool) (xs : list A) (x : A) :
  x ∈ xs -> p x = false -> length (Js.filter p xs) < length xs.
Proof.
  intros Hx Hp. induction xs as [| y xs IH]; simpl.
  - by apply elem_of_nil in Hx.
  - pose proof (sublist_length _ _ (filter_sublist p xs)) as Hle.
    apply elem_of_cons in Hx as [<- | Hx].
    + rewrite Hp. lia.
    + specialize (IH Hx). destruct (p y); simpl; lia.
Qed.

Lemma selector_rendered_render (st : Page) :
  selector_rendered (renderSelectedMedications st).
Proof. by repeat split. Qed.

Lemma selector_rendered_removeMedication (name : string) (st : Page) :
  selector_rendered (removeMedication name st).
Proof. by repeat split. Qed.

Lemma selector_rendered_addMedication (name : string) (st : Page) :
  selector_rendered st -> selector_rendered (addMedication name st).
Proof.
  intros Hst. unfold addMedication.
  destruct (MAX_MEDICATIONS <=? length (selectedMedications st)); [done |].
  destruct (Js.truthy_opt _); [done |]. by repeat split.
Qed.

(** X6: [removeMedication] removes exactly the entries equal to the name,
    letter case included: the name is gone, every other entry stays, in
    order, and the tags, the counter and the state of the search input are
    written anew to match. *)
Theorem removeMedication_removes_exact_name (name : string) (st : Page) :
  let after := removeMedication name st in
  (name ∉ selectedMedications after)
  /\ (forall m,
         m ∈ selectedMedications after
         <-> m ∈ selectedMedications st /\ m <> name)
  /\ selectedMedications after `sublist_of` selectedMedications st
  /\ selector_rendered after.
Proof.
  simpl. split; [| split; [| split]].
  - rewrite elem_of_js_filter. intros [_ Hne].
    apply negb_true_iff in Hne. apply not_true_iff_false in Hne.
    apply Hne. by apply seq_true.
  - intros m. rewrite elem_of_js_filter, negb_true_iff.
    rewrite <- not_true_iff_false, seq_true. done.
  - apply filter_sublist.
  - apply selector_rendered_removeMedication.
Qed.

Lemma fmap_injective_on {A B} (f : A -> B) (l : list A) (x y : A) :
  NoDup (f <$> l) -> x ∈ l -> y ∈ l -> f x = f y -> x = y.
Proof.
  induction l as [| z l IH]; simpl; intros Hdup Hx Hy Heq.
  - by apply elem_of_nil in Hx.
  - apply NoDup_cons in Hdup as [Hz Hdup].
    apply elem_of_cons in Hx as [-> | Hx];
      apply elem_of_cons in Hy as [-> | Hy]; try done.
    + exfalso. apply Hz. rewrite Heq. by apply list_elem_of_fmap_2.
    + exfalso. apply Hz. rewrite <- Heq. by apply list_elem_of_fmap_2.
    + by apply IH.
Qed.

(** X7: in a selector that satisfies its invariant, a selected medication that
    is removed can be added again at once: it is accepted and lands at the
    end of the list, the error modal is left as it was (no error is shown),
    the tags and the counter display the new list, the search box is
    emptied, disabled exactly when the list is full again, and its dropdown
    is closed. *)
Theorem removed_medication_can_be_added_again (name : string) (st : Page) :
  selector_ok (selectedMedications st) ->
  name <> "" ->
  name ∈ selectedMedications st ->
  let after := addMedication name (removeMedication name st) in
  let meds :=
    Js.filter (fun m => negb (Js.seq m name)) (selectedMedications st)
    ++ [name] in
  selectedMedications after = meds
  /\ errorMessage after = errorMessage st
  /\ medicationTags after = meds
  /\ medCount after = length meds
  /\ medicationSearchInput after = ""
  /\ medicationSearchInput_disabled after = (5 <=? length meds)
  /\ show (medicationDropdown after) = false.
Proof.
  intros [Hlen Hdup] Hname Hin.
  set (rest := Js.filter (fun m => negb (Js.seq m name))
                 (selectedMedications st)).
  assert (length rest < length (selectedMedications st)) as Hshorter.
  { apply (js_filter_shorter _ _ name); [done |].
    apply negb_false_iff. by apply seq_true. }
  assert ((MAX_MEDICATIONS <=? length rest) = false) as Hmax.
  { apply Nat.leb_gt. lia. }
  unfold addMedication.
  change (selectedMedications (removeMedication name st)) with rest.
  rewrite Hmax, no_match_fresh.
  { split; [reflexivity |]. split; [reflexivity |]. split; [reflexivity |].
    split; [reflexivity |]. split; [reflexivity |]. split; reflexivity. }
  intros (m & Hlower & Hm)%list_elem_of_fmap.
  apply elem_of_js_filter in Hm as [Hm Hne].
  apply negb_true_iff, not_true_iff_false in Hne. apply Hne, seq_true.
  by apply (fmap_injective_on Js.toLowerCase (selectedMedications st)).
Qed.

Lemma removed_medication_can_be_added_again_witness :
  let st := filled "" "" ["Warfarin"; "Aspirin"] in
  let after := addMedication "Warfarin" (removeMedication "Warfarin" st) in
  let meds :=
    Js.filter (fun m => negb (Js.seq m "Warfarin")) (selectedMedications st)
    ++ ["Warfarin"] in
  selectedMedications after = meds
  /\ errorMessage after = errorMessage st
  /\ medicationTags after = meds
  /\ medCount after = length meds
  /\ medicationSearchInput after = ""
  /\ medicationSearchInput_disabled after = (5 <=? length meds)
  /\ show (medicationDropdown after) = false.
Proof.
  apply (removed_medication_can_be_added_again "Warfarin"
           (filled "" "" ["Warfarin"; "Aspirin"])).
  - split; [unfold MAX_MEDICATIONS; simpl; lia |].
    apply (bool_decide_unpack _). vm_compute. exact I.
  - discriminate.
  - left.
Defined.

(** X8: operations on the selector that add no empty name keep its invariant:
    after any sequence of them the list holds at most five names, no two of
    them equal up to letter case. *)
Theorem selector_ok_kept (ops : list selector_op) (st : Page) :
  selector_ok (selectedMedications st) ->
  Forall names_medication ops ->
  selector_ok (selectedMedications (fold_left apply_op ops st)).
Proof.
  revert st. induction ops as [| op ops IH]; intros st Hok Hops; simpl;
    [done |].
  apply Forall_cons in Hops as [Hop Hops].
  apply IH; [| done].
  destruct op as [name | name]; simpl.
  - by apply addMedication_selector_ok.
  - by apply removeMedication_selector_ok.
Qed.

Lemma selector_ok_kept_witness :
  selector_ok
    (selectedMedications
       (fold_left apply_op
          [Add "Warfarin"; Add "WARFARIN"; Add "Aspirin"; Remove "Warfarin";
           Add "warfarin"]
          blank)).
Proof.
  apply (selector_ok_kept
           [Add "Warfarin"; Add "WARFARIN"; Add "Aspirin"; Remove "Warfarin";
            Add "warfarin"] blank).
  - split; [simpl; lia | constructor].
  - repeat constructor; discriminate.
Defined.

End SearchPageEdges.

Section SearchPageSelector.
Import Index.

Ltac next_answer srv :=
  match goal with
  | |- context [srv ?seen ?q] =>
      let reply := fresh "reply" in
      destruct (srv seen q) as [| reply]; simpl
  end.

Ltac next_branch :=
  match goal with
  | |- context [run _ (if ?b then _ else _) _] => destruct b; simpl
  end.

Lemma selector_rendered_checkDrugInteraction (srv : server)
    (seen : list request) (st : Page) :
  selector_rendered st ->
  selector_rendered (snd (run srv (checkDrugInteraction st) seen)).
Proof.
  intros Hst. unfold checkDrugInteraction.
  destruct (negb (Js.truthy (Js.trim (drugInput st)))); simpl; [done |].
  destruct (negb (Js.truthy (Js.trim (conditionInput st)))); simpl; [done |].
  destruct (length (selectedMedications st) =? 0); simpl; [done |].
  next_answer srv; [done |]. next_branch; [done |].
  next_answer srv; [done |]. next_branch; [done |].
  next_answer srv; [done |]. next_branch; [done |].
  next_answer srv; [done |]. by next_branch.
Qed.

Lemma selector_rendered_set_dropdown (d : dropdown_id) (v : dropdown)
    (st : Page) :
  selector_rendered st -> selector_rendered (set_dropdown d v st).
Proof. done. Qed.

Lemma selector_rendered_fetchAutocomplete (srv : server) (seen : list request)
    (query type : string) (d : dropdown_id) (isMultiSelect : bool) (st : Page) :
  selector_rendered st ->
  selector_rendered
    (snd (run srv (fetchAutocomplete query type d isMultiSelect st) seen)).
Proof.
  intros Hst. unfold fetchAutocomplete.
  destruct (String.length query <? 2); simpl; [done |].
  next_answer srv; [done |].
  destruct (length reply =? 0); simpl; [done |].
  by destruct (length _ =? 0).
Qed.

Lemma selector_rendered_selectAutocomplete (name type : string)
    (d : dropdown_id) (isMultiSelect : bool) (st : Page) :
  selector_rendered st ->
  selector_rendered (selectAutocomplete name type d isMultiSelect st).
Proof.
  intros Hst. unfold selectAutocomplete. apply selector_rendered_set_dropdown.
  destruct (isMultiSelect || Js.seq type "medications");
    [by apply selector_rendered_addMedication |].
  by destruct (Js.seq type "drugs").
Qed.

(** X9: the selector stays displayed as it is stored: once the tags, the
    counter and the disabled state of the search input match the list (as
    [renderSelectedMedications] writes them), they match it after every
    handler of the page, whatever the server answers. *)
Theorem selector_stays_rendered (srv : server) (seen : list request)
    (e : event) (st : Page) :
  selector_rendered st ->
  selector_rendered (snd (run srv (handle e st) seen)).
Proof.
  intros Hst. destruct e as [name type d multi | name | d |]; simpl.
  - by apply selector_rendered_selectAutocomplete.
  - apply selector_rendered_removeMedication.
  - destruct d; by apply selector_rendered_fetchAutocomplete.
  - by apply selector_rendered_checkDrugInteraction.
Qed.

Lemma selector_stays_rendered_witness :
  selector_rendered
    (snd (run catalog
            (handle (PickSuggestion "Warfarin" "drugs" medicationAutocomplete
                       true)
               blank) [])).
Proof.
  apply (selector_stays_rendered catalog []
           (PickSuggestion "Warfarin" "drugs" medicationAutocomplete true)
           blank).
  by repeat split.
Defined.

(** X10: [fetchAutocomplete] changes neither the selection nor the error
    modal.  A dropdown it leaves open lists at least one suggestion, and for
    the medication selector none of the suggestions listed has the name, up
    to letter case, of a selected medication (the empty name apart). *)
Theorem fetchAutocomplete_suggestions (srv : server) (query type : string)
    (d : dropdown_id) (isMultiSelect : bool) (st : Page) :
  let after := result srv (fetchAutocomplete query type d isMultiSelect st) in
  selectedMedications after = selectedMedications st
  /\ errorMessage after = errorMessage st
  /\ (show (get_dropdown d after) = true ->
      items (get_dropdown d after) <> []
      /\ (isMultiSelect = true ->
          forall item,
            item ∈ items (get_dropdown d after) ->
            s_name item <> "" ->
            Js.toLowerCase (s_name item)
            ∉ Js.toLowerCase <$> selectedMedications st)).
Proof.
  unfold result, fetchAutocomplete.
  destruct (String.length query <? 2); simpl;
    [by repeat split; destruct d |].
  next_answer srv; [by repeat split; destruct d |].
  destruct (length reply =? 0); simpl; [by repeat split; destruct d |].
  set (offered := if isMultiSelect then _ else reply).
  destruct (length offered =? 0) eqn:Hoffered; simpl;
    [by repeat split; destruct d |].
  split; [done |]. split; [done |]. intros _.
  assert (get_dropdown d
            (set_dropdown d {| show := true; items := offered |} st)
          = {| show := true; items := offered |}) as -> by by destruct d.
  simpl. split.
  - intros Hnil. by rewrite Hnil in Hoffered.
  - intros -> item Hitem Hname Hselected. unfold offered in Hitem.
    apply elem_of_js_filter in Hitem as [_ Hfresh].
    apply negb_true_iff in Hfresh.
    by rewrite (match_detected _ _ Hname Hselected) in Hfresh.
Qed.

Lemma fetchAutocomplete_suggestions_witness :
  let st := filled "" "" ["ASPIRIN"] in
  let after :=
    result analgesics
      (fetchAutocomplete "as" "drugs" medicationAutocomplete true st) in
  let item := {| s_name := "Acetaminophen"; generic_name := None |} in
  show (get_dropdown medicationAutocomplete after) = true
  /\ items (get_dropdown medicationAutocomplete after) = [item]
  /\ s_name item <> ""
  /\ items (get_dropdown medicationAutocomplete after) <> []
  /\ Js.toLowerCase (s_name item)
     ∉ Js.toLowerCase <$> selectedMedications st.
Proof.
  intros st after item.
  split; [reflexivity |]. split; [reflexivity |]. split; [discriminate |].
  destruct (proj2 (proj2 (fetchAutocomplete_suggestions analgesics "as"
                            "drugs" medicationAutocomplete true st))
              eq_refl) as [Hlisted Hfresh].
  split; [exact Hlisted |].
  apply (Hfresh eq_refl item).
  - left.
  - discriminate.
Defined.

End SearchPageSelector.

(** ** Keyboard navigation *)

Section KeyboardNavigation.
Import Keyboard.

Lemma first_selected_none (n : nat) : first_selected (replicate n false) = None.
Proof. induction n as [| n IH]; simpl; [done |]. by rewrite IH. Qed.

Lemma first_selected_cursor (n i : nat) :
  i < n -> first_selected (<[i := true]> (replicate n false)) = Some i.
Proof.
  revert i. induction n as [| n IH]; intros i Hi; [lia |].
  destruct i as [| i]; simpl; [done |].
  rewrite IH by lia. done.
Qed.

Lemma deselect_cursor (n i : nat) :
  i < n -> deselect (<[i := true]> (replicate n false)) = replicate n false.
Proof.
  intros Hi. unfold deselect. rewrite first_selected_cursor by done.
  rewrite list_insert_insert_eq. apply list_insert_id.
  by apply lookup_replicate_2.
Qed.

Lemma deselect_none (n : nat) :
  deselect (replicate n false) = replicate n false.
Proof. unfold deselect. by rewrite first_selected_none. Qed.

Lemma length_classes (n : nat) (cursor : option nat) :
  length (classes n cursor) = n.
Proof.
  destruct cursor; simpl; rewrite ?length_insert; apply length_replicate.
Qed.

(** X11: the arrow keys move a cursor that never leaves the list.  On a
    dropdown of [n] items of which at most the one under the cursor is
    selected, [ArrowDown] selects the next item (the first one when none is
    selected) and stops at the last, [ArrowUp] selects the previous item and
    stops at the first, and does nothing when none is selected; exactly the
    item under the new cursor is selected afterwards. *)
Theorem arrow_keys_move_cursor (n : nat) (cursor : option nat) :
  (forall i, cursor = Some i -> i < n) ->
  arrowDown (classes n cursor) = classes n (down n cursor)
  /\ arrowUp (classes n cursor) = classes n (up cursor)
  /\ (forall i, down n cursor = Some i -> i < n)
  /\ (forall i, up cursor = Some i -> i < n).
Proof.
  intros Hrange. unfold arrowDown, arrowUp, selectedIndex.
  rewrite length_classes.
  destruct cursor as [i |]; simpl.
  - specialize (Hrange i eq_refl).
    rewrite first_selected_cursor, deselect_cursor by done.
    split; [| split; [| split]].
    + destruct (S i <? n) eqn:Hnext.
      * apply Nat.ltb_lt in Hnext.
        replace (Z.of_nat i <? Z.of_nat n - 1)%Z with true
          by (symmetry; apply Z.ltb_lt; lia).
        unfold select. by replace (Z.to_nat (Z.of_nat i + 1)) with (S i) by lia.
      * apply Nat.ltb_ge in Hnext.
        by replace (Z.of_nat i <? Z.of_nat n - 1)%Z with false
          by (symmetry; apply Z.ltb_ge; lia).
    + destruct i as [| i]; [done |].
      replace (0 <? Z.of_nat (S i))%Z with true
        by (symmetry; apply Z.ltb_lt; lia).
      unfold select.
      by replace (Z.to_nat (Z.of_nat (S i) - 1)) with i by lia.
    + intros j. destruct (S i <? n) eqn:Hnext; intros [= <-]; [| done].
      by apply Nat.ltb_lt in Hnext.
    + intros j [= <-]. lia.
  - rewrite first_selected_none, deselect_none.
    split; [| split; [done | split; [| done]]].
    + destruct n as [| n]; simpl; [done |].
      replace (-1 <? Z.of_nat (S n) - 1)%Z with true
        by (symmetry; apply Z.ltb_lt; lia).
      done.
    + intros j. destruct n as [| n]; simpl; [done |]. intros [= <-]. lia.
Qed.

Lemma arrow_keys_move_cursor_witness :
  arrowDown (classes 3 (Some 2)) = classes 3 (down 3 (Some 2))
  /\ arrowUp (classes 3 (Some 2)) = classes 3 (up (Some 2))
  /\ (forall i, down 3 (Some 2) = Some i -> i < 3)
  /\ (forall i, up (Some 2) = Some i -> i < 3).
Proof.
  apply (arrow_keys_move_cursor 3 (Some 2)).
  intros i [= <-]. lia.
Defined.

(** X12: the key [Enter] does what a click on the selected suggestion does,
    for each of the three inputs: it picks the name of the item under the
    cursor (adds it to the selector, or writes it into the drug or condition
    field) and closes the dropdown; without a selected item it does
    nothing. *)
Theorem enter_is_click (d : Index.dropdown_id) (n i : nat) (item : suggestion)
    (st : Index.Page) :
  i < n ->
  Index.items (Index.get_dropdown d st) !! i = Some item ->
  enter d (classes n (Some i)) st
  = Index.selectAutocomplete (s_name item) (click_type d) d (click_multi d) st
  /\ enter d (classes n None) st = st.
Proof.
  intros Hi Hitem. unfold enter. simpl.
  rewrite first_selected_cursor, first_selected_none, Hitem by done.
  split; [| done]. by destruct d.
Qed.

Lemma enter_is_click_witness :
  let st :=
    result nameless_catalog
      (Index.fetchAutocomplete "ac" "drugs" Index.drugAutocomplete false blank)
  in
  enter Index.drugAutocomplete (classes 1 (Some 0)) st
  = Index.selectAutocomplete "" "drugs" Index.drugAutocomplete false st
  /\ enter Index.drugAutocomplete (classes 1 None) st = st.
Proof.
  apply (enter_is_click Index.drugAutocomplete 1 0 nameless_entry).
  - lia.
  - reflexivity.
Defined.

End KeyboardNavigation.

(** ** Further properties of the results page *)

Section ResultsPageCards.
Import Interactions.

Lemma records_render (k k' : kind) (st : Page) :
  records k' (render k st) = records k' st.
Proof.
  unfold render. destruct (length (records k st) =? 0); by destruct k, k'.
Qed.

(** The cards of the page once a list is rendered. *)
Lemma card_at_render_any (k k' : kind) (j : nat) (st : Page) :
  card_at k' j (render k st)
  = if length (records k st) =? 0
    then (if decide (k' = k) then None else card_at k' j st)
    else add_listener
           <$> (if decide (k' = k) then create_card k j <$> records k st !! j
                else card_at k' j st).
Proof.
  destruct (length (records k st) =? 0) eqn:Hempty.
  - unfold render. rewrite Hempty, card_at_set_list. by case_decide.
  - apply card_at_render. intros Hnil. by rewrite Hnil in Hempty.
Qed.

Lemma set_expanded_same (c : card) : set_expanded (expanded c) c = c.
Proof. by destruct c. Qed.

Lemma iter_toggle (n : nat) (c : card) :
  Nat.iter n toggle c
  = set_expanded (if Nat.even n then expanded c else negb (expanded c)) c.
Proof.
  induction n as [| n IH].
  - simpl. by rewrite set_expanded_same.
  - rewrite Nat.even_succ, <- Nat.negb_even. simpl. rewrite IH.
    unfold toggle. simpl. by destruct (Nat.even n); simpl; rewrite ?negb_involutive.
Qed.

(** X13: on a page just loaded every card is expanded, and the header of a
    card carries one click listener for the render call of its own list and
    one more for each list with records rendered after it: up to three on a
    drug card, up to two on a food card, one on a disease card.  A click on
    the header runs them all, so it collapses the card exactly when their
    number is odd: a food card stays expanded when there are disease
    records. *)
Theorem header_listeners_after_load (parsed : Bundle) (k : kind) (i : nat)
    (c : card) :
  card_at k i (loadInteractionsData parsed) = Some c ->
  header_listeners c = listeners_after_load k parsed
  /\ expanded c = true
  /\ expanded <$> card_at k i (clickHeader k i (loadInteractionsData parsed))
     = Some (Nat.even (listeners_after_load k parsed)).
Proof.
  intros Hc. unfold clickHeader. rewrite card_at_update_card.
  rewrite decide_True by done. rewrite Hc. simpl. rewrite iter_toggle. simpl.
  revert Hc.
  unfold loadInteractionsData, renderDiseaseInteractions,
    renderFoodInteractions, renderDrugDrugInteractions.
  set (st := {| drugDrugInteractions := _ |}).
  rewrite !card_at_render_any, !records_render.
  change (records drug_kind st) with (stored_records drug_kind parsed).
  change (records food_kind st) with (stored_records food_kind parsed).
  change (records disease_kind st) with (stored_records disease_kind parsed).
  assert (card_at k i st = None) as -> by by destruct k.
  unfold listeners_after_load, has_records.
  destruct (length (stored_records drug_kind parsed) =? 0);
    destruct (length (stored_records food_kind parsed) =? 0);
    destruct (length (stored_records disease_kind parsed) =? 0);
    destruct k; simpl; try done;
    match goal with
    | |- context [?l !! i] => destruct (l !! i); simpl; try done
    end;
    by intros [= <-].
Qed.

Lemma header_listeners_after_load_witness :
  let c := add_listener (add_listener
             (create_card food_kind 0 (record_of 2 "" (Some "Avoid alcohol"))))
  in
  header_listeners c = listeners_after_load food_kind three_lists
  /\ expanded c = true
  /\ expanded
       <$> card_at food_kind 0
             (clickHeader food_kind 0 (loadInteractionsData three_lists))
     = Some (Nat.even (listeners_after_load food_kind three_lists)).
Proof.
  apply (header_listeners_after_load three_lists food_kind 0).
  reflexivity.
Defined.

Lemma container_eta (c : container) :
  {| epoch := epoch c; shown := shown c |} = c.
Proof. by destruct c. Qed.

Lemma update_card_twice (k : kind) (i : nat) (f : card -> card) (st : Page) :
  (forall c, f (f c) = c) -> update_card k i f (update_card k i f st) = st.
Proof.
  intros Hf. unfold update_card.
  assert (forall c, map_cards (alter f i) (map_cards (alter f i) c) = c)
    as Hback.
  { intros [e [t | cs]]; unfold map_cards; simpl; [done |].
    rewrite list_alter_alter_eq, list_alter_id; [done |].
    intros c. apply Hf. }
  rewrite list_of_set_list, decide_True, Hback by done.
  by destruct k, st.
Qed.

(** X14: a click on a header changes nothing but the expand/collapse state
    of its card: records and pending timers are as before, the other two
    lists are as before, every other card of its list is as before, the
    list is the same rendering with as many cards, and the card itself is as
    before up to that state; and a second click on the same header brings
    the page back to the state it was in. *)
Theorem clickHeader_twice (k : kind) (i : nat) (st : Page) :
  clickHeader k i (clickHeader k i st) = st
  /\ (forall k', records k' (clickHeader k i st) = records k' st)
  /\ timers (clickHeader k i st) = timers st
  /\ (forall k' j,
         set_expanded true <$> card_at k' j (clickHeader k i st)
         = set_expanded true <$> card_at k' j st)
  /\ (forall k', k' <> k -> list_of k' (clickHeader k i st) = list_of k' st)
  /\ (forall j, j <> i -> card_at k j (clickHeader k i st) = card_at k j st)
  /\ epoch (list_of k (clickHeader k i st)) = epoch (list_of k st)
  /\ length (cards_of (list_of k (clickHeader k i st)))
     = length (cards_of (list_of k st))
  /\ (prescribedDrug (clickHeader k i st) = prescribedDrug st
      /\ currentMedications (clickHeader k i st) = currentMedications st).
Proof.
  split; [| split; [| split; [| split; [| split; [| split; [| split; [| split]]]]]]].
  - unfold clickHeader. apply update_card_twice. intros c.
    rewrite !iter_toggle. simpl.
    destruct (Nat.even (header_listeners c)); simpl;
      rewrite ?negb_involutive; by destruct c.
  - intros k'. apply records_update_card.
  - apply timers_update_card.
  - intros k' j. unfold clickHeader. rewrite card_at_update_card.
    case_decide as Hsame; [| done]. destruct Hsame as [-> ->].
    destruct (card_at k i st) as [c |]; simpl; [| done].
    by rewrite iter_toggle.
  - intros k' Hk. unfold clickHeader, update_card.
    by rewrite list_of_set_list, decide_False by done.
  - intros j Hj. unfold clickHeader. rewrite card_at_update_card.
    rewrite decide_False; [done | by intros [_ ?]].
  - unfold clickHeader, update_card.
    by rewrite list_of_set_list, decide_True by done.
  - unfold clickHeader, update_card.
    rewrite list_of_set_list, decide_True by done.
    unfold cards_of, map_cards. simpl.
    destruct (shown (list_of k st)); [done |]. simpl.
    by rewrite length_alter.
  - unfold clickHeader, update_card. by destruct k.
Qed.

Lemma length_records_translate (srv : server) (seen : list request) (k k' : kind)
    (i : nat) (st : Page) :
  length (records k' (snd (run srv (translate k i st) seen)))
  = length (records k' st).
Proof.
  unfold translate. cbv zeta. rewrite (records_update_card k k i).
  assert (forall X, length (records k' (translation_failed k i
                              (update_card k i X st)))
                    = length (records k' st)) as Hfailed.
  { intros X. unfold translation_failed. by destruct k, k'. }
  destruct (records k st !! i) as [it |]; simpl; [| apply Hfailed].
  destruct (srv seen (translate_request k it)) as [| response]; simpl;
    [apply Hfailed |].
  destruct (ok response); simpl; [| apply Hfailed].
  destruct (body response) as [| data]; simpl; [apply Hfailed |].
  rewrite records_update_card, records_render, records_set_records.
  case_decide as Hk; [subst k' | by rewrite ?records_update_card].
  by rewrite length_insert, ?records_update_card.
Qed.

Lemma length_records_handle (srv : server) (seen : list request) (e : event)
    (k : kind) (st : Page) :
  length (records k (snd (run srv (handle e st) seen)))
  = length (records k st).
Proof.
  destruct e as [k' i | k' i |]; simpl.
  - by rewrite ?records_update_card.
  - destruct (offers_translate k' i st); [| done].
    apply length_records_translate.
  - unfold fireTimer. destruct (timers st) as [| t rest]; [done |].
    unfold restore_button. destruct (_ =? _).
    + rewrite ?records_update_card. by destruct k.
    + by destruct k.
Qed.

Lemma reachable_from_reachable (parsed : Bundle) (st : Page) :
  reachable_from parsed st -> reachable st.
Proof.
  induction 1 as [| srv seen e st _ IH].
  - apply reachable_load.
  - by apply reachable_event.
Qed.

Lemma records_loadInteractionsData (parsed : Bundle) (k : kind) :
  records k (loadInteractionsData parsed) = stored_records k parsed.
Proof.
  unfold loadInteractionsData, renderDiseaseInteractions,
    renderFoodInteractions, renderDrugDrugInteractions.
  rewrite !records_render. by destruct k.
Qed.

(** X15: the numbers [updateCounts] writes into the tab counters when the
    page is loaded stay right: in every state the page reaches from a stored
    bundle, each list holds as many records, and displays as many cards, as
    the bundle has in that list; translations never add or drop one. *)
Theorem counters_stay_right (parsed : Bundle) (st : Page) :
  reachable_from parsed st ->
  updateCounts st = updateCounts (loadInteractionsData parsed)
  /\ forall k,
      length (records k st) = length (stored_records k parsed)
      /\ length (cards_of (list_of k st)) = length (stored_records k parsed).
Proof.
  intros Hreach.
  assert (forall k, length (records k st) = length (stored_records k parsed))
    as Hlength.
  { induction Hreach as [| srv seen e st _ IH]; intros k.
    - by rewrite records_loadInteractionsData.
    - by rewrite length_records_handle. }
  split.
  - unfold updateCounts.
    pose proof (Hlength drug_kind) as Hdrug.
    pose proof (Hlength food_kind) as Hfood.
    pose proof (Hlength disease_kind) as Hdisease.
    pose proof (records_loadInteractionsData parsed drug_kind) as Ldrug.
    pose proof (records_loadInteractionsData parsed food_kind) as Lfood.
    pose proof (records_loadInteractionsData parsed disease_kind) as Ldisease.
    cbv beta iota delta [records] in Hdrug, Hfood, Hdisease, Ldrug, Lfood,
      Ldisease.
    by rewrite Hdrug, Hfood, Hdisease, Ldrug, Lfood, Ldisease.
  - intros k. split; [done |].
    pose proof (reachable_in_sync st (reachable_from_reachable _ _ Hreach) k)
      as Hsync.
    apply (f_equal length) in Hsync.
    rewrite length_fmap, length_imap in Hsync. by rewrite Hsync.
Qed.

Lemma counters_stay_right_witness :
  let st :=
    snd (run catalog (handle (TranslateClick drug_kind 0)
                        (loadInteractionsData three_lists)) []) in
  updateCounts st = updateCounts (loadInteractionsData three_lists)
  /\ forall k,
      length (records k st) = length (stored_records k three_lists)
      /\ length (cards_of (list_of k st))
         = length (stored_records k three_lists).
Proof.
  apply (counters_stay_right three_lists).
  apply from_event. apply from_load.
Defined.

End ResultsPageCards.

Section ResultsPageTranslations.
Import Interactions.

Lemma truthy_nonempty (s : string) : Js.truthy s = true -> s <> "".
Proof. intros Hs ->. done. Qed.

Lemma or_else_nonempty (a : option string) (d : string) :
  d <> "" -> Js.or_else a d <> "".
Proof.
  intros Hd. destruct a as [s |]; simpl; [| done].
  destruct (Js.truthy s) eqn:Hs; [by apply truthy_nonempty | done].
Qed.

(** A card displayed by a page whose lists are in line with their records
    is the card of the record at its position. *)
Lemma card_has_record (st : Page) (k : kind) (i : nat) (c : card) :
  in_sync st ->
  card_at k i st = Some c ->
  exists it,
    records k st !! i = Some it /\ as_rendered c = create_card k i it.
Proof.
  intros Hsync Hc. specialize (Hsync k).
  apply (f_equal (fun l => l !! i)) in Hsync.
  rewrite list_lookup_fmap, list_lookup_imap in Hsync.
  unfold card_at in Hc. rewrite Hc in Hsync. simpl in Hsync.
  destruct (records k st !! i) as [it |]; [| done].
  injection Hsync as Hface. by exists it.
Qed.

(** X16: in every state of the results page each card displayed stands for
    the record at its own position of its own list: it carries that position
    and list in [data-index] and [data-type], and shows the AI description of
    the record when it has one, else its professional description, else the
    notice that none is available.  Its name is the one the template of its
    list takes from the record, or the default name of that list.  Neither
    its name nor its description is ever empty. *)
Theorem cards_show_their_records (st : Page) (k : kind) (i : nat) (c : card) :
  reachable st ->
  card_at k i st = Some c ->
  exists it,
    records k st !! i = Some it
    /\ data_index c = i
    /\ data_type c = k
    /\ detail_value c
       = Js.or_else (ai_description it)
           (Js.or_else (professional_description it)
              "No description available")
    /\ card_name c
       = match k with
         | drug_kind =>
             Js.or_else
               (Js.or_opt (Js.or_opt (drug it) (interaction it)) (name it))
               "Unknown Interaction"
         | food_kind =>
             Js.or_else (interaction_name it) "Food/Lifestyle Interaction"
         | disease_kind => Js.or_else (disease_name it) "Disease Interaction"
         end
    /\ card_name c <> ""
    /\ detail_value c <> "".
Proof.
  intros Hreach Hc.
  destruct (card_has_record st k i c (reachable_in_sync st Hreach) Hc)
    as (it & Hit & Hface).
  exists it. split; [done |].
  assert (data_index c = data_index (create_card k i it)) as -> by by rewrite <- Hface.
  assert (data_type c = data_type (create_card k i it)) as -> by by rewrite <- Hface.
  assert (detail_value c = detail_value (create_card k i it)) as ->
    by by rewrite <- Hface.
  assert (card_name c = card_name (create_card k i it)) as ->
    by by rewrite <- Hface.
  destruct k; simpl; repeat split; by repeat apply or_else_nonempty.
Qed.

Lemma cards_show_their_records_witness :
  let c :=
    add_listener
      (create_card drug_kind 0
         (translated_record 1 "Warfarin" "Bleeding risk"
            "May cause bleeding")) in
  exists it,
    records drug_kind translated_card !! 0 = Some it
    /\ data_index c = 0
    /\ data_type c = drug_kind
    /\ detail_value c
       = Js.or_else (ai_description it)
           (Js.or_else (professional_description it)
              "No description available")
    /\ card_name c
       = Js.or_else
           (Js.or_opt (Js.or_opt (drug it) (interaction it)) (name it))
           "Unknown Interaction"
    /\ card_name c <> ""
    /\ detail_value c <> "".
Proof.
  apply (cards_show_their_records translated_card drug_kind 0).
  - apply reachable_load.
  - reflexivity.
Defined.

(** The card of a record after a translation that the server answered. *)
Lemma translate_succeeded_card (srv : server) (seen : list request) (k : kind)
    (i : nat) (it : Interaction) (data : translate_body) (st : Page) :
  records k st !! i = Some it ->
  srv seen (translate_request k it) = Got {| ok := true; body := Got data |} ->
  let st1 := snd (run srv (translate k i st) seen) in
  let it1 := store_translation k (consumer_description data) it in
  records k st1 !! i = Some it1
  /\ card_at k i st1 = Some (add_listener (create_card k i it1)).
Proof.
  intros Hit Hreply st1 it1. unfold st1.
  rewrite (translate_succeeded_run srv seen k i it data st Hit Hreply). simpl.
  assert (i < length (records k st)) as Hi by by eapply lookup_lt_Some.
  split.
  - rewrite records_update_card, records_render, records_set_records.
    rewrite decide_True by done. by apply list_lookup_insert_eq.
  - rewrite card_at_update_card, decide_True by done.
    rewrite card_at_render_any, records_set_records.
    rewrite !(decide_True (P := k = k)) by done.
    rewrite length_insert.
    destruct (length (records k st) =? 0) eqn:Hempty.
    { apply Nat.eqb_eq in Hempty. lia. }
    rewrite list_lookup_insert_eq by done. simpl. by destruct k.
Qed.

(** X17: a translate action that the server answers with a text that is not
    empty issues that one request; afterwards the record holds the text as
    its AI description (its professional description is kept), the card
    displays the text, expanded, without a translate button, and a further
    translate action on the card does nothing. *)
Theorem translation_is_displayed (srv : server) (seen : list request)
    (st : Page) (k : kind) (i : nat) (it : Interaction) (data : translate_body)
    (text : string) :
  offers_translate k i st = true ->
  records k st !! i = Some it ->
  srv seen (translate_request k it) = Got {| ok := true; body := Got data |} ->
  consumer_description data = Some text ->
  text <> "" ->
  let st1 := snd (run srv (handle (TranslateClick k i) st) seen) in
  fst (run srv (handle (TranslateClick k i) st) seen)
  = seen ++ [TranslateDescription (professional_description it)
               (match k with drug_kind => interaction_id it | _ => None end)]
  /\ (exists it1,
         records k st1 !! i = Some it1
         /\ ai_description it1 = Some text
         /\ professional_description it1 = professional_description it)
  /\ (exists c,
         card_at k i st1 = Some c
         /\ detail_value c = text
         /\ translate_btn c = None
         /\ expanded c = true)
  /\ handle (TranslateClick k i) st1 = Ret st1.
Proof.
  intros Hoffer Hit Hreply Htext Hnonempty st1.
  destruct (translate_succeeded_card srv seen k i it data st Hit Hreply)
    as [Hrecord Hcard].
  assert (st1 = snd (run srv (translate k i st) seen)) as Hst1.
  { unfold st1. simpl. by rewrite Hoffer. }
  rewrite <- Hst1 in Hrecord, Hcard. rewrite Htext in Hrecord, Hcard.
  destruct (create_card_translated k i
              (store_translation k (Some text) it) text eq_refl Hnonempty)
    as [Hvalue Hbtn].
  split; [| split; [| split]].
  - simpl. rewrite Hoffer.
    by rewrite (translate_succeeded_run srv seen k i it data st Hit Hreply).
  - by eexists.
  - eexists. split; [exact Hcard |]. simpl. split; [done |]. split; [done |].
    by destruct k.
  - simpl. unfold offers_translate. rewrite Hcard. simpl. by rewrite Hbtn.
Qed.

Lemma translation_is_displayed_witness :
  let st1 :=
    snd (run catalog (handle (TranslateClick drug_kind 0) two_cards) []) in
  fst (run catalog (handle (TranslateClick drug_kind 0) two_cards) [])
  = [] ++ [TranslateDescription (Some "Bleeding risk") (Some 1%Z)]
  /\ (exists it1,
         records drug_kind st1 !! 0 = Some it1
         /\ ai_description it1 = Some "May cause bleeding"
         /\ professional_description it1 = Some "Bleeding risk")
  /\ (exists c,
         card_at drug_kind 0 st1 = Some c
         /\ detail_value c = "May cause bleeding"
         /\ translate_btn c = None
         /\ expanded c = true)
  /\ handle (TranslateClick drug_kind 0) st1 = Ret st1.
Proof.
  apply (translation_is_displayed catalog [] two_cards drug_kind 0
           (record_of 1 "Warfarin" (Some "Bleeding risk"))
           {| consumer_description := Some "May cause bleeding";
              error := None |}
           "May cause bleeding");
    try reflexivity.
  discriminate.
Defined.

(** X18: a translate action that the server answers ok with a body whose
    text is missing or empty leaves the record without an AI description:
    the card displays the professional description (or the notice that none
    is available) and offers the translate action again.  On a drug card the
    handler has then overwritten the patient description of the record with
    the missing text. *)
Theorem translation_without_text (srv : server) (seen : list request)
    (st : Page) (k : kind) (i : nat) (it : Interaction) (data : translate_body) :
  offers_translate k i st = true ->
  records k st !! i = Some it ->
  srv seen (translate_request k it) = Got {| ok := true; body := Got data |} ->
  Js.truthy_opt (consumer_description data) = false ->
  let st1 := snd (run srv (handle (TranslateClick k i) st) seen) in
  (exists it1,
      records k st1 !! i = Some it1
      /\ ai_description it1 = consumer_description data
      /\ patient_description it1
         = match k with
           | drug_kind => consumer_description data
           | _ => patient_description it
           end)
  /\ (exists c,
         card_at k i st1 = Some c
         /\ detail_value c
            = Js.or_else (professional_description it)
                "No description available"
         /\ translate_btn c = Some fresh_button)
  /\ offers_translate k i st1 = true.
Proof.
  intros Hoffer Hit Hreply Htext st1.
  destruct (translate_succeeded_card srv seen k i it data st Hit Hreply)
    as [Hrecord Hcard].
  assert (st1 = snd (run srv (translate k i st) seen)) as Hst1.
  { unfold st1. simpl. by rewrite Hoffer. }
  rewrite <- Hst1 in Hrecord, Hcard.
  pose proof (create_card_untranslated k i
                (store_translation k (consumer_description data) it) Htext)
    as Hbtn.
  split; [| split].
  - by eexists.
  - eexists. split; [exact Hcard |]. split; [| done].
    destruct k; simpl;
      by destruct (consumer_description data) as [s |];
        simpl in *; rewrite ?Htext.
  - unfold offers_translate. rewrite Hcard. simpl. by rewrite Hbtn.
Qed.

Lemma translation_without_text_witness :
  let st1 :=
    snd (run wordless_translation
           (handle (TranslateClick drug_kind 0) two_cards) []) in
  (exists it1,
      records drug_kind st1 !! 0 = Some it1
      /\ ai_description it1 = None
      /\ patient_description it1 = None)
  /\ (exists c,
         card_at drug_kind 0 st1 = Some c
         /\ detail_value c
            = Js.or_else (Some "Bleeding risk") "No description available"
         /\ translate_btn c = Some fresh_button)
  /\ offers_translate drug_kind 0 st1 = true.
Proof.
  apply (translation_without_text wordless_translation [] two_cards drug_kind
           0 (record_of 1 "Warfarin" (Some "Bleeding risk"))
           {| consumer_description := None; error := None |});
    reflexivity.
Defined.

(** X19: in every state of the results page, a header click and a timer
    callback issue no request, a translate action on a card that does not
    offer it issues none either, and a translate action on a card that
    offers it issues exactly one request, to [/translate_description], with
    the professional description of the record of the card (and its
    identifier on a drug card only). *)
Theorem results_page_requests (srv : server) (seen : list request) (e : event)
    (st : Page) :
  reachable st ->
  match e with
  | TranslateClick k i =>
      if offers_translate k i st then
        exists it,
          records k st !! i = Some it
          /\ fst (run srv (handle e st) seen)
             = seen ++ [TranslateDescription (professional_description it)
                          (match k with
                           | drug_kind => interaction_id it
                           | _ => None
                           end)]
      else fst (run srv (handle e st) seen) = seen
  | HeaderClick _ _ | TimerFires => fst (run srv (handle e st) seen) = seen
  end.
Proof.
  intros Hreach.
  destruct e as [k i | k i |]; simpl; [done | | done].
  destruct (offers_translate k i st) eqn:Hoffer; [| done].
  destruct (offers_translate_button k i st Hoffer) as (c & b & Hc & _).
  destruct (card_has_record st k i c (reachable_in_sync st Hreach) Hc)
    as (it & Hit & _).
  unfold translate. cbv zeta.
  rewrite (records_update_card k k i), Hit. simpl.
  exists it. split; [done |].
  assert (translate_request k it
          = TranslateDescription (professional_description it)
              (match k with drug_kind => interaction_id it | _ => None end))
    as <- by by destruct k.
  destruct (srv seen (translate_request k it)) as [| response]; simpl;
    [done |].
  destruct (ok response); simpl; [| done].
  by destruct (body response).
Qed.

Lemma results_page_requests_witness :
  (exists it,
      records drug_kind two_cards !! 0 = Some it
      /\ fst (run failing_translation
                (handle (TranslateClick drug_kind 0) two_cards) [])
         = [] ++ [TranslateDescription (professional_description it)
                    (interaction_id it)])
  /\ fst (run failing_translation
            (handle (TranslateClick drug_kind 0) translated_card) []) = []
  /\ fst (run failing_translation
            (handle (HeaderClick drug_kind 0) two_cards) []) = [].
Proof.
  split; [| split].
  - apply (results_page_requests failing_translation []
             (TranslateClick drug_kind 0) two_cards).
    apply reachable_load.
  - apply (results_page_requests failing_translation []
             (TranslateClick drug_kind 0) translated_card).
    apply reachable_load.
  - apply (results_page_requests failing_translation []
             (HeaderClick drug_kind 0) two_cards).
    apply reachable_load.
Defined.

End ResultsPageTranslations.

Section DetailsPageTranslations.
Import Details.

Lemma details_of_with_translation (text : option string) (it : Interaction) :
  details_of (with_translation text it) = details_of it.
Proof. done. Qed.

Lemma details_in_sync_load (doc : Page) (stored : Interaction) :
  details_in_sync (loadInteractionDetails doc stored).
Proof.
  intros it. unfold loadInteractionDetails, renderDetails.
  destruct (Js.truthy_opt (ai_description stored)); simpl; by intros [= <-].
Qed.

Lemma details_in_sync_click (srv : server) (seen : list request) (st : Page) :
  details_in_sync st ->
  details_in_sync (snd (run srv (clickTranslate st) seen)).
Proof.
  intros Hsync. unfold clickTranslate.
  destruct (offers_translate st); [| done].
  unfold requestTranslation.
  destruct (currentInteraction st) as [it |] eqn:Hcur; [| done].
  destruct (negb (Js.truthy_opt (professional_description it))); [done |].
  simpl.
  assert (forall message,
             details_in_sync
               (enable_again (alert message (set_translateBtn
                  {| disabled := true; label := TranslatingDots;
                     hidden := hidden (translateBtn st) |} st)))) as Hfail.
  { intros message it' Hit'. simpl in *. by apply Hsync. }
  destruct (srv seen _) as [| response]; simpl; [by apply Hfail |].
  destruct (body response) as [| data]; simpl; [by apply Hfail |].
  destruct (ok response); simpl; [| by apply Hfail].
  intros it'. simpl. intros [= <-]. split; [done |].
  by destruct (Hsync it Hcur) as [_ ->].
Qed.

(** X20: on the details page a translate request that the server answers ok
    stores the text of the reply in the record and in its copy in
    [localStorage], displays it in the AI section and hides the translate
    button, so that no further click issues a request; the details displayed
    are as before.  Loading the page again from the stored copy displays the
    same details and, when the text is not empty, the text again without the
    button; when the reply carried no text, the page loaded again is the
    document with its button and its AI section as delivered. *)
Theorem details_translation_round_trip (srv : server) (seen : list request)
    (st doc : Page) (it : Interaction) (data : translate_body) :
  offers_translate st = true ->
  currentInteraction st = Some it ->
  Js.truthy_opt (professional_description it) = true ->
  srv seen (TranslateDescription (professional_description it)
              (interaction_id it))
  = Got {| ok := true; body := Got data |} ->
  let st1 := snd (run srv (clickTranslate st) seen) in
  let text := consumer_description data in
  let again := loadInteractionDetails doc (with_translation text it) in
  (currentInteraction st1 = Some (with_translation text it)
   /\ selectedInteraction st1 = Some (with_translation text it)
   /\ detailsCard st1 = detailsCard st
   /\ aiContent st1 = default "" text
   /\ aiSection_shown st1 = true
   /\ hidden (translateBtn st1) = true
   /\ clickTranslate st1 = Ret st1)
  /\ detailsCard again = details_of it
  /\ (if Js.truthy_opt text
      then aiContent again = default "" text
           /\ aiSection_shown again = true
           /\ hidden (translateBtn again) = true
           /\ offers_translate again = false
      else aiContent again = aiContent doc
           /\ aiSection_shown again = aiSection_shown doc
           /\ translateBtn again = translateBtn doc).
Proof.
  intros Hoffer Hcur Hprof Hreply st1 text again.
  assert (st1
          = set_translateBtn
              {| disabled := true; label := TranslatingDots; hidden := true |}
              (showAIDescription text
                 (store_translation text it
                    (set_translateBtn
                       {| disabled := true; label := TranslatingDots;
                          hidden := hidden (translateBtn st) |} st))))
    as Hst1.
  { unfold st1, clickTranslate, requestTranslation.
    rewrite Hoffer, Hcur, Hprof. simpl. by rewrite Hreply. }
  split; [| split].
  - rewrite Hst1. by repeat split.
  - unfold again, loadInteractionDetails, renderDetails.
    by destruct (Js.truthy_opt (ai_description (with_translation text it))).
  - unfold again, loadInteractionDetails, renderDetails.
    change (ai_description (with_translation text it)) with text.
    by destruct (Js.truthy_opt text).
Qed.

Lemma details_translation_round_trip_witness :
  let st1 := snd (run catalog (clickTranslate untranslated_details) []) in
  let text := Some "May cause bleeding" in
  let it := record_of 1 "Warfarin" (Some "Bleeding risk") in
  let again := loadInteractionDetails details_document
                 (with_translation text it) in
  (currentInteraction st1 = Some (with_translation text it)
   /\ selectedInteraction st1 = Some (with_translation text it)
   /\ detailsCard st1 = detailsCard untranslated_details
   /\ aiContent st1 = default "" text
   /\ aiSection_shown st1 = true
   /\ hidden (translateBtn st1) = true
   /\ clickTranslate st1 = Ret st1)
  /\ detailsCard again = details_of it
  /\ (if Js.truthy_opt text
      then aiContent again = default "" text
           /\ aiSection_shown again = true
           /\ hidden (translateBtn again) = true
           /\ offers_translate again = false
      else aiContent again = aiContent details_document
           /\ aiSection_shown again = aiSection_shown details_document
           /\ translateBtn again = translateBtn details_document).
Proof.
  apply (details_translation_round_trip catalog [] untranslated_details
           details_document (record_of 1 "Warfarin" (Some "Bleeding risk"))
           {| consumer_description := Some "May cause bleeding";
              error := None |});
    reflexivity.
Defined.

(** X21: in every state the details page reaches once it has loaded a stored
    record, it holds a record whose copy in [localStorage] is equal to it,
    and the title, the severity badge and the blocks of the details card are
    those of this record, whatever translations were requested since the
    page was loaded; the title is never empty. *)
Theorem details_page_shows_its_record (st : Page) :
  reachable st ->
  exists it,
    currentInteraction st = Some it
    /\ selectedInteraction st = Some it
    /\ detailsCard st = details_of it
    /\ interactionTitle st
       = Js.or_else
           (Js.or_opt (Js.or_opt (Js.or_opt (drug it) (interaction_name it))
                         (disease_name it)) (name it))
           "Interaction"
    /\ severityIndicator st
       = Js.or_else (severity it) "Unknown" +:+ " Severity"
    /\ interactionTitle st <> "".
Proof.
  assert (forall a, Js.or_else a "Interaction" <> "") as Htitle.
  { intros a. by apply or_else_nonempty. }
  induction 1 as [doc stored | srv seen st _ IH].
  - exists stored. unfold loadInteractionDetails, renderDetails.
    destruct (Js.truthy_opt (ai_description stored)); simpl;
      (split; [done |]); (split; [done |]); (split; [done |]);
      (split; [done |]); (split; [done |]); apply Htitle.
  - destruct IH as (it & Hcur & Hsel & Hcard & Hname & Hseverity & Hnonempty).
    unfold clickTranslate.
    destruct (offers_translate st); [| by exists it].
    unfold requestTranslation. rewrite Hcur.
    destruct (negb (Js.truthy_opt (professional_description it)));
      [by exists it |].
    simpl.
    destruct (srv seen _) as [| response]; simpl; [by exists it |].
    destruct (body response) as [| data]; simpl; [by exists it |].
    destruct (ok response); simpl; [| by exists it].
    by exists (with_translation (consumer_description data) it).
Qed.

Lemma details_page_shows_its_record_witness :
  exists it,
    currentInteraction translated_details = Some it
    /\ selectedInteraction translated_details = Some it
    /\ detailsCard translated_details = details_of it
    /\ interactionTitle translated_details
       = Js.or_else
           (Js.or_opt (Js.or_opt (Js.or_opt (drug it) (interaction_name it))
                         (disease_name it)) (name it))
           "Interaction"
    /\ severityIndicator translated_details
       = Js.or_else (severity it) "Unknown" +:+ " Severity"
    /\ interactionTitle translated_details <> "".
Proof.
  apply (details_page_shows_its_record translated_details).
  apply reachable_load.
Defined.

Lemma truthy_opt_nonempty (a : option string) :
  Js.truthy_opt a = true -> default "" a <> "".
Proof.
  destruct a as [s |]; simpl; [apply truthy_nonempty | done].
Qed.

Lemma truthy_opt_some (a : option string) :
  Js.truthy_opt a = true -> a = Some (default "" a).
Proof. by destruct a. Qed.

(** X22: the details card holds at most four blocks, with distinct labels,
    none of them with an empty text; the block of the patient description is
    displayed only when its text differs from the text of the block of the
    professional description. *)
Theorem details_of_blocks (it : Interaction) :
  length (details_of it) <= 4
  /\ NoDup (detail_label <$> details_of it)
  /\ Forall (fun s => detail_text s <> "") (details_of it)
  /\ (forall professional patient,
         {| detail_label := "Professional Description";
            detail_text := professional |} ∈ details_of it ->
         {| detail_label := "Patient Description";
            detail_text := patient |} ∈ details_of it ->
         professional <> patient).
Proof.
  unfold details_of.
  destruct (Js.truthy_opt (hazard_level it)) eqn:Hhazard;
    destruct (Js.truthy_opt (plausibility it)) eqn:Hplausibility;
    destruct (Js.truthy_opt (applicable_conditions it)) eqn:Hconditions;
    destruct (Js.truthy_opt (professional_description it)) eqn:Hprofessional;
    destruct (Js.truthy_opt (patient_description it)) eqn:Hpatient;
    destruct (bool_decide
                (patient_description it = professional_description it))
      eqn:Hsame;
    simpl;
    (split; [lia |]);
    (split; [compute_done |]);
    (split;
     [repeat (apply Forall_cons; split);
      try apply Forall_nil_2; try done; by apply truthy_opt_nonempty |]);
    intros professional patient Hin1 Hin2;
    repeat (apply elem_of_cons in Hin1 as [[=] | Hin1]);
    try (by apply elem_of_nil in Hin1);
    repeat (apply elem_of_cons in Hin2 as [[=] | Hin2]);
    try (by apply elem_of_nil in Hin2);
    subst; intros Heq;
    apply bool_decide_eq_false in Hsame; apply Hsame;
    rewrite (truthy_opt_some _ Hpatient), (truthy_opt_some _ Hprofessional);
    by rewrite Heq.
Qed.

(** X23: on the details page a translate request that fails raises exactly
    one alert, never an empty one: the error message of the reply when the
    server refused with a readable body that carries one, the notice that the
    translation failed when it carries none, and the notice that the service
    cannot be reached when the request was rejected or the body of the reply
    cannot be read.  The button gets its label back. *)
Theorem details_failure_alerts (srv : server) (seen : list request) (st : Page)
    (it : Interaction) :
  offers_translate st = true ->
  currentInteraction st = Some it ->
  Js.truthy_opt (professional_description it) = true ->
  call_failed
    (srv seen
       (TranslateDescription (professional_description it)
          (interaction_id it))) = true ->
  let st1 := snd (run srv (clickTranslate st) seen) in
  let message :=
    match srv seen (TranslateDescription (professional_description it)
                      (interaction_id it)) with
    | Got {| ok := _; body := Got data |} =>
        Js.or_else (error data) "Translation failed. Please try again."
    | _ => "Unable to connect to translation service. Please try again later."
    end in
  alerts st1 = alerts st ++ [message]
  /\ message <> ""
  /\ label (translateBtn st1) = GeneratePatientFriendlyVersion.
Proof.
  intros Hoffer Hcur Hprof Hfailed st1 message.
  unfold st1, message, clickTranslate, requestTranslation.
  rewrite Hoffer, Hcur, Hprof. simpl.
  destruct (srv seen _) as [| [is_ok [| data]]]; simpl in *; [done | done |].
  rewrite orb_false_r in Hfailed. apply negb_true_iff in Hfailed.
  subst is_ok. simpl. split; [done |]. split; [| done].
  by apply or_else_nonempty.
Qed.

Lemma details_failure_alerts_witness :
  let st1 :=
    snd (run failing_translation (clickTranslate untranslated_details) []) in
  alerts st1 = alerts untranslated_details ++ ["Translation failed"]
  /\ "Translation failed" <> ""
  /\ label (translateBtn st1) = GeneratePatientFriendlyVersion.
Proof.
  apply (details_failure_alerts failing_translation [] untranslated_details
           (record_of 1 "Warfarin" (Some "Bleeding risk")));
    reflexivity.
Defined.

End DetailsPageTranslations.

Section ResultsPageNotices.
Import Interactions.

Lemma notice_or_cards_update_card (k k' : kind) (i : nat) (f : card -> card)
    (st : Page) :
  notice_or_cards k st -> notice_or_cards k (update_card k' i f st).
Proof.
  unfold notice_or_cards, update_card.
  destruct k, k'; simpl; try done; by destruct (shown _).
Qed.

Lemma notice_or_cards_set_timers (k : kind) (ts : list timer) (st : Page) :
  notice_or_cards k st -> notice_or_cards k (set_timers ts st).
Proof. unfold notice_or_cards. by destruct k. Qed.

Lemma notice_or_cards_setupCardListeners (k : kind) (st : Page) :
  notice_or_cards k st -> notice_or_cards k (setupCardListeners st).
Proof.
  unfold notice_or_cards, setupCardListeners.
  destruct k; simpl; by destruct (shown _).
Qed.

Lemma notice_or_cards_render_same (k : kind) (st : Page) :
  notice_or_cards k (render k st).
Proof.
  unfold render. destruct (length (records k st) =? 0) eqn:Hempty.
  - apply Nat.eqb_eq, nil_length_inv in Hempty.
    unfold notice_or_cards. rewrite records_set_list.
    by destruct k.
  - apply notice_or_cards_setupCardListeners.
    unfold notice_or_cards. rewrite records_set_list.
    assert (records k st <> []) as Hrecords.
    { intros Hnil. by rewrite Hnil in Hempty. }
    by destruct k.
Qed.

Lemma notice_or_cards_render (k k' : kind) (st : Page) :
  notice_or_cards k st -> notice_or_cards k (render k' st).
Proof.
  intros Hst. destruct (decide (k = k')) as [-> | Hk];
    [apply notice_or_cards_render_same |].
  assert (forall c, notice_or_cards k (set_list k' c st)) as Hset.
  { intros c. unfold notice_or_cards in *. by destruct k, k'. }
  unfold render. destruct (length (records k' st) =? 0); [apply Hset |].
  apply notice_or_cards_setupCardListeners, Hset.
Qed.

Lemma notice_or_cards_load (parsed : Bundle) (k : kind) :
  notice_or_cards k (loadInteractionsData parsed).
Proof.
  unfold loadInteractionsData, renderDiseaseInteractions,
    renderFoodInteractions, renderDrugDrugInteractions.
  destruct k.
  - apply notice_or_cards_render, notice_or_cards_render,
      notice_or_cards_render_same.
  - apply notice_or_cards_render, notice_or_cards_render_same.
  - apply notice_or_cards_render_same.
Qed.

Lemma notice_or_cards_translate (srv : server) (seen : list request)
    (k k' : kind) (i : nat) (st : Page) :
  notice_or_cards k st ->
  notice_or_cards k (snd (run srv (translate k' i st) seen)).
Proof.
  intros Hst. unfold translate. cbv zeta.
  assert (forall b, notice_or_cards k
                      (translation_failed k' i
                         (update_card k' i (set_btn b) st))) as Hfailed.
  { intros b. unfold translation_failed.
    by apply notice_or_cards_set_timers, notice_or_cards_update_card,
      notice_or_cards_update_card. }
  destruct (records k' _ !! i) as [it |]; simpl; [| apply Hfailed].
  destruct (srv seen (translate_request k' it)) as [| response]; simpl;
    [apply Hfailed |].
  destruct (ok response); simpl; [| apply Hfailed].
  destruct (body response) as [| data]; simpl; [apply Hfailed |].
  apply notice_or_cards_update_card.
  destruct (decide (k = k')) as [-> | Hk];
    [apply notice_or_cards_render_same |].
  apply notice_or_cards_render.
  apply (notice_or_cards_update_card k k' i
           (set_btn {| disabled := true; label := Translating |})) in Hst.
  unfold notice_or_cards in *. by destruct k, k'.
Qed.

Lemma notice_or_cards_handle (srv : server) (seen : list request) (e : event)
    (k : kind) (st : Page) :
  notice_or_cards k st ->
  notice_or_cards k (snd (run srv (handle e st) seen)).
Proof.
  intros Hst. destruct e as [k' i | k' i |]; simpl.
  - by apply notice_or_cards_update_card.
  - destruct (offers_translate k' i st); [| done].
    by apply notice_or_cards_translate.
  - unfold fireTimer. destruct (timers st) as [| t rest]; [done |].
    unfold restore_button. destruct (_ =? _).
    + by apply notice_or_cards_update_card, notice_or_cards_set_timers.
    + by apply notice_or_cards_set_timers.
Qed.

Lemma empty_text_handle (srv : server) (seen : list request) (e : event)
    (k : kind) (st : Page) :
  empty_text k (snd (run srv (handle e st) seen)) = empty_text k st.
Proof.
  assert (forall k' i f st, empty_text k (update_card k' i f st)
                            = empty_text k st) as Hupdate.
  { intros k' i f st'. by destruct k, k'. }
  assert (forall k' st, empty_text k (render k' st) = empty_text k st)
    as Hrender.
  { intros k' st'. unfold render.
    destruct (length (records k' st') =? 0); by destruct k, k'. }
  assert (forall k' i st, empty_text k (translation_failed k' i st)
                          = empty_text k st) as Hfailed.
  { intros k' i st'. unfold translation_failed. by destruct k, k'. }
  destruct e as [k' i | k' i |]; simpl.
  - apply Hupdate.
  - destruct (offers_translate k' i st); [| done].
    unfold translate. cbv zeta.
    destruct (records k' _ !! i) as [it |]; simpl;
      [| by rewrite Hfailed, Hupdate].
    destruct (srv seen (translate_request k' it)) as [| response]; simpl;
      [by rewrite Hfailed, Hupdate |].
    destruct (ok response); simpl; [| by rewrite Hfailed, Hupdate].
    destruct (body response) as [| data]; simpl;
      [by rewrite Hfailed, Hupdate |].
    rewrite Hupdate, Hrender.
    transitivity (empty_text k
                    (update_card k' i
                       (set_btn {| disabled := true; label := Translating |})
                       st)); [by destruct k, k' | apply Hupdate].
  - unfold fireTimer. destruct (timers st) as [| t rest]; [done |].
    unfold restore_button. destruct (_ =? _).
    + rewrite Hupdate. by destruct k.
    + by destruct k.
Qed.

(** X24: in every state of the results page that the stored bundle leads to,
    a list for which the bundle holds no record displays its notice, with the
    text written when the page was loaded, and a list for which it holds
    records displays cards, one for each record; no click, translation or
    timer changes which of the two a list displays. *)
Theorem lists_show_notice_or_cards (parsed : Bundle) (st : Page) (k : kind) :
  reachable_from parsed st ->
  shown (list_of k st)
  = (if length (stored_records k parsed) =? 0
     then EmptyState (empty_text k (loadInteractionsData parsed))
     else Cards (cards_of (list_of k st)))
  /\ length (cards_of (list_of k st)) = length (stored_records k parsed).
Proof.
  intros Hreach.
  assert (notice_or_cards k st
          /\ empty_text k st = empty_text k (loadInteractionsData parsed)
          /\ length (records k st) = length (stored_records k parsed))
    as (Hshape & Htext & Hlength).
  { induction Hreach as [| srv seen e st _ (IH1 & IH2 & IH3)].
    - split; [apply notice_or_cards_load |]. split; [done |].
      by rewrite records_loadInteractionsData.
    - split; [by apply notice_or_cards_handle |].
      split; [by rewrite empty_text_handle |].
      by rewrite length_records_handle. }
  pose proof (reachable_in_sync st (reachable_from_reachable parsed st Hreach) k)
    as Hsync.
  apply (f_equal length) in Hsync.
  rewrite length_fmap, length_imap in Hsync.
  split; [| by rewrite Hsync].
  unfold notice_or_cards in Hshape. unfold cards_of in *.
  rewrite <- Hlength.
  destruct (shown (list_of k st)) as [t | cs].
  - destruct Hshape as [-> ->]. by rewrite Htext.
  - destruct (records k st); [done | done].
Qed.

Lemma lists_show_notice_or_cards_witness :
  shown (list_of food_kind two_cards)
  = (if length (stored_records food_kind
                  (bundle_of
                     [record_of 1 "Warfarin" (Some "Bleeding risk");
                      record_of 2 "Ibuprofen" (Some "Reduced effect")]
                     ["Aspirin"; "Warfarin"; "Ibuprofen"])) =? 0
     then EmptyState
            (empty_text food_kind
               (loadInteractionsData
                  (bundle_of
                     [record_of 1 "Warfarin" (Some "Bleeding risk");
                      record_of 2 "Ibuprofen" (Some "Reduced effect")]
                     ["Aspirin"; "Warfarin"; "Ibuprofen"])))
     else Cards (cards_of (list_of food_kind two_cards)))
  /\ length (cards_of (list_of food_kind two_cards))
     = length (stored_records food_kind
                 (bundle_of
                    [record_of 1 "Warfarin" (Some "Bleeding risk");
                     record_of 2 "Ibuprofen" (Some "Reduced effect")]
                    ["Aspirin"; "Warfarin"; "Ibuprofen"])).
Proof.
  apply (lists_show_notice_or_cards _ two_cards food_kind).
  apply from_load.
Defined.

End ResultsPageNotices.
